(** * Applicant synchronisation scripts: a shallow embedding

    The development follows the three scripts of the repository:

    - [scripts/compression_script.py]   (class [AirtableCompressor]),
    - [scripts/decompression_script.py] (class [AirtableDecompressor]),
    - [scripts/llm_evaluation.py]       (class [LLMEvaluator]).

    Python values that travel through the scripts are JSON values; a Python
    [dict] is an association list in insertion order (the order is what
    [json.dumps] prints).  A Python [str] is the Rocq [string] of its UTF-8
    bytes, so that [str.encode()] is the identity.  Floats are outside the
    model: a number is an integer.  The remote table store, the clock and
    the logger are explicit components of a [world] that every method
    threads through a state-and-exception monad. *)

From Stdlib Require Import List String Ascii ZArith NArith Lia Bool Arith.
From Stdlib Require Import DecimalString Permutation Sorted.
From Stdlib Require OrderedTypeEx DecimalPos DecimalZ.
Import ListNotations.

Local Open Scope string_scope.
Local Open Scope list_scope.

(* ------------------------------------------------------------------ *)
(** ** JSON values and the Python operations used on them *)

#[warnings="-register-all"]
Inductive json : Type :=
| JNull
| JBool (b : bool)
| JNum (z : Z)
| JStr (s : string)
| JList (l : list json)
| JDict (d : list (string * json)).

Definition dict := list (string * json).

(** Python exceptions that the scripts can meet.  [Unmodelled] is no
    exception of Python: it marks an evaluation the model does not follow
    (a JSON text with a float literal, [NaN], [Infinity] or a lone
    surrogate escape, which [json.loads] does read); what is stated about
    a failing [json.loads] is stated of [JSONDecodeError] alone. *)
Inductive exn : Type :=
| AttributeError (m : string)
| TypeError (m : string)
| ValueError (m : string)
| KeyError (m : string)
| JSONDecodeError (m : string)
| HTTPError (m : string)
| Unmodelled (m : string).

(** [str(e)].  For a [JSONDecodeError] this is the [msg] of the exception
    only: the position [str(e)] appends to it ([: line L column C (char
    N)]) is not modelled, and the text of a decode error is left open in
    what is stated about logs. *)
Definition str_exn (e : exn) : string :=
  match e with
  | AttributeError m | TypeError m | ValueError m
  | KeyError m | JSONDecodeError m | HTTPError m | Unmodelled m => m
  end.

(** The outcome of evaluating a Python expression: a value or a raise. *)
Inductive outcome (A : Type) : Type :=
| Ret (a : A)
| Raise (e : exn).
Arguments Ret {A} a.
Arguments Raise {A} e.

Definition obind {A B} (o : outcome A) (k : A -> outcome B) : outcome B :=
  match o with
  | Ret a => k a
  | Raise e => Raise e
  end.

(** [d.get(k, default)] on a dict. *)
Fixpoint dict_get (d : dict) (k : string) (default : json) : json :=
  match d with
  | [] => default
  | (k', v) :: d' => if String.eqb k' k then v else dict_get d' k default
  end.

(** [k in d] *)
Fixpoint dict_mem (k : string) (d : dict) : bool :=
  match d with
  | [] => false
  | (k', _) :: d' => String.eqb k' k || dict_mem k d'
  end.

(** [d[k] = v]: an existing key keeps its position. *)
Fixpoint dict_set (d : dict) (k : string) (v : json) : dict :=
  match d with
  | [] => [(k, v)]
  | (k', v') :: d' =>
      if String.eqb k' k then (k', v) :: d' else (k', v') :: dict_set d' k v
  end.

(** [d.update(new)] *)
Definition dict_update (d new : dict) : dict :=
  fold_left (fun acc kv => dict_set acc (fst kv) (snd kv)) new d.

(** Truthiness: [bool(v)]. *)
Definition truthy (v : json) : bool :=
  match v with
  | JNull => false
  | JBool b => b
  | JNum z => negb (Z.eqb z 0)
  | JStr s => negb (String.eqb s "")
  | JList l => match l with [] => false | _ => true end
  | JDict d => match d with [] => false | _ => true end
  end.

(** Numbers and booleans compare as integers ([True == 1]). *)
Definition as_num (v : json) : option Z :=
  match v with
  | JNum z => Some z
  | JBool b => Some (if b then 1%Z else 0%Z)
  | _ => None
  end.

(** [a == b] *)
Fixpoint py_eq (a b : json) {struct a} : bool :=
  match a, b with
  | JNull, JNull => true
  | JStr s, JStr t => String.eqb s t
  | JNum _, _ | JBool _, _ =>
      match as_num a, as_num b with
      | Some x, Some y => Z.eqb x y
      | _, _ => false
      end
  | JList l1, JList l2 =>
      (fix go (l1 l2 : list json) {struct l1} : bool :=
         match l1, l2 with
         | [], [] => true
         | x :: l1', y :: l2' => py_eq x y && go l1' l2'
         | _, _ => false
         end) l1 l2
  | JDict d1, JDict d2 =>
      Nat.eqb (List.length d1) (List.length d2) &&
      (fix go (d1 : dict) {struct d1} : bool :=
         match d1 with
         | [] => true
         | (k, v) :: d1' =>
             dict_mem k d2
             && (fix find (d2 : dict) : bool :=
                   match d2 with
                   | [] => false
                   | (k', v') :: d2' =>
                       if String.eqb k' k then py_eq v v' else find d2'
                   end) d2
             && go d1'
         end) d1
  | _, _ => false
  end.

(** Byte-wise lexicographic order; on UTF-8 this is the code-point order
    that Python uses for [str < str]. *)
Definition string_ltb (s t : string) : bool :=
  match String.compare s t with Lt => true | _ => false end.

(** [a < b]; a [TypeError] between values of unordered types. *)
Fixpoint py_lt (a b : json) {struct a} : outcome bool :=
  match a, b with
  | JStr s, JStr t => Ret (string_ltb s t)
  | JList l1, JList l2 =>
      (fix go (l1 l2 : list json) {struct l1} : outcome bool :=
         match l1, l2 with
         | [], [] => Ret false
         | [], _ :: _ => Ret true
         | _ :: _, [] => Ret false
         | x :: l1', y :: l2' => if py_eq x y then go l1' l2' else py_lt x y
         end) l1 l2
  | _, _ =>
      match as_num a, as_num b with
      | Some x, Some y => Ret (Z.ltb x y)
      | _, _ => Raise (TypeError "'<' not supported")
      end
  end.

(** [v.get(k, default)] where [v] need not be a dict. *)
Definition py_get (v : json) (k : string) (default : json) : outcome json :=
  match v with
  | JDict d => Ret (dict_get d k default)
  | _ => Raise (AttributeError "object has no attribute 'get'")
  end.

(** The elements a [for] loop visits.  A string is visited one byte at a
    time (the scripts only ever call [.get] on the element, which raises
    for every string element alike). *)
Definition py_iter (v : json) : outcome (list json) :=
  match v with
  | JList l => Ret l
  | JDict d => Ret (map (fun kv => JStr (fst kv)) d)
  | JStr s => Ret (map (fun c => JStr (String c EmptyString)) (list_ascii_of_string s))
  | _ => Raise (TypeError "object is not iterable")
  end.

(** [len(v)] *)
Definition py_len (v : json) : outcome nat :=
  match v with
  | JList l => Ret (List.length l)
  | JDict d => Ret (List.length d)
  | JStr s => Ret (String.length s)
  | _ => Raise (TypeError "object has no len()")
  end.

(** [str(n)] for an integer. *)
Definition str_Z (z : Z) : string := NilZero.string_of_int (Z.to_int z).
Definition str_nat (n : nat) : string := str_Z (Z.of_nat n).

(* ------------------------------------------------------------------ *)
(** ** [json.dumps(obj, indent=2)] and [json.loads]

    The two library functions on the integer fragment of JSON.  The printer
    follows the default [ensure_ascii=True]; the parser is the strict
    scanner of the [json] module. *)

Local Open Scope char_scope.

Definition LF : ascii := ascii_of_nat 10.
Definition CR : ascii := ascii_of_nat 13.
Definition TAB : ascii := ascii_of_nat 9.
Definition BS : ascii := ascii_of_nat 8.
Definition FF : ascii := ascii_of_nat 12.
Definition DQ : ascii := ascii_of_nat 34.

Definition chr (c : ascii) : string := String c EmptyString.

Definition hex_digit (n : N) : ascii :=
  if (n <? 10)%N then ascii_of_N (48 + n) else ascii_of_N (87 + n).

(** ['{:04x}'.format(n)] *)
Definition hex4 (n : N) : string :=
  String (hex_digit (N.land (N.shiftr n 12) 15))
    (String (hex_digit (N.land (N.shiftr n 8) 15))
       (String (hex_digit (N.land (N.shiftr n 4) 15))
          (String (hex_digit (N.land n 15)) EmptyString))).

(** The code points of a UTF-8 byte string; [need] continuation bytes are
    still expected for the code point accumulated in [acc]. *)
Fixpoint utf8_decode (s : string) (need : nat) (acc : N) : list N :=
  match s with
  | EmptyString => []
  | String c s' =>
      let b := N_of_ascii c in
      match need with
      | O =>
          if (b <? 128)%N then b :: utf8_decode s' 0 0%N
          else if (b <? 224)%N then utf8_decode s' 1 (N.land b 31)
          else if (b <? 240)%N then utf8_decode s' 2 (N.land b 15)
          else utf8_decode s' 3 (N.land b 7)
      | S n =>
          let acc' := (acc * 64 + N.land b 63)%N in
          match n with
          | O => acc' :: utf8_decode s' 0 0%N
          | S _ => utf8_decode s' n acc'
          end
      end
  end.

(** The UTF-8 bytes of one code point. *)
Definition utf8_encode (cp : N) : string :=
  if (cp <? 128)%N then chr (ascii_of_N cp)
  else if (cp <? 2048)%N then
    String (ascii_of_N (192 + N.shiftr cp 6))
      (chr (ascii_of_N (128 + N.land cp 63)))
  else if (cp <? 65536)%N then
    String (ascii_of_N (224 + N.shiftr cp 12))
      (String (ascii_of_N (128 + N.land (N.shiftr cp 6) 63))
         (chr (ascii_of_N (128 + N.land cp 63))))
  else
    String (ascii_of_N (240 + N.shiftr cp 18))
      (String (ascii_of_N (128 + N.land (N.shiftr cp 12) 63))
         (String (ascii_of_N (128 + N.land (N.shiftr cp 6) 63))
            (chr (ascii_of_N (128 + N.land cp 63))))).

Definition escape_cp (cp : N) : string :=
  if (cp =? 34)%N then String "\" (chr DQ) else
  if (cp =? 92)%N then "\\" else
  if (cp =? 10)%N then "\n" else
  if (cp =? 13)%N then "\r" else
  if (cp =? 9)%N then "\t" else
  if (cp =? 8)%N then "\b" else
  if (cp =? 12)%N then "\f" else
  if ((32 <=? cp) && (cp <=? 126))%N then chr (ascii_of_N cp) else
  if (cp <? 65536)%N then ("\u" ++ hex4 cp)%string
  else
    let v := (cp - 65536)%N in
    ("\u" ++ hex4 (N.lor 55296 (N.shiftr v 10))
       ++ "\u" ++ hex4 (N.lor 56320 (N.land v 1023)))%string.

(** [json.encoder.encode_basestring_ascii] *)
Definition encode_basestring_ascii (s : string) : string :=
  (chr DQ ++ String.concat EmptyString (map escape_cp (utf8_decode s 0 0%N))
     ++ chr DQ)%string.

Fixpoint spaces (n : nat) : string :=
  match n with
  | O => EmptyString
  | S n' => String " " (spaces n')
  end.

(** A line break followed by the indentation of nesting level [lvl]. *)
Definition newline_indent (lvl : nat) : string :=
  String LF (spaces (2 * lvl)).

Fixpoint dumps_at (lvl : nat) (v : json) {struct v} : string :=
  match v with
  | JNull => "null"
  | JBool true => "true"
  | JBool false => "false"
  | JNum z => str_Z z
  | JStr s => encode_basestring_ascii s
  | JList [] => "[]"
  | JList l =>
      ("[" ++ newline_indent (S lvl)
         ++ String.concat ("," ++ newline_indent (S lvl))
              (map (dumps_at (S lvl)) l)
         ++ newline_indent lvl ++ "]")%string
  | JDict [] => "{}"
  | JDict d =>
      ("{" ++ newline_indent (S lvl)
         ++ String.concat ("," ++ newline_indent (S lvl))
              (map (fun kv : string * json =>
                      let (k, x) := kv in
                      encode_basestring_ascii k ++ ": " ++ dumps_at (S lvl) x)
                 d)
         ++ newline_indent lvl ++ "}")%string
  end.

(** [json.dumps(v, indent=2)] *)
Definition json_dumps (v : json) : string := dumps_at 0 v.

(** *** The scanner *)

Definition is_json_ws (c : ascii) : bool :=
  Ascii.eqb c " " || Ascii.eqb c TAB || Ascii.eqb c LF || Ascii.eqb c CR.

Fixpoint skip_ws (s : string) : string :=
  match s with
  | String c s' => if is_json_ws c then skip_ws s' else s
  | EmptyString => s
  end.

Definition is_digit (c : ascii) : bool :=
  let n := N_of_ascii c in ((48 <=? n) && (n <=? 57))%N.

Definition hex_val (c : ascii) : option N :=
  let n := N_of_ascii c in
  if ((48 <=? n) && (n <=? 57))%N then Some (n - 48)%N
  else if ((97 <=? n) && (n <=? 102))%N then Some (n - 87)%N
  else if ((65 <=? n) && (n <=? 70))%N then Some (n - 55)%N
  else None.

(** Four hexadecimal digits after a [\u]. *)
Definition scan_hex4 (s : string) : option (N * string) :=
  match s with
  | String a (String b (String c (String d s'))) =>
      match hex_val a, hex_val b, hex_val c, hex_val d with
      | Some x, Some y, Some z, Some w =>
          Some (((x * 16 + y) * 16 + z) * 16 + w, s')%N
      | _, _, _, _ => None
      end
  | _ => None
  end.

Definition decode_error {A} (m : string) : outcome A := Raise (JSONDecodeError m).

(** A text [json.loads] reads into a value the model has not: a float, or
    a string with a lone surrogate. *)
Definition unmodelled {A} (m : string) : outcome A := Raise (Unmodelled m).

(** [json.decoder.scanstring], after the opening quote.  A [\u] escape of a
    surrogate that is not part of a pair has no UTF-8 bytes: Python keeps
    the lone surrogate, the model stops there. *)
Fixpoint scanstring (fuel : nat) (s : string) : outcome (string * string) :=
  match fuel with
  | O => decode_error "Unterminated string"
  | S fuel' =>
      match s with
      | EmptyString => decode_error "Unterminated string"
      | String c s' =>
          if Ascii.eqb c DQ then Ret (EmptyString, s')
          else if Ascii.eqb c "\" then
            match s' with
            | EmptyString => decode_error "Unterminated string"
            | String e s'' =>
                let simple (x : ascii) :=
                  obind (scanstring fuel' s'')
                    (fun r => Ret (String x (fst r), snd r)) in
                if Ascii.eqb e DQ then simple DQ
                else if Ascii.eqb e "\" then simple "\"
                else if Ascii.eqb e "/" then simple "/"
                else if Ascii.eqb e "b" then simple BS
                else if Ascii.eqb e "f" then simple FF
                else if Ascii.eqb e "n" then simple LF
                else if Ascii.eqb e "r" then simple CR
                else if Ascii.eqb e "t" then simple TAB
                else if Ascii.eqb e "u" then
                  match scan_hex4 s'' with
                  | None => decode_error "Invalid \uXXXX escape"
                  | Some (u, rest) =>
                      if ((55296 <=? u) && (u <=? 56319))%N then
                        match rest with
                        | String "\" (String "u" rest') =>
                            match scan_hex4 rest' with
                            | Some (u2, rest'') =>
                                if ((56320 <=? u2) && (u2 <=? 57343))%N then
                                  let cp :=
                                    (65536 + N.lor (N.shiftl (u - 55296) 10)
                                               (u2 - 56320))%N in
                                  obind (scanstring fuel' rest'')
                                    (fun r => Ret ((utf8_encode cp ++ fst r)%string, snd r))
                                else unmodelled "lone surrogate"
                            | None => unmodelled "lone surrogate"
                            end
                        | _ => unmodelled "lone surrogate"
                        end
                      else if ((56320 <=? u) && (u <=? 57343))%N then
                        unmodelled "lone surrogate"
                      else
                        obind (scanstring fuel' rest)
                          (fun r => Ret ((utf8_encode u ++ fst r)%string, snd r))
                  end
                else decode_error "Invalid \escape"
            end
          else if (N_of_ascii c <? 32)%N then
            decode_error "Invalid control character"
          else
            obind (scanstring fuel' s')
              (fun r => Ret (String c (fst r), snd r))
      end
  end.

(** The digits at the head of [s], as a number continuing [acc]. *)
Fixpoint scan_digits (s : string) (acc : Z) : Z * string :=
  match s with
  | String c s' =>
      if is_digit c then scan_digits s' (acc * 10 + Z.of_N (N_of_ascii c - 48))%Z
      else (acc, s)
  | EmptyString => (acc, s)
  end.

Definition starts_with_digit (s : string) : bool :=
  match s with
  | String c _ => is_digit c
  | EmptyString => false
  end.

(** Whether the text after an integer part continues it into a float:
    [(\.\d+)] or [([eE][-+]?\d+)]. *)
Definition float_tail (s : string) : bool :=
  match s with
  | String c s' =>
      if Ascii.eqb c "." then starts_with_digit s'
      else if Ascii.eqb c "e" || Ascii.eqb c "E" then
        match s' with
        | String d s'' =>
            if Ascii.eqb d "+" || Ascii.eqb d "-" then starts_with_digit s''
            else is_digit d
        | EmptyString => false
        end
      else false
  | EmptyString => false
  end.

(** [NUMBER_RE]: an optional minus sign, then [0] or a digit string with
    no leading zero.  A float literal and [-Infinity] are read by Python
    into a float, which the model has not. *)
Definition scan_number (s : string) : outcome (json * string) :=
  let unsigned (neg : bool) (t : string) : outcome (json * string) :=
    match t with
    | String c t' =>
        if Ascii.eqb c "0" then
          if float_tail t' then unmodelled "float literal"
          else Ret (JNum 0, t')
        else if is_digit c then
          let (n, rest) := scan_digits t 0%Z in
          if float_tail rest then unmodelled "float literal"
          else Ret (JNum (if neg then (- n)%Z else n), rest)
        else decode_error "Expecting value"
    | EmptyString => decode_error "Expecting value"
    end in
  match s with
  | String "-" t =>
      if String.prefix "Infinity" t then unmodelled "-Infinity" else unsigned true t
  | _ => unsigned false s
  end.

(** What follows the prefix [p] in [s], when [s] starts with [p]. *)
Fixpoint strip_prefix (p s : string) : option string :=
  match p, s with
  | EmptyString, _ => Some s
  | String a p', String b s' => if Ascii.eqb a b then strip_prefix p' s' else None
  | String _ _, EmptyString => None
  end.

Fixpoint scan_value (fuel : nat) (s : string) {struct fuel} : outcome (json * string) :=
  match fuel with
  | O => unmodelled "nesting too deep"
  | S fuel' =>
      match s with
      | String "{" s' =>
          match skip_ws s' with
          | String "}" rest => Ret (JDict [], rest)
          | s1 => obind (scan_members fuel' s1 []) (fun r => Ret (JDict (fst r), snd r))
          end
      | String "[" s' =>
          match skip_ws s' with
          | String "]" rest => Ret (JList [], rest)
          | s1 => obind (scan_elements fuel' s1) (fun r => Ret (JList (fst r), snd r))
          end
      | String "n" _ =>
          match strip_prefix "null" s with
          | Some rest => Ret (JNull, rest)
          | None => decode_error "Expecting value"
          end
      | String "t" _ =>
          match strip_prefix "true" s with
          | Some rest => Ret (JBool true, rest)
          | None => decode_error "Expecting value"
          end
      | String "f" _ =>
          match strip_prefix "false" s with
          | Some rest => Ret (JBool false, rest)
          | None => decode_error "Expecting value"
          end
      | String "N" _ =>
          if String.prefix "NaN" s then unmodelled "NaN"
          else decode_error "Expecting value"
      | String "I" _ =>
          if String.prefix "Infinity" s then unmodelled "Infinity"
          else decode_error "Expecting value"
      | String c s' =>
          if Ascii.eqb c DQ then
            obind (scanstring (S (String.length s')) s')
              (fun r => Ret (JStr (fst r), snd r))
          else scan_number s
      | EmptyString => decode_error "Expecting value"
      end
  end

with scan_elements (fuel : nat) (s : string) {struct fuel} : outcome (list json * string) :=
  match fuel with
  | O => unmodelled "nesting too deep"
  | S fuel' =>
      obind (scan_value fuel' s) (fun r =>
        let (v, rest) := r in
        match skip_ws rest with
        | String "]" rest' => Ret ([v], rest')
        | String "," rest' =>
            obind (scan_elements fuel' (skip_ws rest'))
              (fun r' => Ret (v :: fst r', snd r'))
        | _ => decode_error "Expecting ',' delimiter"
        end)
  end

with scan_members (fuel : nat) (s : string) (acc : dict) {struct fuel}
  : outcome (dict * string) :=
  match fuel with
  | O => unmodelled "nesting too deep"
  | S fuel' =>
      match s with
      | String c s' =>
          if negb (Ascii.eqb c DQ) then
            decode_error "Expecting property name enclosed in double quotes"
          else
          obind (scanstring (S (String.length s')) s') (fun kr =>
            let (k, rest) := kr in
            match skip_ws rest with
            | String ":" rest1 =>
                obind (scan_value fuel' (skip_ws rest1)) (fun vr =>
                  let (v, rest2) := vr in
                  let acc' := dict_set acc k v in
                  match skip_ws rest2 with
                  | String "}" rest3 => Ret (acc', rest3)
                  | String "," rest3 => scan_members fuel' (skip_ws rest3) acc'
                  | _ => decode_error "Expecting ',' delimiter"
                  end)
            | _ => decode_error "Expecting ':' delimiter"
            end)
      | EmptyString =>
          decode_error "Expecting property name enclosed in double quotes"
      end
  end.

Local Close Scope char_scope.

(** [json.loads(s)] on a [str]. *)
Definition json_loads (s : string) : outcome json :=
  obind (scan_value (2 * String.length s + 2) (skip_ws s)) (fun r =>
    match skip_ws (snd r) with
    | EmptyString => Ret (fst r)
    | _ => decode_error "Extra data"
    end).

(** [json.loads(v)] on any value: only a [str] can be parsed. *)
Definition py_json_loads (v : json) : outcome json :=
  match v with
  | JStr s => json_loads s
  | _ => Raise (TypeError "the JSON object must be str, bytes or bytearray")
  end.

(* ------------------------------------------------------------------ *)
(** ** [hashlib.md5(...).hexdigest()]

    The digest the evaluator stores for change detection (RFC 1321), on
    32-bit words held in [Z] with the wrap-around written out. *)

Local Open Scope Z_scope.

Definition wrap32 (x : Z) : Z := x mod 4294967296.

Definition rotl32 (x : Z) (c : Z) : Z :=
  wrap32 (Z.lor (Z.shiftl x c) (Z.shiftr x (32 - c))).

(** The per-round additive constants, [floor(2^32 * abs(sin(i + 1)))]. *)
Definition md5_K : list Z :=
  [
   0xd76aa478; 0xe8c7b756; 0x242070db; 0xc1bdceee;
   0xf57c0faf; 0x4787c62a; 0xa8304613; 0xfd469501;
   0x698098d8; 0x8b44f7af; 0xffff5bb1; 0x895cd7be;
   0x6b901122; 0xfd987193; 0xa679438e; 0x49b40821;
   0xf61e2562; 0xc040b340; 0x265e5a51; 0xe9b6c7aa;
   0xd62f105d; 0x02441453; 0xd8a1e681; 0xe7d3fbc8;
   0x21e1cde6; 0xc33707d6; 0xf4d50d87; 0x455a14ed;
   0xa9e3e905; 0xfcefa3f8; 0x676f02d9; 0x8d2a4c8a;
   0xfffa3942; 0x8771f681; 0x6d9d6122; 0xfde5380c;
   0xa4beea44; 0x4bdecfa9; 0xf6bb4b60; 0xbebfbc70;
   0x289b7ec6; 0xeaa127fa; 0xd4ef3085; 0x04881d05;
   0xd9d4d039; 0xe6db99e5; 0x1fa27cf8; 0xc4ac5665;
   0xf4292244; 0x432aff97; 0xab9423a7; 0xfc93a039;
   0x655b59c3; 0x8f0ccc92; 0xffeff47d; 0x85845dd1;
   0x6fa87e4f; 0xfe2ce6e0; 0xa3014314; 0x4e0811a1;
   0xf7537e82; 0xbd3af235; 0x2ad7d2bb; 0xeb86d391].

(** The per-round left-rotation amounts. *)
Definition md5_S : list Z :=
  [
   7; 12; 17; 22; 7; 12; 17; 22; 7; 12; 17; 22; 7; 12; 17; 22;
   5; 9; 14; 20; 5; 9; 14; 20; 5; 9; 14; 20; 5; 9; 14; 20;
   4; 11; 16; 23; 4; 11; 16; 23; 4; 11; 16; 23; 4; 11; 16; 23;
   6; 10; 15; 21; 6; 10; 15; 21; 6; 10; 15; 21; 6; 10; 15; 21].

Record md5_state : Type := MD5State { sA : Z; sB : Z; sC : Z; sD : Z }.

Definition md5_init : md5_state :=
  MD5State 0x67452301 0xefcdab89 0x98badcfe 0x10325476.

(** One of the 64 operations of a block: [i] is the operation index and [M]
    the sixteen little-endian words of the block. *)
Definition md5_op (M : list Z) (st : md5_state) (i : nat) : md5_state :=
  let '(MD5State a b c d) := st in
  let iz := Z.of_nat i in
  let '(f, g) :=
    if iz <? 16 then
      (Z.lor (Z.land b c) (Z.land (Z.lxor b 0xffffffff) d), iz)
    else if iz <? 32 then
      (Z.lor (Z.land d b) (Z.land (Z.lxor d 0xffffffff) c), (5 * iz + 1) mod 16)
    else if iz <? 48 then
      (Z.lxor (Z.lxor b c) d, (3 * iz + 5) mod 16)
    else
      (Z.lxor c (Z.lor b (Z.lxor d 0xffffffff)), (7 * iz) mod 16) in
  let f' := wrap32 (f + a + nth i md5_K 0 + nth (Z.to_nat g) M 0) in
  MD5State d (wrap32 (b + rotl32 f' (nth i md5_S 0))) b c.

Definition md5_block (st : md5_state) (M : list Z) : md5_state :=
  let st' := fold_left (md5_op M) (seq 0 64) st in
  MD5State (wrap32 (sA st + sA st')) (wrap32 (sB st + sB st'))
           (wrap32 (sC st + sC st')) (wrap32 (sD st + sD st')).

(** [n] bytes of [x], least significant first. *)
Fixpoint le_bytes (n : nat) (x : Z) : list Z :=
  match n with
  | O => []
  | S n' => (x mod 256) :: le_bytes n' (x / 256)
  end.

Fixpoint le_word (bs : list Z) : Z :=
  match bs with
  | [] => 0
  | b :: bs' => b + 256 * le_word bs'
  end.

(** The message followed by the bit [1], zeros up to 56 modulo 64 bytes and
    the bit length as a 64-bit little-endian number. *)
Definition md5_pad (msg : list Z) : list Z :=
  let len := Z.of_nat (List.length msg) in
  let zeros := Z.to_nat ((55 - len) mod 64) in
  msg ++ [128] ++ repeat 0 zeros ++ le_bytes 8 ((8 * len) mod 2 ^ 64).

(** Cuts a byte list into lists of [n] bytes ([k] lists at most). *)
Fixpoint chunks (k n : nat) (l : list Z) : list (list Z) :=
  match k with
  | O => []
  | S k' =>
      match l with
      | [] => []
      | _ => firstn n l :: chunks k' n (skipn n l)
      end
  end.

Definition md5_words (block : list Z) : list Z :=
  map le_word (chunks 16 4 block).

Definition md5_digest (msg : list Z) : list Z :=
  let padded := md5_pad msg in
  let blocks := chunks (List.length padded) 64 padded in
  let st := fold_left (fun st b => md5_block st (md5_words b)) blocks md5_init in
  le_bytes 4 (sA st) ++ le_bytes 4 (sB st) ++ le_bytes 4 (sC st) ++ le_bytes 4 (sD st).

Definition hex_byte (b : Z) : string :=
  String (hex_digit (Z.to_N (b / 16)))
    (String (hex_digit (Z.to_N (b mod 16))) EmptyString).

Definition bytes_of_string (s : string) : list Z :=
  map (fun c => Z.of_N (N_of_ascii c)) (list_ascii_of_string s).

(** [hashlib.md5(s.encode()).hexdigest()] *)
Definition md5_hexdigest (s : string) : string :=
  String.concat EmptyString (map hex_byte (md5_digest (bytes_of_string s))).

Local Close Scope Z_scope.

(* ------------------------------------------------------------------ *)
(** ** The world: table store, clock and logger *)

Inductive level : Type := INFO | WARNING | ERROR.

Record log_entry : Type := LogEntry { log_level : level; log_msg : string }.

(** A record of the table store: [{'id': ..., 'fields': {...}}]. *)
Record airtable_record : Type := Rec { rec_id : string; rec_fields : dict }.

(** The four tables the scripts open. *)
Inductive table : Type :=
| Applicants          (* 'Applicants' *)
| PersonalDetails     (* 'Personal Details' *)
| WorkExperience      (* 'Work Experience' *)
| SalaryPreferences.  (* 'Salary Preferences' *)

(** [clock] lists what successive [datetime.now().isoformat()] calls return
    and [ticks] counts those calls; [fails] tells which remote calls, in
    the order they are made, fail in transport, and [calls] counts them;
    [created] counts the records created, for fresh identifiers. *)
Record world : Type := World {
  applicants_rows : list airtable_record;
  personal_rows : list airtable_record;
  experience_rows : list airtable_record;
  salary_rows : list airtable_record;
  log : list log_entry;
  clock : nat -> string;
  ticks : nat;
  fails : nat -> bool;
  calls : nat;
  created : nat
}.

Definition rows (t : table) (w : world) : list airtable_record :=
  match t with
  | Applicants => applicants_rows w
  | PersonalDetails => personal_rows w
  | WorkExperience => experience_rows w
  | SalaryPreferences => salary_rows w
  end.

Definition set_rows (t : table) (rs : list airtable_record) (w : world) : world :=
  match t with
  | Applicants =>
      World rs (personal_rows w) (experience_rows w) (salary_rows w)
        (log w) (clock w) (ticks w) (fails w) (calls w) (created w)
  | PersonalDetails =>
      World (applicants_rows w) rs (experience_rows w) (salary_rows w)
        (log w) (clock w) (ticks w) (fails w) (calls w) (created w)
  | WorkExperience =>
      World (applicants_rows w) (personal_rows w) rs (salary_rows w)
        (log w) (clock w) (ticks w) (fails w) (calls w) (created w)
  | SalaryPreferences =>
      World (applicants_rows w) (personal_rows w) (experience_rows w) rs
        (log w) (clock w) (ticks w) (fails w) (calls w) (created w)
  end.

Definition add_log (e : log_entry) (w : world) : world :=
  World (applicants_rows w) (personal_rows w) (experience_rows w) (salary_rows w)
    (log w ++ [e]) (clock w) (ticks w) (fails w) (calls w) (created w).

Definition count_call (w : world) : world :=
  World (applicants_rows w) (personal_rows w) (experience_rows w) (salary_rows w)
    (log w) (clock w) (ticks w) (fails w) (S (calls w)) (created w).

Definition count_tick (w : world) : world :=
  World (applicants_rows w) (personal_rows w) (experience_rows w) (salary_rows w)
    (log w) (clock w) (S (ticks w)) (fails w) (calls w) (created w).

Definition count_created (w : world) : world :=
  World (applicants_rows w) (personal_rows w) (experience_rows w) (salary_rows w)
    (log w) (clock w) (ticks w) (fails w) (calls w) (S (created w)).

(** *** The monad of a method body *)

Definition M (A : Type) : Type := world -> outcome A * world.

Definition ret {A} (a : A) : M A := fun w => (Ret a, w).

Definition raise {A} (e : exn) : M A := fun w => (Raise e, w).

Definition bind {A B} (m : M A) (k : A -> M B) : M B :=
  fun w =>
    match m w with
    | (Ret a, w') => k a w'
    | (Raise e, w') => (Raise e, w')
    end.

(** [try: m  except Exception as e: h e] *)
Definition try_except {A} (m : M A) (h : exn -> M A) : M A :=
  fun w =>
    match m w with
    | (Ret a, w') => (Ret a, w')
    | (Raise e, w') => h e w'
    end.

Definition lift {A} (o : outcome A) : M A := fun w => (o, w).

Declare Scope monad_scope.
Delimit Scope monad_scope with monad.
Notation "x <- m ;; k" := (bind m (fun x => k))
  (at level 61, m at next level, right associativity) : monad_scope.
Notation "m ;; k" := (bind m (fun _ => k))
  (at level 61, right associativity) : monad_scope.
Local Open Scope monad_scope.

(** [for x in l: body x] *)
Fixpoint for_each {A} (l : list A) (body : A -> M unit) : M unit :=
  match l with
  | [] => ret tt
  | x :: l' => body x ;; for_each l' body
  end.

(** [logger.info], [logger.warning], [logger.error] *)
Definition logger (lv : level) (msg : string) : M unit :=
  fun w => (Ret tt, add_log (LogEntry lv msg) w).

(** [datetime.now().isoformat()] *)
Definition now_isoformat : M string :=
  fun w => (Ret (clock w (ticks w)), count_tick w).

(** *** The table store

    Every operation is one remote call: it is counted, and it raises when
    the transport fails on that call. *)

Definition remote {A} (op : M A) : M A :=
  fun w =>
    if fails w (calls w)
    then (Raise (HTTPError "transport failure"), count_call w)
    else op (count_call w).

(** Whether a stored field value designates [value]: the text itself, or a
    list of links that contains it (the scripts write the link to the
    applicant as [[applicant_id]]). *)
Definition field_matches (value : string) (x : json) : bool :=
  match x with
  | JStr s => String.eqb s value
  | JList l => existsb (fun y => py_eq y (JStr value)) l
  | _ => false
  end.

Definition record_matches (field value : string) (r : airtable_record) : bool :=
  field_matches value (dict_get (rec_fields r) field JNull).

(** [table.search(field, value)]: the matching records, in table order. *)
Definition search (t : table) (field value : string) : M (list airtable_record) :=
  remote (fun w => (Ret (filter (record_matches field value) (rows t w)), w)).

Definition has_id (id : string) (r : airtable_record) : bool :=
  String.eqb (rec_id r) id.

(** [table.get(id)]: the store answers 404 for an unknown identifier. *)
Definition get (t : table) (id : string) : M airtable_record :=
  remote (fun w =>
    match find (has_id id) (rows t w) with
    | Some r => (Ret r, w)
    | None => (Raise (HTTPError "404 NOT_FOUND"), w)
    end).

Fixpoint update_rows (id : string) (new : dict) (rs : list airtable_record)
  : list airtable_record :=
  match rs with
  | [] => []
  | r :: rs' =>
      if has_id id r then Rec (rec_id r) (dict_update (rec_fields r) new) :: rs'
      else r :: update_rows id new rs'
  end.

(** [table.update(id, fields)]: the given fields overwrite the stored ones,
    the others stay. *)
Definition update (t : table) (id : string) (new : dict) : M airtable_record :=
  remote (fun w =>
    match find (has_id id) (rows t w) with
    | Some r =>
        (Ret (Rec (rec_id r) (dict_update (rec_fields r) new)),
         set_rows t (update_rows id new (rows t w)) w)
    | None => (Raise (HTTPError "404 NOT_FOUND"), w)
    end).

Definition fresh_id (n : nat) : string := "rec" ++ str_nat n.

(** [table.create(fields)]: a new record at the end of the table. *)
Definition create (t : table) (new : dict) : M airtable_record :=
  remote (fun w =>
    let r := Rec (fresh_id (created w)) new in
    (Ret r, count_created (set_rows t (rows t w ++ [r]) w))).

(** [table.delete(id)] *)
Definition delete (t : table) (id : string) : M unit :=
  remote (fun w =>
    if existsb (has_id id) (rows t w)
    then (Ret tt, set_rows t (filter (fun r => negb (has_id id r)) (rows t w)) w)
    else (Raise (HTTPError "404 NOT_FOUND"), w)).

(** The filter formulas the batch drivers send. *)
Inductive formula : Type :=
| FEmpty (f : string)        (* {f} = '' *)
| FNonEmpty (f : string)     (* {f} != '' *)
| FGreater (f g : string)    (* {f} > {g} *)
| FAnd (a b : formula)
| FOr (a b : formula).

(** A field with no value reads as blank. *)
Definition blank (v : json) : bool :=
  match v with
  | JNull => true
  | JStr s => String.eqb s ""
  | JList [] => true
  | _ => false
  end.

Fixpoint eval_formula (phi : formula) (fs : dict) : bool :=
  match phi with
  | FEmpty f => blank (dict_get fs f JNull)
  | FNonEmpty f => negb (blank (dict_get fs f JNull))
  | FGreater f g =>
      match py_lt (dict_get fs g JNull) (dict_get fs f JNull) with
      | Ret b => b
      | Raise _ => false
      end
  | FAnd a b => eval_formula a fs && eval_formula b fs
  | FOr a b => eval_formula a fs || eval_formula b fs
  end.

(** [table.get_all(formula=phi)] *)
Definition get_all (t : table) (phi : formula) : M (list airtable_record) :=
  remote (fun w =>
    (Ret (filter (fun r => eval_formula phi (rec_fields r)) (rows t w)), w)).

(* ------------------------------------------------------------------ *)
(** ** [compression_script.py]: class [AirtableCompressor] *)

Module AirtableCompressor.

(** [_fetch_personal_data] *)
Definition _fetch_personal_data (applicant_id : string) : M (option dict) :=
  try_except
    (records <- search PersonalDetails "Applicant" applicant_id ;;
     match records with
     | r :: _ => ret (Some (rec_fields r))
     | [] => ret None
     end)
    (fun e =>
       logger ERROR ("Failed to fetch personal data: " ++ str_exn e) ;;
       ret None).

(** [_fetch_experience_data] *)
Definition _fetch_experience_data (applicant_id : string) : M (list dict) :=
  try_except
    (records <- search WorkExperience "Applicant" applicant_id ;;
     ret (map rec_fields records))
    (fun e =>
       logger ERROR ("Failed to fetch experience data: " ++ str_exn e) ;;
       ret []).

(** [_fetch_salary_data] *)
Definition _fetch_salary_data (applicant_id : string) : M (option dict) :=
  try_except
    (records <- search SalaryPreferences "Applicant" applicant_id ;;
     match records with
     | r :: _ => ret (Some (rec_fields r))
     | [] => ret None
     end)
    (fun e =>
       logger ERROR ("Failed to fetch salary data: " ++ str_exn e) ;;
       ret None).

(** The three sections of the document, as [compress_applicant_data] builds
    them from the fields of the native records. *)
Definition personal_to_canonical (personal_data : dict) : json :=
  JDict [("name", dict_get personal_data "Full Name" (JStr ""));
         ("email", dict_get personal_data "Email" (JStr ""));
         ("location", dict_get personal_data "Location" (JStr ""));
         ("linkedin", dict_get personal_data "LinkedIn" (JStr ""))].

Definition experience_to_canonical (exp : dict) : json :=
  JDict [("company", dict_get exp "Company" (JStr ""));
         ("title", dict_get exp "Title" (JStr ""));
         ("start", dict_get exp "Start Date" (JStr ""));
         ("end", dict_get exp "End Date" (JStr ""));
         ("technologies", dict_get exp "Technologies" (JList []));
         ("current", dict_get exp "Current Position" (JBool false))].

Definition salary_to_canonical (salary_data : dict) : json :=
  JDict [("preferred_rate", dict_get salary_data "Preferred Rate" (JNum 0));
         ("minimum_rate", dict_get salary_data "Minimum Rate" (JNum 0));
         ("currency", dict_get salary_data "Currency" (JStr "USD"));
         ("availability", dict_get salary_data "Availability" (JNum 0))].

(** The [compressed_json] of [compress_applicant_data]. *)
Definition build_document (personal : dict) (experience_data : list dict)
  (salary : dict) (compressed_at : string) : json :=
  JDict [("personal", personal_to_canonical personal);
         ("experience", JList (map experience_to_canonical experience_data));
         ("salary", salary_to_canonical salary);
         ("metadata", JDict [("compressed_at", JStr compressed_at);
                             ("version", JStr "1.0")])].

(** Truthiness of an [Optional[Dict]]: [None] and [{}] are falsy. *)
Definition opt_truthy (o : option dict) : bool :=
  match o with
  | Some d => truthy (JDict d)
  | None => false
  end.

(** [compress_applicant_data]: [Some] document, or [None] when required
    data is missing. *)
Definition compress_applicant_data (applicant_id : string) : M (option json) :=
  try_except
    (logger INFO ("Starting compression for applicant " ++ applicant_id) ;;
     personal_data <- _fetch_personal_data applicant_id ;;
     experience_data <- _fetch_experience_data applicant_id ;;
     salary_data <- _fetch_salary_data applicant_id ;;
     if negb (forallb opt_truthy [personal_data; salary_data]) then
       logger ERROR ("Missing required data for applicant " ++ applicant_id) ;;
       ret None
     else
       match personal_data, salary_data with
       | Some personal, Some salary =>
           compressed_at <- now_isoformat ;;
           let compressed_json :=
             build_document personal experience_data salary compressed_at in
           let json_string := json_dumps compressed_json in
           last_compressed <- now_isoformat ;;
           update Applicants applicant_id
             [("Compressed JSON", JStr json_string);
              ("Last Compressed", JStr last_compressed)] ;;
           logger INFO ("Successfully compressed data for applicant " ++ applicant_id) ;;
           ret (Some compressed_json)
       | _, _ => raise (AttributeError "'NoneType' object has no attribute 'get'")
       end)
    (fun e =>
       logger ERROR ("Failed to compress data for applicant " ++ applicant_id
                       ++ ": " ++ str_exn e) ;;
       raise e).

(** One turn of the loop of [compress_all_pending]. *)
Definition compress_pending_turn (applicant : airtable_record) : M unit :=
  let applicant_id := rec_id applicant in
  try_except
    (compress_applicant_data applicant_id ;; ret tt)
    (fun e =>
       logger ERROR ("Failed to compress applicant " ++ applicant_id
                       ++ ": " ++ str_exn e)).

(** The loop of [compress_all_pending] over the pending records. *)
Definition compress_pending_loop (pending_applicants : list airtable_record) : M unit :=
  for_each pending_applicants compress_pending_turn.

(** [compress_all_pending] *)
Definition compress_all_pending : M unit :=
  try_except
    (pending_applicants <-
       get_all Applicants (FAnd (FEmpty "Compressed JSON") (FNonEmpty "Personal Details")) ;;
     logger INFO ("Found " ++ str_nat (List.length pending_applicants)
                    ++ " applicants pending compression") ;;
     compress_pending_loop pending_applicants)
    (fun e =>
       logger ERROR ("Failed to compress pending applicants: " ++ str_exn e) ;;
       raise e).

End AirtableCompressor.

(* ------------------------------------------------------------------ *)
(** ** [decompression_script.py]: class [AirtableDecompressor] *)

Declare Scope outcome_scope.
Delimit Scope outcome_scope with outcome.
Notation "x <~ o ;; k" := (obind o (fun x => k))
  (at level 61, o at next level, right associativity) : outcome_scope.

(** [a and b] on booleans, where evaluating either side may raise. *)
Definition py_and (a b : outcome bool) : outcome bool :=
  obind a (fun x => if x then b else Ret false).

(** [a or b] *)
Definition py_or (a b : outcome bool) : outcome bool :=
  obind a (fun x => if x then Ret true else b).

Fixpoint map_outcome {A B} (f : A -> outcome B) (l : list A) : outcome (list B) :=
  match l with
  | [] => Ret []
  | x :: l' =>
      obind (f x) (fun y => obind (map_outcome f l') (fun ys => Ret (y :: ys)))
  end.

(** Insertion of a keyed item in front of the first item whose key is not
    smaller: items with equal keys keep their order. *)
Fixpoint insert_keyed {A} (kx : json * A) (l : list (json * A))
  : outcome (list (json * A)) :=
  match l with
  | [] => Ret [kx]
  | ky :: l' =>
      obind (py_lt (fst ky) (fst kx)) (fun smaller =>
        if smaller
        then obind (insert_keyed kx l') (fun r => Ret (ky :: r))
        else Ret (kx :: ky :: l'))
  end.

Fixpoint sort_keyed {A} (l : list (json * A)) : outcome (list (json * A)) :=
  match l with
  | [] => Ret []
  | kx :: l' => obind (sort_keyed l') (insert_keyed kx)
  end.

(** [sorted(l, key=key)]: the keys are computed first, the sort is stable
    and compares keys with [<] only. *)
Definition py_sorted {A} (key : A -> outcome json) (l : list A) : outcome (list A) :=
  obind (map_outcome (fun x => obind (key x) (fun k => Ret (k, x))) l) (fun keyed =>
  obind (sort_keyed keyed) (fun sorted => Ret (map snd sorted))).

Module AirtableDecompressor.

Local Open Scope outcome_scope.

(** The [update_data] of [_update_personal_details]. *)
Definition personal_to_native (applicant_id : string) (personal_data : json)
  : outcome dict :=
  name <~ py_get personal_data "name" (JStr "") ;;
  email <~ py_get personal_data "email" (JStr "") ;;
  location <~ py_get personal_data "location" (JStr "") ;;
  linkedin <~ py_get personal_data "linkedin" (JStr "") ;;
  Ret [("Full Name", name); ("Email", email); ("Location", location);
       ("LinkedIn", linkedin); ("Applicant", JList [JStr applicant_id])].

(** The [create_data] of [_update_work_experience]. *)
Definition experience_to_native (applicant_id : string) (exp : json)
  : outcome dict :=
  company <~ py_get exp "company" (JStr "") ;;
  title <~ py_get exp "title" (JStr "") ;;
  start <~ py_get exp "start" (JStr "") ;;
  is_current <~ py_get exp "current" (JBool false) ;;
  end_date <~ (if negb (truthy is_current)
               then py_get exp "end" (JStr "")
               else Ret (JStr "")) ;;
  technologies <~ py_get exp "technologies" (JList []) ;;
  current <~ py_get exp "current" (JBool false) ;;
  Ret [("Company", company); ("Title", title); ("Start Date", start);
       ("End Date", end_date); ("Technologies", technologies);
       ("Current Position", current); ("Applicant", JList [JStr applicant_id])].

(** The [update_data] of [_update_salary_preferences]. *)
Definition salary_to_native (applicant_id : string) (salary_data : json)
  : outcome dict :=
  preferred_rate <~ py_get salary_data "preferred_rate" (JNum 0) ;;
  minimum_rate <~ py_get salary_data "minimum_rate" (JNum 0) ;;
  currency <~ py_get salary_data "currency" (JStr "USD") ;;
  availability <~ py_get salary_data "availability" (JNum 0) ;;
  Ret [("Preferred Rate", preferred_rate); ("Minimum Rate", minimum_rate);
       ("Currency", currency); ("Availability", availability);
       ("Applicant", JList [JStr applicant_id])].

Local Close Scope outcome_scope.

(** [_update_personal_details] *)
Definition _update_personal_details (applicant_id : string) (personal_data : json)
  : M unit :=
  try_except
    (existing_records <- search PersonalDetails "Applicant" applicant_id ;;
     update_data <- lift (personal_to_native applicant_id personal_data) ;;
     match existing_records with
     | r :: _ =>
         update PersonalDetails (rec_id r) update_data ;;
         logger INFO ("Updated personal details for applicant " ++ applicant_id)
     | [] =>
         create PersonalDetails update_data ;;
         logger INFO ("Created personal details for applicant " ++ applicant_id)
     end)
    (fun e =>
       logger ERROR ("Failed to update personal details: " ++ str_exn e) ;;
       raise e).

(** [_update_work_experience] *)
Definition _update_work_experience (applicant_id : string) (experience_data : json)
  : M unit :=
  try_except
    (existing_records <- search WorkExperience "Applicant" applicant_id ;;
     for_each existing_records (fun record =>
       delete WorkExperience (rec_id record)) ;;
     entries <- lift (py_iter experience_data) ;;
     for_each entries (fun exp =>
       create_data <- lift (experience_to_native applicant_id exp) ;;
       create WorkExperience create_data ;;
       ret tt) ;;
     n <- lift (py_len experience_data) ;;
     logger INFO ("Updated " ++ str_nat n ++ " experience records for applicant "
                    ++ applicant_id))
    (fun e =>
       logger ERROR ("Failed to update work experience: " ++ str_exn e) ;;
       raise e).

(** [_update_salary_preferences] *)
Definition _update_salary_preferences (applicant_id : string) (salary_data : json)
  : M unit :=
  try_except
    (existing_records <- search SalaryPreferences "Applicant" applicant_id ;;
     update_data <- lift (salary_to_native applicant_id salary_data) ;;
     match existing_records with
     | r :: _ =>
         update SalaryPreferences (rec_id r) update_data ;;
         logger INFO ("Updated salary preferences for applicant " ++ applicant_id)
     | [] =>
         create SalaryPreferences update_data ;;
         logger INFO ("Created salary preferences for applicant " ++ applicant_id)
     end)
    (fun e =>
       logger ERROR ("Failed to update salary preferences: " ++ str_exn e) ;;
       raise e).

(** [decompress_applicant_data].  A record that [get] returned is a
    non-empty dict, so that of the test [not applicant_record or ...] the
    second part decides. *)
Definition decompress_applicant_data (applicant_id : string) : M bool :=
  try_except
    (logger INFO ("Starting decompression for applicant " ++ applicant_id) ;;
     applicant_record <- get Applicants applicant_id ;;
     if negb (dict_mem "Compressed JSON" (rec_fields applicant_record)) then
       logger ERROR ("No compressed JSON found for applicant " ++ applicant_id) ;;
       ret false
     else
       compressed_data <-
         lift (py_json_loads (dict_get (rec_fields applicant_record) "Compressed JSON" JNull)) ;;
       personal <- lift (py_get compressed_data "personal" (JDict [])) ;;
       _update_personal_details applicant_id personal ;;
       experience <- lift (py_get compressed_data "experience" (JList [])) ;;
       _update_work_experience applicant_id experience ;;
       salary <- lift (py_get compressed_data "salary" (JDict [])) ;;
       _update_salary_preferences applicant_id salary ;;
       last_decompressed <- now_isoformat ;;
       update Applicants applicant_id [("Last Decompressed", JStr last_decompressed)] ;;
       logger INFO ("Successfully decompressed data for applicant " ++ applicant_id) ;;
       ret true)
    (fun e =>
       logger ERROR ("Failed to decompress data for applicant " ++ applicant_id
                       ++ ": " ++ str_exn e) ;;
       ret false).

(** One turn of the loop of [decompress_all_modified]. *)
Definition decompress_modified_turn (applicant : airtable_record) : M unit :=
  let applicant_id := rec_id applicant in
  try_except
    (decompress_applicant_data applicant_id ;; ret tt)
    (fun e =>
       logger ERROR ("Failed to decompress applicant " ++ applicant_id
                       ++ ": " ++ str_exn e)).

(** The loop of [decompress_all_modified] over the selected records. *)
Definition decompress_modified_loop (modified_applicants : list airtable_record)
  : M unit :=
  for_each modified_applicants decompress_modified_turn.

(** [decompress_all_modified] *)
Definition decompress_all_modified : M unit :=
  try_except
    (modified_applicants <-
       get_all Applicants
         (FAnd (FNonEmpty "Compressed JSON")
               (FOr (FEmpty "Last Decompressed")
                    (FGreater "Last Compressed" "Last Decompressed"))) ;;
     logger INFO ("Found " ++ str_nat (List.length modified_applicants)
                    ++ " applicants requiring decompression") ;;
     decompress_modified_loop modified_applicants)
    (fun e =>
       logger ERROR ("Failed to decompress modified applicants: " ++ str_exn e) ;;
       raise e).

(** [_validate_personal_data]; the bare [except:] answers [False]. *)
Definition _validate_personal_data (applicant_id : string) (expected_data : json)
  : M bool :=
  try_except
    (records <- search PersonalDetails "Applicant" applicant_id ;;
     match records with
     | [] => ret false
     | r :: _ =>
         let actual_data := rec_fields r in
         let same (native canonical : string) : outcome bool :=
           obind (py_get expected_data canonical JNull) (fun e =>
             Ret (py_eq (dict_get actual_data native JNull) e)) in
         lift (py_and (same "Full Name" "name")
                 (py_and (same "Email" "email")
                    (py_and (same "Location" "location")
                       (same "LinkedIn" "linkedin"))))
     end)
    (fun _ => ret false).

(** The comparison loop of [_validate_experience_data] over the zipped
    sorted lists: company and title only. *)
Fixpoint experience_pairs_match (pairs : list (airtable_record * json))
  : outcome bool :=
  match pairs with
  | [] => Ret true
  | (actual, expected) :: rest =>
      let differs (native canonical : string) : outcome bool :=
        obind (py_get expected canonical JNull) (fun e =>
          Ret (negb (py_eq (dict_get (rec_fields actual) native JNull) e))) in
      obind (py_or (differs "Company" "company") (differs "Title" "title"))
        (fun mismatch =>
           if mismatch then Ret false else experience_pairs_match rest)
  end.

(** [_validate_experience_data] *)
Definition _validate_experience_data (applicant_id : string) (expected_data : json)
  : M bool :=
  try_except
    (records <- search WorkExperience "Applicant" applicant_id ;;
     n <- lift (py_len expected_data) ;;
     if negb (Nat.eqb (List.length records) n) then ret false
     else
       actual_sorted <-
         lift (py_sorted
                 (fun x => Ret (dict_get (rec_fields x) "Company" (JStr ""))) records) ;;
       expected_items <- lift (py_iter expected_data) ;;
       expected_sorted <-
         lift (py_sorted (fun x => py_get x "company" (JStr "")) expected_items) ;;
       lift (experience_pairs_match (combine actual_sorted expected_sorted)))
    (fun _ => ret false).

(** [_validate_salary_data] *)
Definition _validate_salary_data (applicant_id : string) (expected_data : json)
  : M bool :=
  try_except
    (records <- search SalaryPreferences "Applicant" applicant_id ;;
     match records with
     | [] => ret false
     | r :: _ =>
         let actual_data := rec_fields r in
         let same (native canonical : string) : outcome bool :=
           obind (py_get expected_data canonical JNull) (fun e =>
             Ret (py_eq (dict_get actual_data native JNull) e)) in
         lift (py_and (same "Preferred Rate" "preferred_rate")
                 (py_and (same "Minimum Rate" "minimum_rate")
                    (py_and (same "Currency" "currency")
                       (same "Availability" "availability"))))
     end)
    (fun _ => ret false).

(** [validate_data_integrity]; the test on the record read is the one of
    [decompress_applicant_data]. *)
Definition validate_data_integrity (applicant_id : string) : M json :=
  try_except
    (applicant_record <- get Applicants applicant_id ;;
     if negb (dict_mem "Compressed JSON" (rec_fields applicant_record)) then
       ret (JDict [("error", JStr "No compressed JSON found")])
     else
       compressed_data <-
         lift (py_json_loads (dict_get (rec_fields applicant_record) "Compressed JSON" JNull)) ;;
       expected_personal <- lift (py_get compressed_data "personal" (JDict [])) ;;
       personal <- _validate_personal_data applicant_id expected_personal ;;
       expected_experience <- lift (py_get compressed_data "experience" (JList [])) ;;
       experience <- _validate_experience_data applicant_id expected_experience ;;
       expected_salary <- lift (py_get compressed_data "salary" (JDict [])) ;;
       salary <- _validate_salary_data applicant_id expected_salary ;;
       ret (JDict [("personal", JBool personal);
                   ("experience", JBool experience);
                   ("salary", JBool salary)]))
    (fun e =>
       logger ERROR ("Failed to validate data integrity: " ++ str_exn e) ;;
       ret (JDict [("error", JStr (str_exn e))])).

End AirtableDecompressor.

(* ------------------------------------------------------------------ *)
(** ** Python [str] methods used by the evaluator

    The methods as they are on a text of ASCII characters: the white space
    of [str.strip] and [str.split] is [\t\n\v\f\r], [\x1c]-[\x1f] and the
    space, the digits of [int] are [0]-[9] and [str.lower] changes [A]-[Z].
    On other texts Python also takes the Unicode white space (U+0085,
    U+00A0, U+2003, ...) and reads the other decimal digits, which these
    definitions do not: what is stated of how a response is read is
    stated of ASCII responses. *)

Definition py_isspace (c : ascii) : bool :=
  let n := N_of_ascii c in
  (((9 <=? n) && (n <=? 13)) || ((28 <=? n) && (n <=? 32)))%N.

Fixpoint lstrip (s : string) : string :=
  match s with
  | String c s' => if py_isspace c then lstrip s' else s
  | EmptyString => s
  end.

Fixpoint rstrip (s : string) : string :=
  match s with
  | String c s' =>
      match rstrip s' with
      | EmptyString => if py_isspace c then EmptyString else String c EmptyString
      | r => String c r
      end
  | EmptyString => s
  end.

(** [s.strip()] *)
Definition strip (s : string) : string := lstrip (rstrip s).

(** [s.split(sep)] for a one-character separator. *)
Fixpoint split_on (sep : ascii) (s : string) : list string :=
  match s with
  | EmptyString => [EmptyString]
  | String c s' =>
      if Ascii.eqb c sep then EmptyString :: split_on sep s'
      else
        match split_on sep s' with
        | w :: ws => String c w :: ws
        | [] => [String c EmptyString]
        end
  end.

(** [s.split()]: the maximal runs of non-space characters; [cur] is the
    run being read, reversed. *)
Fixpoint split_ws_from (cur : list ascii) (s : string) : list string :=
  let flush (k : list string) :=
    match cur with
    | [] => k
    | _ => string_of_list_ascii (rev cur) :: k
    end in
  match s with
  | EmptyString => flush []
  | String c s' =>
      if py_isspace c then flush (split_ws_from [] s')
      else split_ws_from (c :: cur) s'
  end.

Definition split_ws (s : string) : list string := split_ws_from [] s.

(** [s.replace(old, new)] for a non-empty [old]: occurrences are replaced
    from the left and do not overlap; [skip] characters of an occurrence
    already replaced are still to be dropped. *)
Fixpoint replace_from (skip : nat) (old new s : string) : string :=
  match s with
  | EmptyString => EmptyString
  | String c s' =>
      match skip with
      | S k => replace_from k old new s'
      | O =>
          if String.prefix old s
          then new ++ replace_from (String.length old - 1) old new s'
          else String c (replace_from 0 old new s')
      end
  end.

Definition replace (old new s : string) : string := replace_from 0 old new s.

Definition lower_ascii (c : ascii) : ascii :=
  let n := N_of_ascii c in
  if ((65 <=? n) && (n <=? 90))%N then ascii_of_N (n + 32) else c.

(** [s.lower()] *)
Fixpoint lower (s : string) : string :=
  match s with
  | EmptyString => EmptyString
  | String c s' => String (lower_ascii c) (lower s')
  end.

(** The digits of an integer literal: single underscores may separate
    digits; [prev_digit] tells whether the previous character was a digit. *)
Fixpoint int_digits (prev_digit : bool) (acc : Z) (s : string) : option Z :=
  match s with
  | EmptyString => if prev_digit then Some acc else None
  | String c s' =>
      if is_digit c then
        int_digits true (acc * 10 + Z.of_N (N_of_ascii c - 48))%Z s'
      else if Ascii.eqb c "_" && prev_digit then int_digits false acc s'
      else None
  end.

(** The white space [int] skips around an ASCII literal: [\t\n\v\f\r]
    and the space, without the separators [\x1c]-[\x1f] that [str.strip]
    takes off. *)
Definition int_isspace (c : ascii) : bool :=
  let n := N_of_ascii c in
  (((9 <=? n) && (n <=? 13)) || (n =? 32))%N.

Fixpoint int_lstrip (s : string) : string :=
  match s with
  | String c s' => if int_isspace c then int_lstrip s' else s
  | EmptyString => s
  end.

Fixpoint int_rstrip (s : string) : string :=
  match s with
  | String c s' =>
      match int_rstrip s' with
      | EmptyString => if int_isspace c then EmptyString else String c EmptyString
      | r => String c r
      end
  | EmptyString => s
  end.

(** [int(s)] on an ASCII [str]: white space around, an optional sign,
    decimal digits; anything else is a [ValueError], whose text shows the
    literal between quotes (the escapes of [repr] are not modelled).  The
    limit some interpreters put on the number of digits (4300) is not
    modelled. *)
Definition py_int (s : string) : outcome Z :=
  let invalid :=
    Raise (ValueError ("invalid literal for int() with base 10: '" ++ s ++ "'")) in
  let digits (neg : bool) (t : string) : outcome Z :=
    match int_digits false 0%Z t with
    | Some n => Ret (if neg then (- n)%Z else n)
    | None => invalid
    end in
  match int_lstrip (int_rstrip s) with
  | String "-" t => digits true t
  | String "+" t => digits false t
  | t => digits false t
  end.

(* ------------------------------------------------------------------ *)
(** ** [llm_evaluation.py]: class [LLMEvaluator] *)

Module LLMEvaluator.

(** The dict [_parse_llm_response] returns. *)
Record evaluation : Type := Evaluation {
  summary : string;
  score : Z;
  issues : list string;
  follow_ups : list string
}.

Inductive section : Type := SecSummary | SecScore | SecIssues | SecFollowUps.

Definition section_eqb (a b : option section) : bool :=
  match a, b with
  | Some SecSummary, Some SecSummary
  | Some SecScore, Some SecScore
  | Some SecIssues, Some SecIssues
  | Some SecFollowUps, Some SecFollowUps
  | None, None => true
  | _, _ => false
  end.

Definition bullet : string := "•".

(** The score a [Score:] line assigns: the [ValueError] of [int] and a
    value outside 1..10 both give 5. *)
Definition parse_score (line : string) : Z :=
  let score_text := strip (replace "Score:" "" line) in
  match py_int score_text with
  | Ret n => if ((n <? 1) || (n >? 10))%Z then 5%Z else n
  | Raise _ => 5%Z
  end.

(** One turn of the loop over the lines of the response. *)
Definition parse_line (st : evaluation * option section) (raw : string)
  : evaluation * option section :=
  let (result, current_section) := st in
  let line := strip raw in
  if String.prefix "Summary:" line then
    (Evaluation (strip (replace "Summary:" "" line))
       (score result) (issues result) (follow_ups result),
     Some SecSummary)
  else if String.prefix "Score:" line then
    (Evaluation (summary result) (parse_score line)
       (issues result) (follow_ups result),
     Some SecScore)
  else if String.prefix "Issues:" line then
    let issues_text := strip (replace "Issues:" "" line) in
    (if existsb (String.eqb (lower issues_text)) ["none"; "n/a"; ""]
     then result
     else Evaluation (summary result) (score result)
            (map strip (split_on "," issues_text)) (follow_ups result),
     Some SecIssues)
  else if String.prefix "Follow-Ups:" line then
    (result, Some SecFollowUps)
  else if String.prefix bullet line && section_eqb current_section (Some SecFollowUps) then
    let question := strip (replace bullet "" line) in
    (if String.eqb question "" then result
     else Evaluation (summary result) (score result) (issues result)
            (follow_ups result ++ [question]),
     current_section)
  else if section_eqb current_section (Some SecSummary)
          && negb (String.eqb line "")
          && negb (existsb (fun x => String.prefix x line)
                     ["Score:"; "Issues:"; "Follow-Ups:"]) then
    (Evaluation (summary result ++ " " ++ line)
       (score result) (issues result) (follow_ups result),
     current_section)
  else (result, current_section).

(** The body of the [try] of [_parse_llm_response]; the text of a response
    without content is [None], on which [.strip()] raises. *)
Definition parse_response (response_text : option string) : outcome evaluation :=
  match response_text with
  | None => Raise (AttributeError "'NoneType' object has no attribute 'strip'")
  | Some text =>
      let lines := split_on LF (strip text) in
      let result := Evaluation "" 5 [] [] in
      let (result, _) := fold_left parse_line lines (result, None) in
      let summary_words := List.length (split_ws (summary result)) in
      let result :=
        if Nat.ltb 90 summary_words then
          Evaluation (String.concat " " (firstn 75 (split_ws (summary result))) ++ "...")
            (score result) (issues result) (follow_ups result)
        else result in
      Ret (Evaluation (summary result) (score result) (issues result)
             (firstn 3 (follow_ups result)))
  end.

(** [_parse_llm_response] *)
Definition _parse_llm_response (response_text : option string) : M evaluation :=
  try_except
    (lift (parse_response response_text))
    (fun e =>
       logger ERROR ("Failed to parse LLM response: " ++ str_exn e) ;;
       ret (Evaluation "Error parsing LLM response" 5
              ["LLM evaluation failed"]
              ["Please review application manually"])).

(** [_hash_json] *)
Definition _hash_json (json_string : string) : string :=
  md5_hexdigest json_string.

(** [_needs_evaluation] *)
Definition _needs_evaluation (applicant_id : string) (current_json : string) : M bool :=
  try_except
    (applicant_record <- get Applicants applicant_id ;;
     if negb (truthy (dict_get (rec_fields applicant_record) "LLM Summary" JNull)) then
       ret true
     else
       let last_json_hash :=
         dict_get (rec_fields applicant_record) "Last JSON Hash" (JStr "") in
       let current_json_hash := _hash_json current_json in
       ret (negb (py_eq last_json_hash (JStr current_json_hash))))
    (fun e =>
       logger WARNING ("Failed to check if evaluation needed: " ++ str_exn e) ;;
       ret true).

(** [_update_applicant_record] *)
Definition _update_applicant_record (applicant_id : string)
  (evaluation_result : evaluation) (compressed_json : string) : M unit :=
  try_except
    (let json_hash := _hash_json compressed_json in
     evaluation_date <- now_isoformat ;;
     let update_data :=
       [("LLM Summary", JStr (summary evaluation_result));
        ("LLM Score", JNum (score evaluation_result));
        ("LLM Follow-Ups",
         JStr (String.concat (chr LF)
                 (map (fun q => (bullet ++ " " ++ q)%string)
                    (follow_ups evaluation_result))));
        ("LLM Issues",
         JStr (match issues evaluation_result with
               | [] => "None"
               | _ => String.concat ", " (issues evaluation_result)
               end));
        ("LLM Evaluation Date", JStr evaluation_date);
        ("Last JSON Hash", JStr json_hash)] in
     update Applicants applicant_id update_data ;;
     logger INFO ("Updated applicant " ++ applicant_id
                    ++ " with LLM evaluation results"))
    (fun e =>
       logger ERROR ("Failed to update applicant record: " ++ str_exn e) ;;
       raise e).

(** [_needs_evaluation] on the value of the field as [evaluate_applicant]
    passes it.  For a value that is no [str] the call of [.encode()] in
    [_hash_json] raises, inside the [try], once the summary has been found
    truthy. *)
Definition _needs_evaluation_of (applicant_id : string) (current_json : json) : M bool :=
  match current_json with
  | JStr s => _needs_evaluation applicant_id s
  | _ =>
      try_except
        (applicant_record <- get Applicants applicant_id ;;
         if negb (truthy (dict_get (rec_fields applicant_record) "LLM Summary" JNull)) then
           ret true
         else
           raise (AttributeError "object has no attribute 'encode'"))
        (fun e =>
           logger WARNING ("Failed to check if evaluation needed: " ++ str_exn e) ;;
           ret true)
  end.

(** What a method under [@retry(stop=stop_after_attempt(n))] gives its
    caller: the value of the first attempt that returns, or tenacity's
    [RetryError] around the exception of the last attempt.  The waiting
    between attempts leaves no trace in the tables or the log. *)
Inductive retried (A : Type) : Type :=
| Returned (a : A)
| RetryError (last : exn).
Arguments Returned {A} a.
Arguments RetryError {A} last.

Fixpoint retry_after {A} (more : nat) (m : M A) (last : exn) (w : world)
  : retried A * world :=
  match more with
  | O => (RetryError last, w)
  | S more' =>
      match m w with
      | (Ret a, w') => (Returned a, w')
      | (Raise e, w') => retry_after more' m e w'
      end
  end.

(** [stop_after_attempt(n)] for [n >= 1]. *)
Definition retry {A} (attempts : nat) (m : M A) (w : world) : retried A * world :=
  match m w with
  | (Ret a, w') => (Returned a, w')
  | (Raise e, w') => retry_after (attempts - 1) m e w'
  end.

Section Evaluate.

(** [_call_llm_api]: the request to the language model, from the parsed
    document to the parsed evaluation, [None] on any failure.  It is the
    environment's; the methods below are defined for any such call. *)
Variable _call_llm_api : json -> M (option evaluation).

(** The body of [evaluate_applicant], one attempt. *)
Definition evaluate_applicant_attempt (applicant_id : string) : M bool :=
  try_except
    (logger INFO ("Starting LLM evaluation for applicant " ++ applicant_id) ;;
     applicant_record <- get Applicants applicant_id ;;
     if negb (dict_mem "Compressed JSON" (rec_fields applicant_record)) then
       logger ERROR ("No compressed JSON found for applicant " ++ applicant_id) ;;
       ret false
     else
       let compressed_json :=
         dict_get (rec_fields applicant_record) "Compressed JSON" JNull in
       needed <- _needs_evaluation_of applicant_id compressed_json ;;
       if negb needed then
         logger INFO ("Applicant " ++ applicant_id
                        ++ " already has up-to-date LLM evaluation") ;;
         ret true
       else
         applicant_data <- lift (py_json_loads compressed_json) ;;
         evaluation_result <- _call_llm_api applicant_data ;;
         match evaluation_result with
         | None => ret false
         | Some result =>
             match compressed_json with
             | JStr text =>
                 _update_applicant_record applicant_id result text ;;
                 logger INFO ("Successfully completed LLM evaluation for applicant "
                                ++ applicant_id) ;;
                 ret true
             | _ => raise (AttributeError "object has no attribute 'encode'")
             end
         end)
    (fun e =>
       logger ERROR ("Failed LLM evaluation for applicant " ++ applicant_id
                       ++ ": " ++ str_exn e) ;;
       raise e).

(** [evaluate_applicant], under its decorator
    [@retry(stop=stop_after_attempt(3), wait=...)]. *)
Definition evaluate_applicant (applicant_id : string) : world -> retried bool * world :=
  retry 3 (evaluate_applicant_attempt applicant_id).

End Evaluate.

End LLMEvaluator.

(* ------------------------------------------------------------------ *)
(** ** Notions used to state the properties *)

(** The transport of the table store never fails. *)
Definition healthy (w : world) : Prop := forall n, fails w n = false.

(** The records of a table that are linked to an applicant, in table
    order: what [table.search('Applicant', applicant_id)] returns. *)
Definition linked (t : table) (applicant_id : string) (w : world)
  : list airtable_record :=
  filter (record_matches "Applicant" applicant_id) (rows t w).

(** A field of the applicant's record in the parent table ([JNull] when
    the record or the field is absent). *)
Definition stored (applicant_id field : string) (w : world) : json :=
  match find (has_id applicant_id) (applicants_rows w) with
  | Some r => dict_get (rec_fields r) field JNull
  | None => JNull
  end.

Definition is_raise {A} (o : outcome A) : bool :=
  match o with
  | Raise _ => true
  | Ret _ => false
  end.

Definition level_eqb (a b : level) : bool :=
  match a, b with
  | INFO, INFO | WARNING, WARNING | ERROR, ERROR => true
  | _, _ => false
  end.

(** What follows [prefix] in the messages of level [lv] that start with
    it, oldest first. *)
Definition logged_after (lv : level) (prefix : string) (l : list log_entry)
  : list string :=
  flat_map (fun e =>
              if level_eqb (log_level e) lv then
                match strip_prefix prefix (log_msg e) with
                | Some rest => [rest]
                | None => []
                end
              else []) l.

(** The worlds in which the successive turns of a loop start. *)
Fixpoint turn_worlds {A} (body : A -> M unit) (l : list A) (w : world) : list world :=
  match l with
  | [] => []
  | x :: l' => w :: turn_worlds body l' (snd (body x w))
  end.

(** The canonical document: four sections with their fields in the order
    [compress_applicant_data] writes them.  A field holds any JSON value. *)
Module Document.

Record personal : Type := Personal {
  name : json; email : json; location : json; linkedin : json
}.

Record experience : Type := Experience {
  company : json; title : json; start_date : json; end_date : json;
  technologies : json; current : json
}.

Record salary : Type := Salary {
  preferred_rate : json; minimum_rate : json; currency : json;
  availability : json
}.

Record t : Type := Make {
  doc_personal : personal;
  doc_experience : list experience;
  doc_salary : salary;
  doc_metadata : json
}.

Definition personal_dict (p : personal) : dict :=
  [("name", name p); ("email", email p);
   ("location", location p); ("linkedin", linkedin p)].

Definition experience_dict (e : experience) : dict :=
  [("company", company e); ("title", title e);
   ("start", start_date e); ("end", end_date e);
   ("technologies", technologies e); ("current", current e)].

Definition salary_dict (s : salary) : dict :=
  [("preferred_rate", preferred_rate s); ("minimum_rate", minimum_rate s);
   ("currency", currency s); ("availability", availability s)].

Definition personal_json (p : personal) : json := JDict (personal_dict p).
Definition experience_json (e : experience) : json := JDict (experience_dict e).
Definition salary_json (s : salary) : json := JDict (salary_dict s).

(** The sections of a document. *)
Definition sections (d : t) : dict :=
  [("personal", personal_json (doc_personal d));
   ("experience", JList (map experience_json (doc_experience d)));
   ("salary", salary_json (doc_salary d));
   ("metadata", doc_metadata d)].

Definition to_json (d : t) : json := JDict (sections d).

(** The same document under another metadata section. *)
Definition with_metadata (d : t) (m : json) : t :=
  Make (doc_personal d) (doc_experience d) (doc_salary d) m.

End Document.

(** The four tables of [w'] are those of [w]. *)
Definition same_tables (w w' : world) : Prop :=
  forall t, rows t w' = rows t w.

(** The first record linked to the applicant, if any: the sub-record the
    scripts work with. *)
Definition sub_record (t : table) (applicant_id : string) (w : world)
  : option airtable_record :=
  hd_error (linked t applicant_id w).

(** [str(e)] for the error of a failed transport. *)
Definition transport_error_text : string := str_exn (HTTPError "transport failure").

(** What a fetch of [compress_applicant_data] hands over when it is the
    remote call number [at_call] of the run: a fetch that fails in
    transport and a sub-record that is absent both give [None]. *)
Definition fetched (t : table) (id : string) (at_call : nat) (w : world)
  : option dict :=
  if fails w (at_call + calls w) then None
  else option_map rec_fields (sub_record t id w).

(** The payload [compress_applicant_data] sends to the Applicants table. *)
Definition compress_payload (doc : json) (last_compressed : string) : dict :=
  [("Compressed JSON", JStr (json_dumps doc));
   ("Last Compressed", JStr last_compressed)].


(** A method adds to the log only entries that satisfy [P], and removes
    none. *)
Definition logs_only (P : log_entry -> Prop) {A} (m : M A) : Prop :=
  forall w, exists extra, log (snd (m w)) = log w ++ extra /\ Forall P extra.

(** The applicants for which a compression was started, as the log tells. *)
Definition compressions_started (l : list log_entry) : list string :=
  logged_after INFO "Starting compression for applicant " l.


(** The failures the loop of [compress_all_pending] reported. *)
Definition compression_failures (l : list log_entry) : list string :=
  logged_after ERROR "Failed to compress applicant " l.

(** The applicants for which a decompression was started. *)
Definition decompressions_started (l : list log_entry) : list string :=
  logged_after INFO "Starting decompression for applicant " l.

(** The failures the loop of [decompress_all_modified] reported. *)
Definition decompression_failures (l : list log_entry) : list string :=
  logged_after ERROR "Failed to decompress applicant " l.

(** An entry that none of the five readings above picks up, except as a
    completed compression. *)
Definition quiet (e : log_entry) : Prop :=
  compressions_started [e] = [] /\ compression_failures [e] = [] /\
  decompressions_started [e] = [] /\ decompression_failures [e] = [].

(** The number of turns of the compression loop in which
    [compress_applicant_data] raised. *)
Definition compressions_raised (pending : list airtable_record) (w : world) : nat :=
  List.length
    (filter (fun xw : airtable_record * world =>
               is_raise (fst (AirtableCompressor.compress_applicant_data
                                (rec_id (fst xw)) (snd xw))))
       (combine pending
          (turn_worlds AirtableCompressor.compress_pending_turn pending w))).

(** The records a sequence of [create] calls appends, the first of them
    being record number [n]. *)
Fixpoint created_records (n : nat) (news : list dict) : list airtable_record :=
  match news with
  | [] => []
  | d :: ds => Rec (fresh_id n) d :: created_records (S n) ds
  end.


(** The rows left when the records of [l] have been deleted. *)
Definition without (l : list airtable_record) (rs : list airtable_record)
  : list airtable_record :=
  filter (fun x => negb (existsb (fun r => has_id (rec_id r) x) l)) rs.


(** The native fields the Decompressor writes for a section that is a
    JSON object. *)
Definition personal_native (applicant_id : string) (p : dict) : dict :=
  [("Full Name", dict_get p "name" (JStr ""));
   ("Email", dict_get p "email" (JStr ""));
   ("Location", dict_get p "location" (JStr ""));
   ("LinkedIn", dict_get p "linkedin" (JStr ""));
   ("Applicant", JList [JStr applicant_id])].

Definition experience_native (applicant_id : string) (e : dict) : dict :=
  [("Company", dict_get e "company" (JStr ""));
   ("Title", dict_get e "title" (JStr ""));
   ("Start Date", dict_get e "start" (JStr ""));
   ("End Date", if truthy (dict_get e "current" (JBool false))
                then JStr "" else dict_get e "end" (JStr ""));
   ("Technologies", dict_get e "technologies" (JList []));
   ("Current Position", dict_get e "current" (JBool false));
   ("Applicant", JList [JStr applicant_id])].

Definition salary_native (applicant_id : string) (s : dict) : dict :=
  [("Preferred Rate", dict_get s "preferred_rate" (JNum 0));
   ("Minimum Rate", dict_get s "minimum_rate" (JNum 0));
   ("Currency", dict_get s "currency" (JStr "USD"));
   ("Availability", dict_get s "availability" (JNum 0));
   ("Applicant", JList [JStr applicant_id])].

(* ------------------------------------------------------------------ *)
(** ** A small base of applicants, for concrete runs *)

Module Example.

Definition clock (n : nat) : string :=
  "2024-05-01T10:00:" ++ (if Nat.ltb n 10 then "0" else "") ++ str_nat n.

Definition link (applicant_id : string) : string * json :=
  ("Applicant", JList [JStr applicant_id]).

(** Experience entries: two past positions and a current one that still
    carries an end date. *)
Definition past_1 : Document.experience :=
  Document.Experience (JStr "Initech") (JStr "Engineer") (JStr "2018-03-01")
    (JStr "2020-01-31") (JList [JStr "C"; JStr "Perl"]) (JBool false).

Definition past_2 : Document.experience :=
  Document.Experience (JStr "Globex") (JStr "Senior Engineer") (JStr "2020-02-01")
    (JStr "2022-06-30") (JList [JStr "Rust"]) (JBool false).

Definition current_1 : Document.experience :=
  Document.Experience (JStr "Hooli") (JStr "Staff Engineer") (JStr "2022-07-01")
    (JStr "2023-12-31") (JList [JStr "Go"]) (JBool true).

Definition ada : Document.personal :=
  Document.Personal (JStr "Ada") (JStr "ada@example.com") (JStr "UK") (JStr "").

Definition ada_salary : Document.salary :=
  Document.Salary (JNum 50) (JNum 40) (JStr "USD") (JNum 20).

Definition metadata : json :=
  JDict [("compressed_at", JStr "2024-04-30T09:00:00"); ("version", JStr "1.0")].

(** The document of applicant [recA]: one past and one current position. *)
Definition doc_A : Document.t :=
  Document.Make ada [past_1; current_1] ada_salary metadata.

(** The document of applicant [recB]: two past positions. *)
Definition doc_B : Document.t :=
  Document.Make ada [past_1; past_2] ada_salary metadata.

Definition text_A : string := json_dumps (Document.to_json doc_A).
Definition text_B : string := json_dumps (Document.to_json doc_B).

Definition applicant_A : airtable_record :=
  Rec "recA" [("Applicant ID", JStr "A-1"); ("Compressed JSON", JStr text_A);
              ("Last Compressed", JStr "2024-04-30T09:00:00")].

Definition applicant_B : airtable_record :=
  Rec "recB" [("Applicant ID", JStr "B-1"); ("Compressed JSON", JStr text_B);
              ("Last Compressed", JStr "2024-04-30T09:00:00")].

(** [recC] has a Salary sub-record and no Personal one; [recD], [recE] and
    [recF] have both and no document yet. *)
Definition applicant_C : airtable_record := Rec "recC" [("Applicant ID", JStr "C-1")].
Definition applicant_D : airtable_record :=
  Rec "recD" [("Applicant ID", JStr "D-1"); ("Personal Details", JList [JStr "recP4"])].
Definition applicant_E : airtable_record :=
  Rec "recE" [("Applicant ID", JStr "E-1"); ("Personal Details", JList [JStr "recP5"])].
Definition applicant_F : airtable_record :=
  Rec "recF" [("Applicant ID", JStr "F-1"); ("Personal Details", JList [JStr "recP6"])].

Definition personal_of (rid name applicant_id : string) : airtable_record :=
  Rec rid [("Full Name", JStr name); ("Email", JStr "x@example.com");
           ("Location", JStr "US"); ("LinkedIn", JStr ""); link applicant_id].

Definition salary_of (rid applicant_id : string) : airtable_record :=
  Rec rid [("Preferred Rate", JNum 60); ("Minimum Rate", JNum 45);
           ("Currency", JStr "EUR"); ("Availability", JNum 30); link applicant_id].

Definition experience_of (rid company title applicant_id : string) : airtable_record :=
  Rec rid [("Company", JStr company); ("Title", JStr title);
           ("Start Date", JStr "2015-01-01"); ("End Date", JStr "2016-01-01");
           ("Technologies", JList []); ("Current Position", JBool false);
           link applicant_id].

Definition applicants : list airtable_record :=
  [applicant_A; applicant_B; applicant_C; applicant_D; applicant_E; applicant_F].

Definition personal : list airtable_record :=
  [personal_of "recP1" "Ada" "recA"; personal_of "recP4" "Dan" "recD";
   personal_of "recP5" "Eve" "recE"; personal_of "recP6" "Fay" "recF"].

Definition salary : list airtable_record :=
  [salary_of "recS1" "recA"; salary_of "recS3" "recC"; salary_of "recS4" "recD";
   salary_of "recS5" "recE"; salary_of "recS6" "recF"].

(** Five Work Experience records of [recA] and one of [recD]. *)
Definition experience : list airtable_record :=
  [experience_of "recX1" "Acme" "Intern" "recA";
   experience_of "recX2" "Acme" "Junior" "recA";
   experience_of "recX3" "Umbrella" "Engineer" "recD";
   experience_of "recX4" "Initrode" "Engineer" "recA";
   experience_of "recX5" "Vandelay" "Architect" "recA";
   experience_of "recX6" "Wonka" "Taster" "recA"].

(** The base, with the transport failing on the remote calls [faults]
    selects. *)
Definition base (faults : nat -> bool) : world :=
  World applicants personal experience salary [] clock 0 faults 0 100.

Definition steady : world := base (fun _ => false).

(** The base in which only remote call number [k] fails. *)
Definition failing_at (k : nat) : world := base (Nat.eqb k).

(** The base in which [recD] has lost its Personal sub-record. *)
Definition without_personal_of_D : world :=
  World applicants
    [personal_of "recP1" "Ada" "recA"; personal_of "recP5" "Eve" "recE";
     personal_of "recP6" "Fay" "recF"]
    experience salary [] clock 0 (fun _ => false) 0 100.

End Example.

(** The pending applicants [compress_all_pending] selects. *)
Definition pending_formula : formula :=
  FAnd (FEmpty "Compressed JSON") (FNonEmpty "Personal Details").

(** Whether the digest stored on the applicant's record is the digest of
    the document stored there. *)
Definition hash_in_sync (applicant_id : string) (w : world) : bool :=
  match stored applicant_id "Compressed JSON" w with
  | JStr s =>
      py_eq (stored applicant_id "Last JSON Hash" w) (JStr (LLMEvaluator._hash_json s))
  | _ => false
  end.

Definition returned_document (o : outcome (option json)) : bool :=
  match o with
  | Ret (Some _) => true
  | _ => false
  end.

Module Scenario.

(** An evaluation of [recA]. *)
Definition review : LLMEvaluator.evaluation :=
  LLMEvaluator.Evaluation "Strong candidate with systems experience" 8 []
    ["Which projects did you lead?"].

(** The base after the evaluator has recorded its evaluation of the
    document of [recA]. *)
Definition evaluated : world :=
  snd (LLMEvaluator._update_applicant_record "recA" review Example.text_A Example.steady).

(** ... and after [recA] has then been compressed again from its native
    records. *)
Definition recompressed : world :=
  snd (AirtableCompressor.compress_applicant_data "recA" evaluated).

(** Two distinct strings with the same MD5 digest. *)
Definition twin_1 : string :=
  "TEXTCOLLBYfGiJUETHQ4hAcKSMd5zYpgqf1YRDhkmxHkhPWptrkoyz28wnI9V0aHeAuaKnak".
Definition twin_2 : string :=
  "TEXTCOLLBYfGiJUETHQ4hEcKSMd5zYpgqf1YRDhkmxHkhPWptrkoyz28wnI9V0aHeAuaKnak".

(** The base after the evaluator has recorded the digest of [twin_1] for
    [recA]. *)
Definition evaluated_twin : world :=
  snd (LLMEvaluator._update_applicant_record "recA" review twin_1 Example.steady).

End Scenario.



(** The text of a [Score:] line after the label. *)
Definition score_text (line : string) : string :=
  strip (replace "Score:" "" line).

(** ** The experience check of the validator, on company names and titles *)

(** The company name and the title of a native record, and of a document
    entry, when the company is a text. *)
Definition native_view (fs : dict) : option (string * json) :=
  match dict_get fs "Company" JNull with
  | JStr c => Some (c, dict_get fs "Title" JNull)
  | _ => None
  end.

Definition canonical_view (e : dict) : option (string * json) :=
  match dict_get e "company" JNull with
  | JStr c => Some (c, dict_get e "title" JNull)
  | _ => None
  end.

(** A stable insertion sort by a name. *)
Fixpoint insert_named {A} (name : A -> string) (x : A) (l : list A) : list A :=
  match l with
  | [] => [x]
  | y :: l' =>
      if string_ltb (name y) (name x) then y :: insert_named name x l'
      else x :: y :: l'
  end.

Definition sort_named {A} (name : A -> string) (l : list A) : list A :=
  fold_right (insert_named name) [] l.

Definition same_company_title (a e : string * json) : bool :=
  String.eqb (fst a) (fst e) && py_eq (snd a) (snd e).

(** Both lists sorted by company name, then compared pairwise on company
    and title. *)
Definition experience_agrees (actual expected : list (string * json)) : bool :=
  Nat.eqb (List.length actual) (List.length expected)
  && forallb (fun ae => same_company_title (fst ae) (snd ae))
       (combine (sort_named fst actual) (sort_named fst expected)).

(** [s <= t] in the order of [str]. *)
Definition string_le (s t : string) : Prop := string_ltb t s = false.

(** The order of items by name. *)
Definition name_le {A} (name : A -> string) (x y : A) : Prop :=
  string_le (name x) (name y).

(** A view, or an empty one where there is none. *)
Definition view_or_empty (o : option (string * json)) : string * json :=
  match o with
  | Some v => v
  | None => (EmptyString, JNull)
  end.

(** The name under which a document entry is sorted. *)
Definition entry_name (x : json) : string :=
  match x with
  | JDict e => fst (view_or_empty (canonical_view e))
  | _ => EmptyString
  end.

Module Listing.

(** The base after the document of [recA] has been decompressed. *)
Definition decompressed : world :=
  snd (AirtableDecompressor.decompress_applicant_data "recA" Example.steady).

Definition entry (company title : string) : json :=
  JDict [("company", JStr company); ("title", JStr title)].

(** The five positions of the Work Experience records of [recA] in the
    base, in table order, and the same with the two positions at Acme
    exchanged. *)
Definition positions : list json :=
  [entry "Acme" "Intern"; entry "Acme" "Junior"; entry "Initrode" "Engineer";
   entry "Vandelay" "Architect"; entry "Wonka" "Taster"].

Definition positions_exchanged : list json :=
  [entry "Acme" "Junior"; entry "Acme" "Intern"; entry "Initrode" "Engineer";
   entry "Vandelay" "Architect"; entry "Wonka" "Taster"].

End Listing.

(* ------------------------------------------------------------------ *)
(** ** Further notions *)

(** A method leaves the rows of table [t] as they are, whatever it meets. *)
Definition keeps (t : table) {A} (m : M A) : Prop :=
  forall w, rows t (snd (m w)) = rows t w.

(** A base of one applicant whose Personal and Salary sub-records carry
    nothing but the link to it. *)
Module Sparse.

Definition base : world :=
  World [Rec "recG" []]
    [Rec "recP7" [Example.link "recG"]] []
    [Rec "recS7" [Example.link "recG"]]
    [] Example.clock 0 (fun _ => false) 0 100.

End Sparse.

(** The applicants the compression loop can serve: their record is in the
    table and both required sub-records are there. *)
Definition servable (w : world) (a : airtable_record) : Prop :=
  find (has_id (rec_id a)) (applicants_rows w) <> None /\
  sub_record PersonalDetails (rec_id a) w <> None /\
  sub_record SalaryPreferences (rec_id a) w <> None.

(** The world after a list of log entries has been appended. *)
Definition add_logs (extra : list log_entry) (w : world) : world :=
  fold_left (fun w e => add_log e w) extra w.

(** A method leaves the schedule of transport failures as it is: no
    method of the scripts has a hand on it. *)
Definition same_faults {A} (m : M A) : Prop :=
  forall w, fails (snd (m w)) = fails w.

(** What the Decompressor and the validator find when they look for the
    applicant's document. *)
Inductive reading : Type :=
| NoDocument
| Document (d : dict)
| NotFollowed.

(** [Document d] when the applicant's record can be read, carries a
    'Compressed JSON' and the field parses to the JSON object [d];
    [NotFollowed] when the field is a text that Python reads and the model
    does not (see [Unmodelled]); [NoDocument] in every other case: the
    read fails or finds no record, the field is absent or is no text, the
    text is rejected by [json.loads], or it parses to a value that is no
    object. *)
Definition document_read (applicant_id : string) (w : world) : reading :=
  if fails w (calls w) then NoDocument
  else
    match find (has_id applicant_id) (applicants_rows w) with
    | Some r =>
        if dict_mem "Compressed JSON" (rec_fields r) then
          match py_json_loads (dict_get (rec_fields r) "Compressed JSON" JNull) with
          | Ret (JDict d) => Document d
          | Ret _ => NoDocument
          | Raise (Unmodelled _) => NotFollowed
          | Raise _ => NoDocument
          end
        else NoDocument
    | None => NoDocument
    end.

(** A method that answers [true] has stamped the applicant's record with
    a time of decompression, and that only; with every other outcome it
    has left the Applicants table as it was. *)
Definition stamps_on_true (applicant_id : string) (m : M bool) : Prop :=
  forall w,
    match fst (m w) with
    | Ret true =>
        exists ts,
          applicants_rows (snd (m w)) =
          update_rows applicant_id [("Last Decompressed", JStr ts)] (applicants_rows w)
    | _ => applicants_rows (snd (m w)) = applicants_rows w
    end.

(** A base of one applicant whose document has [null] for its salary
    section. *)
Module Broken.

Definition doc : dict :=
  [("personal", JDict [("name", JStr "Hal"); ("email", JStr "hal@example.org")]);
   ("experience", JList [JDict [("company", JStr "Acme"); ("title", JStr "Pilot")]]);
   ("salary", JNull)].

Definition text : string := json_dumps (JDict doc).

Definition applicant : airtable_record :=
  Rec "recH" [("Compressed JSON", JStr text)].

Definition base : world :=
  World [applicant]
    [Rec "recP8" [Example.link "recH"; ("Full Name", JStr "H."); ("Phone", JStr "555")]]
    [Rec "recX8" [Example.link "recH"; ("Company", JStr "Initech")]]
    [Rec "recS8" [Example.link "recH"; ("Currency", JStr "EUR")]]
    [] Example.clock 0 (fun _ => false) 0 100.

End Broken.

(** ** Documents that validate after decompression *)

(** Values compared as such by [==]: no list and no object. *)
Definition is_scalar (v : json) : bool :=
  match v with
  | JList _ | JDict _ => false
  | _ => true
  end.

(** A section that has every one of the keys, with a scalar value. *)
Definition complete (keys : list string) (d : dict) : bool :=
  forallb (fun k => dict_mem k d && is_scalar (dict_get d k JNull)) keys.

Definition personal_keys : list string := ["name"; "email"; "location"; "linkedin"].

Definition salary_keys : list string :=
  ["preferred_rate"; "minimum_rate"; "currency"; "availability"].

(** An experience entry with a text for its company and a scalar title. *)
Definition entry_complete (e : dict) : bool :=
  match dict_get e "company" JNull with
  | JStr _ => dict_mem "title" e && is_scalar (dict_get e "title" JNull)
  | _ => false
  end.

Definition all_valid : json :=
  JDict [("personal", JBool true); ("experience", JBool true); ("salary", JBool true)].

(** A base of one applicant whose document is a personal section with a
    name and nothing else; the applicant has no sub-record yet. *)
Module Terse.

Definition doc : dict := [("personal", JDict [("name", JStr "Tess")])].

Definition text : string := json_dumps (JDict doc).

Definition applicant : airtable_record :=
  Rec "recT" [("Compressed JSON", JStr text)].

Definition base : world :=
  World [applicant] [] [] [] [] Example.clock 0 (fun _ => false) 0 100.

End Terse.

(** ** The evaluator *)

(** A character of a lower-case hexadecimal numeral. *)
Definition is_lower_hex (c : ascii) : bool :=
  existsb (Ascii.eqb c) (list_ascii_of_string "0123456789abcdef").

(** The record of the applicant as a read by [get] finds it. *)
Definition record_read (applicant_id : string) (w : world) : option airtable_record :=
  if fails w (calls w) then None
  else find (has_id applicant_id) (applicants_rows w).

(** ** Record ids *)

(** The number of a record id of the form the store assigns, ["rec"]
    followed by a decimal numeral. *)
Definition assigned_number (id : string) : option nat :=
  match id with
  | String "r" (String "e" (String "c" s)) =>
      option_map (fun d => Z.to_nat (Z.of_int d)) (NilZero.int_of_string s)
  | _ => None
  end.

(** No record carries an id that the store is still to assign. *)
Definition unassigned (w : world) : Prop :=
  forall t r n, In r (rows t w) -> created w <= n -> rec_id r <> fresh_id n.

(** A sufficient test, on the ids of the records of the four tables. *)
Definition ids_below (w : world) : bool :=
  forallb (fun t =>
    forallb (fun r =>
      match assigned_number (rec_id r) with
      | Some k => Nat.ltb k (created w)
      | None => true
      end) (rows t w))
    [Applicants; PersonalDetails; WorkExperience; SalaryPreferences].

(** ** The tables after a decompression *)

(** The table [t] after an upsert of the fields [new] for the applicant:
    the first record linked to the applicant is updated, and when there is
    none a record is created, under the id number [c]. *)
Definition upserted (t : table) (applicant_id : string) (new : dict) (c : nat)
  (w : world) : list airtable_record :=
  match sub_record t applicant_id w with
  | Some r0 => update_rows (rec_id r0) new (rows t w)
  | None => rows t w ++ [Rec (fresh_id c) new]
  end.

(** The number of records an upsert creates. *)
Definition upsert_creations (t : table) (applicant_id : string) (w : world) : nat :=
  match sub_record t applicant_id w with
  | Some _ => 0
  | None => 1
  end.

(** ** Compression followed by decompression *)

(** The entries of a section that is a JSON object. *)
Definition section_dict (v : json) : dict :=
  match v with
  | JDict d => d
  | _ => []
  end.

(** The fields of a Work Experience record after its trip through the
    document: what the Decompressor writes for the entry the Compressor
    made of the record. *)
Definition restored (applicant_id : string) (fields : dict) : dict :=
  experience_native applicant_id
    (section_dict (AirtableCompressor.experience_to_canonical fields)).

(** The sub-record [r'] has the id of [r] and every field of [r], the link
    apart, with the value it has in [r]; the link is to the applicant
    alone. *)
Definition keeps_fields_of (applicant_id : string) (r r' : airtable_record) : Prop :=
  rec_id r' = rec_id r /\
  dict_get (rec_fields r') "Applicant" JNull = JList [JStr applicant_id] /\
  forall k, k <> "Applicant" -> dict_mem k (rec_fields r) = true ->
            dict_get (rec_fields r') k JNull = dict_get (rec_fields r) k JNull.


(** Whether [_needs_evaluation] asks for an evaluation of the document
    text, given the applicant's record. *)
Definition evaluation_due (r : airtable_record) (document : string) : bool :=
  if negb (truthy (dict_get (rec_fields r) "LLM Summary" JNull)) then true
  else negb (py_eq (dict_get (rec_fields r) "Last JSON Hash" (JStr ""))
               (JStr (LLMEvaluator._hash_json document))).

(** The language model answers [answer] to the parsed document [data],
    whenever it is asked, and has no hand on the tables or on the
    transport. *)
Definition llm_answers (call_llm : json -> M (option LLMEvaluator.evaluation))
  (data : json) (answer : option LLMEvaluator.evaluation) : Prop :=
  forall w, fst (call_llm data w) = Ret answer /\
            same_tables w (snd (call_llm data w)) /\
            fails (snd (call_llm data w)) = fails w.

(** The world after an attempt of [evaluate_applicant] that read the record
    twice and failed with the error text [msg]. *)
Definition after_failed_attempt (applicant_id msg : string) (w : world) : world :=
  add_log (LogEntry ERROR ("Failed LLM evaluation for applicant " ++ applicant_id
                             ++ ": " ++ msg))
    (count_call (count_call
       (add_log (LogEntry INFO ("Starting LLM evaluation for applicant " ++ applicant_id))
          w))).

(** A base of one applicant whose 'Compressed JSON' is no JSON text. *)
Module Garbled.

Definition applicant : airtable_record :=
  Rec "recU" [("Compressed JSON", JStr "not a document")].

Definition base : world :=
  World [applicant] [] [] [] [] Example.clock 0 (fun _ => false) 0 100.

End Garbled.

(** Two language models for concrete runs: one that never gives an
    evaluation, one that always gives the same. *)
Definition silent_llm : json -> M (option LLMEvaluator.evaluation) :=
  fun _ => ret None.

Definition constant_llm (ev : LLMEvaluator.evaluation)
  : json -> M (option LLMEvaluator.evaluation) :=
  fun _ => ret (Some ev).

(** ** Documents that are read back as printed *)

(** A text of ASCII characters. *)
Definition ascii_text (s : string) : bool :=
  forallb (fun c => (N_of_ascii c <? 128)%N) (list_ascii_of_string s).

Fixpoint distinct (l : list string) : bool :=
  match l with
  | [] => true
  | x :: l' => negb (existsb (String.eqb x) l') && distinct l'
  end.

(** The values of the integer fragment whose texts are ASCII and whose
    objects have no key twice. *)
Fixpoint printable (v : json) : bool :=
  match v with
  | JStr s => ascii_text s
  | JList l => forallb printable l
  | JDict d =>
      distinct (map fst d)
      && forallb (fun kv : string * json => let (k, x) := kv in
                                            ascii_text k && printable x) d
  | _ => true
  end.

(** The number of values in a value, each element counted once more for
    its place in its list or object. *)
Fixpoint nodes (v : json) : nat :=
  match v with
  | JList l => S (fold_right (fun x n => S (nodes x + n)) 0 l)
  | JDict d =>
      S (fold_right (fun (kv : string * json) n => let (_, x) := kv in S (nodes x + n)) 0 d)
  | _ => 1
  end.

(** A text that can follow a printed value: nothing, a comma or a line
    break. *)
Definition closes_value (rest : string) : Prop :=
  rest = EmptyString \/
  exists r, rest = String "," r \/ rest = String LF r.

(** The text between the quotes of a printed ASCII string. *)
Definition escaped (s : string) : string :=
  String.concat EmptyString (map escape_cp (map N_of_ascii (list_ascii_of_string s))).

(** The weight of the elements of a list and of the members of an object:
    the fuel their scan takes. *)
Definition weight (l : list json) : nat :=
  fold_right (fun x n => S (nodes x + n)) 0 l.

Definition members_weight (d : dict) : nat :=
  fold_right (fun (kv : string * json) n => let (_, x) := kv in S (nodes x + n)) 0 d.

(** A text that starts with a character of a value: no white space and no
    closing bracket. *)
Definition starts_value (s : string) : Prop :=
  match s with
  | String c _ =>
      is_json_ws c = false /\ Ascii.eqb c "]" = false /\ Ascii.eqb c "}" = false
  | EmptyString => False
  end.

(** The text of the members of an object at nesting level [lvl]. *)
Definition member_text (lvl : nat) (kv : string * json) : string :=
  let (k, x) := kv in
  (encode_basestring_ascii k ++ ": " ++ dumps_at lvl x)%string.

(** What the main lemma says of the values of at most [n] nodes. *)
Definition scans_back (n : nat) : Prop :=
  forall v lvl rest fuel,
    nodes v <= n -> printable v = true -> nodes v <= fuel -> closes_value rest ->
    scan_value fuel (dumps_at lvl v ++ rest) = Ret (v, rest).

(** A record all of whose field values are printable. *)
Definition printable_fields (fields : dict) : bool :=
  forallb (fun kv : string * json => printable (snd kv)) fields.

(** ** Native records that validate once compressed *)

Definition personal_fields : list string := ["Full Name"; "Email"; "Location"; "LinkedIn"].

Definition salary_fields : list string :=
  ["Preferred Rate"; "Minimum Rate"; "Currency"; "Availability"].

(** A Work Experience record with a text for its company and a scalar
    title. *)
Definition record_complete (fields : dict) : bool :=
  match dict_get fields "Company" JNull with
  | JStr _ => dict_mem "Title" fields && is_scalar (dict_get fields "Title" JNull)
  | _ => false
  end.

(** ** The batch of decompressions *)


(** ** The summary of an evaluation *)


(** A response whose summary has a hundred words. *)
Module Wordy.

Definition text : string :=
  ("Summary:" ++ String.concat "" (repeat " word" 100) ++ String LF "Score: 7")%string.

End Wordy.

(* ================================================================== *)
(** * Properties *)

Local Open Scope monad_scope.

(** Unfolding of the monad operations, and of the projections of a world
    that was built by the operations of the model. *)
Ltac mstep := cbv beta iota delta [bind try_except logger ret raise lift].
Ltac wsimpl :=
  cbn [rows set_rows add_log count_call count_tick count_created
       applicants_rows personal_rows experience_rows salary_rows
       log clock ticks fails calls created fst snd] in *.

(** ** Dictionaries *)

Lemma dict_get_app (a b : dict) (k : string) (dflt : json) :
  dict_get (a ++ b) k dflt = dict_get a k (dict_get b k dflt).
Proof.
  induction a as [|[k' v] a IH]; simpl; [reflexivity|].
  destruct (String.eqb k' k); [reflexivity | exact IH].
Qed.

Lemma dict_get_set (d : dict) (k k' : string) (v dflt : json) :
  dict_get (dict_set d k v) k' dflt =
  if String.eqb k k' then v else dict_get d k' dflt.
Proof.
  induction d as [|[k0 v0] d IH]; simpl.
  - reflexivity.
  - destruct (String.eqb k0 k) eqn:E0; simpl.
    + apply String.eqb_eq in E0; subst k0.
      destruct (String.eqb k k'); reflexivity.
    + destruct (String.eqb k0 k') eqn:E1.
      * apply String.eqb_eq in E1; subst k0.
        rewrite String.eqb_sym, E0. reflexivity.
      * exact IH.
Qed.

(** Reading a dict after [update(new)]: the last binding of [new] for the
    key, else the old value. *)
Lemma dict_get_update (new d : dict) (k : string) (dflt : json) :
  dict_get (dict_update d new) k dflt = dict_get (rev new) k (dict_get d k dflt).
Proof.
  unfold dict_update. revert d.
  induction new as [|[k0 v0] new IH]; intros d; simpl; [reflexivity|].
  rewrite IH, dict_get_app, dict_get_set. simpl.
  rewrite String.eqb_sym. reflexivity.
Qed.

Lemma dict_mem_get (d : dict) (k : string) :
  dict_mem k d = false -> forall dflt, dict_get d k dflt = dflt.
Proof.
  induction d as [|[k' v] d IH]; simpl; intros H dflt; [reflexivity|].
  apply orb_false_iff in H as [H1 H2]. rewrite H1. auto.
Qed.

(** ** Remote calls *)

Lemma remote_ok {A} (op : M A) (w : world) :
  fails w (calls w) = false -> remote op w = op (count_call w).
Proof. unfold remote. intros ->. reflexivity. Qed.

Lemma remote_fail {A} (op : M A) (w : world) :
  fails w (calls w) = true ->
  remote op w = (Raise (HTTPError "transport failure"), count_call w).
Proof. unfold remote. intros ->. reflexivity. Qed.

(** ** The Compressor *)

Section Compressor.

Import AirtableCompressor.


Lemma fetch_personal_run (id : string) (w : world) :
  _fetch_personal_data id w =
  if fails w (calls w)
  then (Ret None,
        add_log (LogEntry ERROR ("Failed to fetch personal data: " ++ transport_error_text))
          (count_call w))
  else (Ret (option_map rec_fields (sub_record PersonalDetails id w)), count_call w).
Proof.
  unfold _fetch_personal_data, try_except, bind, search, remote, sub_record, linked.
  destruct (fails w (calls w)); [reflexivity|]. cbn.
  destruct (filter _ _); reflexivity.
Qed.

Lemma fetch_salary_run (id : string) (w : world) :
  _fetch_salary_data id w =
  if fails w (calls w)
  then (Ret None,
        add_log (LogEntry ERROR ("Failed to fetch salary data: " ++ transport_error_text))
          (count_call w))
  else (Ret (option_map rec_fields (sub_record SalaryPreferences id w)), count_call w).
Proof.
  unfold _fetch_salary_data, try_except, bind, search, remote, sub_record, linked.
  destruct (fails w (calls w)); [reflexivity|]. cbn.
  destruct (filter _ _); reflexivity.
Qed.

Lemma fetch_experience_run (id : string) (w : world) :
  _fetch_experience_data id w =
  if fails w (calls w)
  then (Ret [],
        add_log (LogEntry ERROR ("Failed to fetch experience data: " ++ transport_error_text))
          (count_call w))
  else (Ret (map rec_fields (linked WorkExperience id w)), count_call w).
Proof.
  unfold _fetch_experience_data, try_except, bind, search, remote, linked.
  destruct (fails w (calls w)); reflexivity.
Qed.

Lemma record_matches_fields (f v : string) (r : airtable_record) :
  record_matches f v r = true -> truthy (JDict (rec_fields r)) = true.
Proof.
  unfold record_matches. destruct (rec_fields r); [discriminate | reflexivity].
Qed.

Lemma sub_record_linked (t : table) (id : string) (w : world) (r : airtable_record) :
  sub_record t id w = Some r ->
  In r (rows t w) /\ record_matches "Applicant" id r = true.
Proof.
  unfold sub_record, linked. intros H.
  destruct (filter _ _) as [|r' l] eqn:E; [discriminate|].
  injection H as ->. apply filter_In. rewrite E. left. reflexivity.
Qed.

(** Without both required sub-records in hand the method returns [None],
    logs the missing data and leaves every table as it was. *)
Lemma compress_without_required (id : string) (w : world) :
  opt_truthy (fetched PersonalDetails id 0 w) = false \/
  opt_truthy (fetched SalaryPreferences id 2 w) = false ->
  exists w',
    compress_applicant_data id w = (Ret None, w') /\
    same_tables w w' /\
    In (LogEntry ERROR ("Missing required data for applicant " ++ id)) (log w').
Proof.
  intros H. unfold compress_applicant_data. mstep.
  rewrite fetch_personal_run. wsimpl.
  unfold fetched in H. cbn [Nat.add] in H.
  destruct (fails w (calls w)) eqn:F0; rewrite fetch_experience_run; wsimpl;
  destruct (fails w (S (calls w))) eqn:F1; rewrite fetch_salary_run; wsimpl;
  destruct (fails w (S (S (calls w)))) eqn:F2; wsimpl;
  unfold sub_record, linked in *; wsimpl.
  all: repeat match goal with
       | |- context [hd_error ?l] => destruct (hd_error l)
       end.
  all: cbn [option_map opt_truthy truthy forallb andb negb] in *.
  all: repeat match goal with
       | |- context [match rec_fields ?r with _ => _ end] => destruct (rec_fields r)
       end.
  all: try (destruct H; discriminate).
  all: eexists; split; [reflexivity|]; split;
      [intros []; reflexivity | wsimpl; rewrite !in_app_iff; cbn [In]; tauto].
Qed.

Lemma compress_healthy (id : string) (w : world) (rp rs ra : airtable_record) :
  healthy w ->
  sub_record PersonalDetails id w = Some rp ->
  sub_record SalaryPreferences id w = Some rs ->
  find (has_id id) (applicants_rows w) = Some ra ->
  let doc := build_document (rec_fields rp) (map rec_fields (linked WorkExperience id w))
               (rec_fields rs) (clock w (ticks w)) in
  exists w',
    compress_applicant_data id w = (Ret (Some doc), w') /\
    applicants_rows w' =
      update_rows id (compress_payload doc (clock w (S (ticks w)))) (applicants_rows w) /\
    (forall t, t <> Applicants -> rows t w' = rows t w) /\
    healthy w'.
Proof.
  intros Hh Hp Hs Ha doc.
  pose proof (sub_record_linked _ _ _ _ Hp) as [_ Mp].
  pose proof (sub_record_linked _ _ _ _ Hs) as [_ Ms].
  apply record_matches_fields in Mp, Ms.
  unfold compress_applicant_data. mstep.
  rewrite fetch_personal_run. wsimpl. rewrite Hh.
  rewrite fetch_experience_run. wsimpl. rewrite Hh.
  rewrite fetch_salary_run. wsimpl. rewrite Hh.
  unfold sub_record, linked in *. wsimpl. rewrite Hp, Hs.
  cbn [option_map forallb opt_truthy andb negb]. rewrite Mp, Ms.
  cbv beta iota delta [andb negb now_isoformat update remote]. wsimpl.
  rewrite Hh, Ha.
  eexists; split; [reflexivity|]. wsimpl.
  split; [reflexivity|]. split; [|exact Hh].
  intros [] Ht; try reflexivity. congruence.
Qed.

Lemma compress_footprint (id : string) (w : world) :
  (forall t, t <> Applicants -> rows t (snd (compress_applicant_data id w)) = rows t w) /\
  (applicants_rows (snd (compress_applicant_data id w)) = applicants_rows w \/
   exists doc ts,
     fst (compress_applicant_data id w) = Ret (Some doc) /\
     applicants_rows (snd (compress_applicant_data id w)) =
       update_rows id (compress_payload doc ts) (applicants_rows w)).
Proof.
  unfold compress_applicant_data. mstep.
  rewrite fetch_personal_run. wsimpl.
  destruct (fails w (calls w)) eqn:F0; rewrite fetch_experience_run; wsimpl;
  destruct (fails w (S (calls w))) eqn:F1; rewrite fetch_salary_run; wsimpl;
  destruct (fails w (S (S (calls w)))) eqn:F2; wsimpl;
  unfold sub_record, linked in *; wsimpl.
  all: repeat match goal with
       | |- context [hd_error ?l] => destruct (hd_error l)
       end.
  all: cbn [option_map opt_truthy truthy forallb andb negb] in *.
  all: repeat match goal with
       | |- context [match rec_fields ?r with _ => _ end] => destruct (rec_fields r) eqn:?
       end.
  all: cbv beta iota delta [andb negb now_isoformat update remote]; wsimpl.
  all: try (split; [intros [] Ht; try reflexivity; congruence | left; reflexivity]).
  all: destruct (fails w (S (S (S (calls w))))) eqn:F3; wsimpl.
  all: try (split; [intros [] Ht; try reflexivity; congruence | left; reflexivity]).
  all: destruct (find (has_id id) (applicants_rows w)) eqn:Fa; wsimpl.
  all: try (split; [intros [] Ht; try reflexivity; congruence | left; reflexivity]).
  all: split; [intros [] Ht; try reflexivity; congruence | right].
  all: eexists; eexists; split; reflexivity.
Qed.

End Compressor.
(** ** What a method logs *)

Section Logs.

Context (P : log_entry -> Prop).

Lemma logs_only_unchanged {A} (m : M A) :
  (forall w, log (snd (m w)) = log w) -> logs_only P m.
Proof.
  intros H w. exists []. rewrite app_nil_r. split; [apply H | constructor].
Qed.

Lemma logs_only_ret {A} (a : A) : logs_only P (ret a).
Proof. apply logs_only_unchanged. reflexivity. Qed.

Lemma logs_only_raise {A} (e : exn) : logs_only P (@raise A e).
Proof. apply logs_only_unchanged. reflexivity. Qed.

Lemma logs_only_lift {A} (o : outcome A) : logs_only P (lift o).
Proof. apply logs_only_unchanged. reflexivity. Qed.

Lemma logs_only_logger (lv : level) (msg : string) :
  P (LogEntry lv msg) -> logs_only P (logger lv msg).
Proof.
  intros H w. exists [LogEntry lv msg]. split; [reflexivity | auto].
Qed.

Lemma logs_only_bind {A B} (m : M A) (k : A -> M B) :
  logs_only P m -> (forall a, logs_only P (k a)) -> logs_only P (bind m k).
Proof.
  intros Hm Hk w. unfold bind.
  destruct (Hm w) as (e1 & E1 & F1).
  destruct (m w) as [[a|e] w1]; cbn [snd] in *.
  - destruct (Hk a w1) as (e2 & E2 & F2).
    exists (e1 ++ e2). rewrite E2, E1, app_assoc.
    split; [reflexivity | apply Forall_app; auto].
  - exists e1. auto.
Qed.

Lemma logs_only_try {A} (m : M A) (h : exn -> M A) :
  logs_only P m -> (forall e, logs_only P (h e)) -> logs_only P (try_except m h).
Proof.
  intros Hm Hh w. unfold try_except.
  destruct (Hm w) as (e1 & E1 & F1).
  destruct (m w) as [[a|e] w1]; cbn [snd] in *.
  - exists e1. auto.
  - destruct (Hh e w1) as (e2 & E2 & F2).
    exists (e1 ++ e2). rewrite E2, E1, app_assoc.
    split; [reflexivity | apply Forall_app; auto].
Qed.

Lemma logs_only_remote {A} (op : M A) : logs_only P op -> logs_only P (remote op).
Proof.
  intros H w. unfold remote.
  destruct (fails w (calls w)).
  - exists []. rewrite app_nil_r. split; [reflexivity | constructor].
  - exact (H (count_call w)).
Qed.

Lemma logs_only_for_each {A} (l : list A) (body : A -> M unit) :
  (forall x, logs_only P (body x)) -> logs_only P (for_each l body).
Proof.
  intros H. induction l as [|x l IH]; cbn [for_each].
  - apply logs_only_ret.
  - apply logs_only_bind; auto.
Qed.

Lemma logs_only_search t f v : logs_only P (search t f v).
Proof. apply logs_only_remote, logs_only_unchanged. reflexivity. Qed.

Lemma logs_only_get_all t phi : logs_only P (get_all t phi).
Proof. apply logs_only_remote, logs_only_unchanged. reflexivity. Qed.

Lemma logs_only_get t id : logs_only P (get t id).
Proof.
  apply logs_only_remote, logs_only_unchanged. intros w.
  destruct (find _ _); reflexivity.
Qed.

Lemma logs_only_update t id new : logs_only P (update t id new).
Proof.
  apply logs_only_remote, logs_only_unchanged. intros w.
  destruct (find _ _); [destruct t|]; reflexivity.
Qed.

Lemma logs_only_create t new : logs_only P (create t new).
Proof.
  apply logs_only_remote, logs_only_unchanged. intros w. destruct t; reflexivity.
Qed.

Lemma logs_only_delete t id : logs_only P (delete t id).
Proof.
  apply logs_only_remote, logs_only_unchanged. intros w.
  destruct (existsb _ _); [destruct t|]; reflexivity.
Qed.

Lemma logs_only_now : logs_only P now_isoformat.
Proof. apply logs_only_unchanged. reflexivity. Qed.

End Logs.

(** Applies the rules above along the structure of a method body; what is
    left are the entries the body logs. *)
Ltac logs_step :=
  first
    [ apply logs_only_bind; [|intros ?]
    | apply logs_only_try; [|intros ?]
    | apply logs_only_for_each; intros ?
    | apply logs_only_ret | apply logs_only_raise | apply logs_only_lift
    | apply logs_only_search | apply logs_only_get | apply logs_only_get_all
    | apply logs_only_update | apply logs_only_create | apply logs_only_delete
    | apply logs_only_now
    | apply logs_only_logger
    | match goal with
      | |- logs_only _ (match ?x with _ => _ end) => destruct x
      | |- logs_only _ (if ?x then _ else _) => destruct x
      end ].

Lemma quiet_intro (lv : level) (msg : string) :
  (lv = INFO -> strip_prefix "Starting compression for applicant " msg = None /\
                strip_prefix "Starting decompression for applicant " msg = None) ->
  (lv = ERROR -> strip_prefix "Failed to compress applicant " msg = None /\
                 strip_prefix "Failed to decompress applicant " msg = None) ->
  quiet (LogEntry lv msg).
Proof.
  intros HI HE. unfold quiet, compressions_started, compression_failures,
    decompressions_started, decompression_failures, logged_after.
  cbn [flat_map log_level log_msg app].
  destruct lv; cbn [level_eqb].
  - destruct (HI eq_refl) as [-> ->]. auto.
  - auto.
  - destruct (HE eq_refl) as [-> ->]. auto.
Qed.

Ltac quiet_entry :=
  apply quiet_intro; intros ?; first [discriminate | split; reflexivity].

(** A method whose [try] body first logs its start. *)
Lemma log_of_started {A} (P : log_entry -> Prop) (lv : level) (msg : string)
  (k : unit -> M A) (h : exn -> M A) :
  logs_only P (k tt) -> (forall e, logs_only P (h e)) ->
  forall w, exists extra,
    log (snd (try_except (bind (logger lv msg) k) h w)) =
      log w ++ LogEntry lv msg :: extra /\
    Forall P extra.
Proof.
  intros Hk Hh w.
  change (try_except (bind (logger lv msg) k) h w)
    with (try_except (k tt) h (add_log (LogEntry lv msg) w)).
  destruct (logs_only_try P _ _ Hk Hh (add_log (LogEntry lv msg) w)) as (extra & E & F).
  exists extra. rewrite E. cbn [log add_log]. rewrite <- app_assoc. auto.
Qed.

Section CompressorLogs.

Import AirtableCompressor.

Lemma compress_log (id : string) (w : world) :
  exists extra,
    log (snd (compress_applicant_data id w)) =
      log w ++ LogEntry INFO ("Starting compression for applicant " ++ id) :: extra /\
    Forall quiet extra.
Proof.
  unfold compress_applicant_data. apply log_of_started.
  - unfold _fetch_personal_data, _fetch_experience_data, _fetch_salary_data.
    repeat logs_step; quiet_entry.
  - intros e. repeat logs_step; quiet_entry.
Qed.

End CompressorLogs.

(** ** Reading the log *)

Lemma strip_prefix_app (p s : string) : strip_prefix p (p ++ s) = Some s.
Proof.
  induction p as [|c p IH]; cbn; [reflexivity|].
  rewrite Ascii.eqb_refl. exact IH.
Qed.

Lemma logged_after_app (lv : level) (p : string) (a b : list log_entry) :
  logged_after lv p (a ++ b) = logged_after lv p a ++ logged_after lv p b.
Proof. unfold logged_after. apply flat_map_app. Qed.

Lemma logged_after_cons (lv : level) (p : string) (e : log_entry) (l : list log_entry) :
  logged_after lv p (e :: l) = logged_after lv p [e] ++ logged_after lv p l.
Proof. exact (logged_after_app lv p [e] l). Qed.

Lemma logged_after_one (lv : level) (p : string) (e : log_entry) :
  logged_after lv p [e] =
  if level_eqb (log_level e) lv then
    match strip_prefix p (log_msg e) with
    | Some rest => [rest]
    | None => []
    end
  else [].
Proof. unfold logged_after. cbn [flat_map]. apply app_nil_r. Qed.

Lemma quiet_readings (l : list log_entry) :
  Forall quiet l ->
  compressions_started l = [] /\ compression_failures l = [] /\
  decompressions_started l = [] /\ decompression_failures l = [].
Proof.
  unfold compressions_started, compression_failures, decompressions_started,
    decompression_failures.
  induction 1 as [|e l (Q1 & Q2 & Q3 & Q4) _ (I1 & I2 & I3 & I4)].
  - repeat split.
  - rewrite (logged_after_cons INFO _ e), (logged_after_cons ERROR _ e).
    rewrite (logged_after_cons INFO "Starting decompression for applicant " e).
    rewrite (logged_after_cons ERROR "Failed to decompress applicant " e).
    unfold quiet, compressions_started, compression_failures, decompressions_started,
      decompression_failures in *.
    rewrite Q1, Q2, Q3, Q4, I1, I2, I3, I4. repeat split.
Qed.

Section BatchCompression.

Import AirtableCompressor.

(** One turn of the loop never raises; it adds the applicant to the started
    compressions and reports a failure exactly when the compression
    raised. *)
Lemma compress_turn_run (a : airtable_record) (w : world) :
  fst (compress_pending_turn a w) = Ret tt /\
  compressions_started (log (snd (compress_pending_turn a w))) =
    compressions_started (log w) ++ [rec_id a] /\
  List.length (compression_failures (log (snd (compress_pending_turn a w)))) =
    List.length (compression_failures (log w)) +
    (if is_raise (fst (compress_applicant_data (rec_id a) w)) then 1 else 0).
Proof.
  destruct (compress_log (rec_id a) w) as (extra & E & Q).
  apply quiet_readings in Q as (Q1 & Q2 & _).
  unfold compress_pending_turn, try_except, bind, ret, logger.
  destruct (compress_applicant_data (rec_id a) w) as [[r|e] w1]; cbn [fst snd is_raise] in *.
  - split; [reflexivity|]. rewrite E.
    unfold compressions_started, compression_failures in *.
    rewrite !logged_after_app, (logged_after_cons INFO), (logged_after_cons ERROR), Q1, Q2.
    rewrite !logged_after_one. cbn [log_level log_msg level_eqb].
    rewrite strip_prefix_app, !app_nil_r. split; [reflexivity | lia].
  - split; [reflexivity|]. cbn [log add_log]. rewrite E.
    unfold compressions_started, compression_failures in *.
    rewrite !logged_after_app, (logged_after_cons INFO), (logged_after_cons ERROR), Q1, Q2.
    rewrite !logged_after_one. cbn [log_level log_msg level_eqb].
    rewrite !strip_prefix_app, !app_nil_r. split; [reflexivity|].
    rewrite length_app. cbn [List.length]. lia.
Qed.

Lemma for_each_cons {A} (x : A) (l : list A) (body : A -> M unit) (w : world) :
  fst (body x w) = Ret tt ->
  for_each (x :: l) body w = for_each l body (snd (body x w)).
Proof.
  cbn [for_each]. unfold bind. destruct (body x w) as [[[]|e] w1]; cbn [fst snd].
  - reflexivity.
  - discriminate.
Qed.

Lemma compress_loop_run (pending : list airtable_record) (w : world) :
  fst (compress_pending_loop pending w) = Ret tt /\
  compressions_started (log (snd (compress_pending_loop pending w))) =
    compressions_started (log w) ++ map rec_id pending /\
  List.length (compression_failures (log (snd (compress_pending_loop pending w)))) =
    List.length (compression_failures (log w)) + compressions_raised pending w.
Proof.
  unfold compress_pending_loop, compressions_raised. revert w.
  induction pending as [|a pending IH]; intros w.
  - cbn. rewrite app_nil_r. repeat split. lia.
  - destruct (compress_turn_run a w) as (R & S1 & F1).
    rewrite (for_each_cons _ _ _ _ R).
    destruct (IH (snd (compress_pending_turn a w))) as (R2 & S2 & F2).
    split; [exact R2|]. split.
    + rewrite S2, S1, <- app_assoc. reflexivity.
    + rewrite F2, F1. cbn [turn_worlds combine filter fst snd map].
      destruct (is_raise _); cbn [List.length]; lia.
Qed.

End BatchCompression.

(** ** Rows of a table *)

Lemma find_update_rows (id id' : string) (new : dict) (rs : list airtable_record) :
  find (has_id id') (update_rows id new rs) =
  option_map (fun r => if has_id id r
                       then Rec (rec_id r) (dict_update (rec_fields r) new) else r)
    (find (has_id id') rs).
Proof.
  induction rs as [|r rs IH]; cbn [update_rows find option_map]; [reflexivity|].
  destruct (has_id id r) eqn:E; cbn [find].
  - change (has_id id' (Rec (rec_id r) (dict_update (rec_fields r) new)))
      with (has_id id' r).
    destruct (has_id id' r) eqn:E'; cbn [option_map].
    + rewrite E. reflexivity.
    + destruct (find (has_id id') rs) as [x|] eqn:F; cbn [option_map]; [|reflexivity].
      apply find_some in F as [_ F]. unfold has_id in *.
      destruct (String.eqb (rec_id x) id) eqn:G; [|reflexivity].
      apply String.eqb_eq in F, E, G.
      rewrite E, <- G, F, String.eqb_refl in E'. discriminate.
  - destruct (has_id id' r) eqn:E'; cbn [option_map].
    + rewrite E. reflexivity.
    + exact IH.
Qed.

(** Updating the first record that a search returned leaves it the first
    one found, with the new fields merged in. *)
Lemma first_match_updated (p : airtable_record -> bool) (new : dict)
  (rs : list airtable_record) (r0 : airtable_record) :
  (forall i old, p (Rec i (dict_update old new)) = true) ->
  hd_error (filter p rs) = Some r0 ->
  exists r',
    find (has_id (rec_id r0)) rs = Some r' /\
    hd_error (filter p (update_rows (rec_id r0) new rs)) =
      Some (Rec (rec_id r') (dict_update (rec_fields r') new)).
Proof.
  intros Hp. induction rs as [|r rs IH]; cbn [filter find update_rows]; [discriminate|].
  intros H. destruct (has_id (rec_id r0) r) eqn:E.
  - exists r. split; [reflexivity|]. cbn [filter]. rewrite Hp. reflexivity.
  - destruct (p r) eqn:Pr.
    + cbn [hd_error] in H. injection H as ->.
      unfold has_id in E. rewrite String.eqb_refl in E. discriminate.
    + cbn [filter]. rewrite Pr. auto.
Qed.

Lemma created_records_fields (n : nat) (news : list dict) :
  map rec_fields (created_records n news) = news.
Proof.
  revert n. induction news as [|d ds IH]; intros n; cbn; [reflexivity|].
  rewrite IH. reflexivity.
Qed.

Lemma filter_created (p : airtable_record -> bool) (n : nat) (news : list dict) :
  (forall i d, In d news -> p (Rec i d) = true) ->
  filter p (created_records n news) = created_records n news.
Proof.
  revert n. induction news as [|d ds IH]; intros n H; cbn; [reflexivity|].
  rewrite H by (left; reflexivity). rewrite IH; [reflexivity|].
  intros i d' Hd. apply H. right. exact Hd.
Qed.

Lemma without_nil (rs : list airtable_record) : without [] rs = rs.
Proof.
  unfold without. cbn. induction rs as [|r rs IH]; cbn; [reflexivity|].
  rewrite IH. reflexivity.
Qed.

Lemma without_cons (r : airtable_record) (l rs : list airtable_record) :
  without l (filter (fun x => negb (has_id (rec_id r) x)) rs) = without (r :: l) rs.
Proof.
  unfold without. induction rs as [|x rs IH]; cbn [filter]; [reflexivity|].
  cbn [existsb]. destruct (has_id (rec_id r) x); cbn [negb orb filter].
  - exact IH.
  - destruct (negb _); cbn [filter]; rewrite IH; reflexivity.
Qed.

Lemma without_linked (p : airtable_record -> bool) (rs : list airtable_record) :
  filter p (without (filter p rs) rs) = [].
Proof.
  unfold without.
  assert (G : forall l, (forall x, In x rs -> p x = true -> In x l) ->
                        filter p (filter (fun x => negb (existsb (fun r => has_id (rec_id r) x) l)) rs) = []).
  { intros l. induction rs as [|x rs IH]; intros H; cbn [filter]; [reflexivity|].
    destruct (negb _) eqn:N; cbn [filter].
    - destruct (p x) eqn:Px.
      + apply negb_true_iff in N.
        assert (In x l) as Hx by (apply H; [left; reflexivity | exact Px]).
        assert (existsb (fun r => has_id (rec_id r) x) l = true) as T.
        { apply existsb_exists. exists x. split; [exact Hx|].
          unfold has_id. apply String.eqb_refl. }
        congruence.
      + apply IH. intros y Hy. apply H. right. exact Hy.
    - apply IH. intros y Hy. apply H. right. exact Hy. }
  apply G. intros x Hx Px. apply filter_In. auto.
Qed.

(** ** Running a method *)

Lemma bind_run {A B} (m : M A) (k : A -> M B) (w w1 : world) (a : A) :
  m w = (Ret a, w1) -> bind m k w = k a w1.
Proof. unfold bind. intros ->. reflexivity. Qed.

Lemma bind_raise {A B} (m : M A) (k : A -> M B) (w w1 : world) (e : exn) :
  m w = (Raise e, w1) -> bind m k w = (Raise e, w1).
Proof. unfold bind. intros ->. reflexivity. Qed.

Lemma try_ret {A} (m : M A) (h : exn -> M A) (w w1 : world) (a : A) :
  m w = (Ret a, w1) -> try_except m h w = (Ret a, w1).
Proof. unfold try_except. intros ->. reflexivity. Qed.

Lemma try_raise {A} (m : M A) (h : exn -> M A) (w w1 : world) (e : exn) :
  m w = (Raise e, w1) -> try_except m h w = h e w1.
Proof. unfold try_except. intros ->. reflexivity. Qed.

Lemma search_run (t : table) (f v : string) (w : world) :
  healthy w ->
  search t f v w = (Ret (filter (record_matches f v) (rows t w)), count_call w).
Proof. intros H. unfold search. rewrite remote_ok by apply H. reflexivity. Qed.

Lemma get_run (t : table) (id : string) (w : world) (r : airtable_record) :
  healthy w -> find (has_id id) (rows t w) = Some r ->
  get t id w = (Ret r, count_call w).
Proof.
  intros H F. unfold get. rewrite remote_ok by apply H.
  destruct t; wsimpl; rewrite F; reflexivity.
Qed.

Lemma update_run (t : table) (id : string) (new : dict) (w : world) (r : airtable_record) :
  healthy w -> find (has_id id) (rows t w) = Some r ->
  update t id new w =
  (Ret (Rec (rec_id r) (dict_update (rec_fields r) new)),
   set_rows t (update_rows id new (rows t w)) (count_call w)).
Proof.
  intros H F. unfold update. rewrite remote_ok by apply H.
  destruct t; wsimpl; rewrite F; reflexivity.
Qed.

Lemma create_run (t : table) (new : dict) (w : world) :
  healthy w ->
  create t new w =
  (Ret (Rec (fresh_id (created w)) new),
   count_created (set_rows t (rows t w ++ [Rec (fresh_id (created w)) new]) (count_call w))).
Proof.
  intros H. unfold create. rewrite remote_ok by apply H.
  destruct t; reflexivity.
Qed.

Lemma delete_run (t : table) (id : string) (w : world) :
  healthy w -> existsb (has_id id) (rows t w) = true ->
  delete t id w =
  (Ret tt, set_rows t (filter (fun r => negb (has_id id r)) (rows t w)) (count_call w)).
Proof.
  intros H F. unfold delete. rewrite remote_ok by apply H.
  destruct t; wsimpl; rewrite F; reflexivity.
Qed.

(** ** The Decompressor *)

Section Decompressor.

Import AirtableDecompressor.

Lemma personal_to_native_dict (id : string) (p : dict) :
  personal_to_native id (JDict p) = Ret (personal_native id p).
Proof. reflexivity. Qed.

Lemma salary_to_native_dict (id : string) (s : dict) :
  salary_to_native id (JDict s) = Ret (salary_native id s).
Proof. reflexivity. Qed.

Lemma experience_to_native_dict (id : string) (e : dict) :
  experience_to_native id (JDict e) = Ret (experience_native id e).
Proof.
  unfold experience_to_native, experience_native, py_get, obind.
  destruct (truthy (dict_get e "current" (JBool false))); reflexivity.
Qed.

Lemma link_matches (id : string) (i : string) (old new : dict) :
  dict_get (rev new) "Applicant" JNull = JList [JStr id] ->
  record_matches "Applicant" id (Rec i (dict_update old new)) = true.
Proof.
  intros H. unfold record_matches. cbn [rec_fields].
  rewrite dict_get_update.
  assert (G : forall d, dict_get (rev new) "Applicant" d = JList [JStr id]).
  { revert H. generalize (rev new). intros l. induction l as [|[k v] l IH]; cbn.
    - discriminate.
    - destruct (String.eqb k "Applicant"); auto. }
  rewrite G. cbn. rewrite String.eqb_refl. reflexivity.
Qed.

(** The deletions of [_update_work_experience]. *)
Lemma delete_loop_run (l : list airtable_record) (w : world) :
  healthy w -> NoDup (map rec_id l) -> incl l (experience_rows w) ->
  exists w',
    for_each l (fun record => delete WorkExperience (rec_id record)) w = (Ret tt, w') /\
    experience_rows w' = without l (experience_rows w) /\
    applicants_rows w' = applicants_rows w /\
    personal_rows w' = personal_rows w /\
    salary_rows w' = salary_rows w /\
    healthy w'.
Proof.
  revert w. induction l as [|r l IH]; intros w Hh Hn Hi.
  - exists w. rewrite without_nil. repeat split; auto.
  - cbn [map] in Hn. apply NoDup_cons_iff in Hn as [Hr Hn].
    assert (Er : existsb (has_id (rec_id r)) (rows WorkExperience w) = true).
    { apply existsb_exists. exists r. split; [apply Hi; left; reflexivity|].
      apply String.eqb_refl. }
    pose proof (delete_run WorkExperience (rec_id r) w Hh Er) as E.
    cbn [for_each]. rewrite (bind_run _ _ _ _ _ E).
    match type of E with _ = (_, ?w1) => destruct (IH w1) as (w' & E' & X & A & P & S & H') end.
    + exact Hh.
    + exact Hn.
    + intros x Hx. wsimpl. apply filter_In. split; [apply Hi; right; exact Hx|].
      apply negb_true_iff. unfold has_id. apply String.eqb_neq. intros Q.
      apply Hr. rewrite <- Q. apply in_map. exact Hx.
    + exists w'. wsimpl. rewrite X, without_cons. repeat split; auto.
Qed.

(** The creations of [_update_work_experience], for entries that are JSON
    objects. *)
Lemma create_loop_run (id : string) (ds : list dict) (w : world) :
  healthy w ->
  exists w',
    for_each (map JDict ds)
      (fun exp =>
         bind (lift (experience_to_native id exp)) (fun create_data =>
         bind (create WorkExperience create_data) (fun _ => ret tt))) w = (Ret tt, w') /\
    experience_rows w' =
      experience_rows w ++ created_records (created w) (map (experience_native id) ds) /\
    applicants_rows w' = applicants_rows w /\
    personal_rows w' = personal_rows w /\
    salary_rows w' = salary_rows w /\
    healthy w'.
Proof.
  revert w. induction ds as [|e ds IH]; intros w Hh.
  - exists w. cbn. rewrite app_nil_r. repeat split; auto.
  - cbn [map for_each]. unfold bind at 1 2. unfold lift at 1.
    rewrite experience_to_native_dict.
    rewrite (bind_run _ _ _ _ _ (create_run WorkExperience _ w Hh)).
    unfold ret at 1.
    match goal with |- context [for_each _ _ ?w1] =>
      destruct (IH w1) as (w' & E' & X & A & P & S & H') end; [exact Hh|].
    exists w'. rewrite E'. wsimpl. rewrite X, <- app_assoc.
    repeat split; auto.
Qed.


Lemma dict_mem_of_get (d : dict) (k : string) (v : json) :
  dict_get d k JNull = v -> v <> JNull -> dict_mem k d = true.
Proof.
  intros G N. destruct (dict_mem k d) eqn:E; [reflexivity|].
  rewrite (dict_mem_get _ _ E) in G. congruence.
Qed.

Lemma experience_native_linked (id i : string) (e : dict) :
  record_matches "Applicant" id (Rec i (experience_native id e)) = true.
Proof.
  unfold record_matches, experience_native. cbn. rewrite String.eqb_refl. reflexivity.
Qed.

(** [_update_work_experience] on a list of JSON objects: the records linked
    to the applicant are deleted and one record per entry is appended. *)
Lemma update_work_experience_run (id : string) (ds : list dict) (w : world) :
  healthy w -> NoDup (map rec_id (linked WorkExperience id w)) ->
  exists w' n,
    _update_work_experience id (JList (map JDict ds)) w = (Ret tt, w') /\
    experience_rows w' =
      without (linked WorkExperience id w) (experience_rows w)
      ++ created_records n (map (experience_native id) ds) /\
    linked WorkExperience id w' = created_records n (map (experience_native id) ds) /\
    applicants_rows w' = applicants_rows w /\
    personal_rows w' = personal_rows w /\
    salary_rows w' = salary_rows w /\
    healthy w'.
Proof.
  intros Hh Hn. unfold _update_work_experience.
  destruct (delete_loop_run (linked WorkExperience id w) (count_call w))
    as (w1 & E1 & X1 & A1 & P1 & S1 & H1); [exact Hh | exact Hn | |].
  { intros x Hx. apply filter_In in Hx as [Hx _]. exact Hx. }
  destruct (create_loop_run id ds w1 H1) as (w2 & E2 & X2 & A2 & P2 & S2 & H2).
  eexists; exists (created w1). split.
  - apply try_ret.
    rewrite (bind_run _ _ _ _ _ (search_run _ _ _ w Hh)).
    change (filter (record_matches "Applicant" id) (rows WorkExperience w))
      with (linked WorkExperience id w).
    rewrite (bind_run _ _ _ _ _ E1).
    unfold bind at 1, lift at 1, py_iter.
    rewrite (bind_run _ _ _ _ _ E2).
    unfold bind at 1, lift at 1, py_len. reflexivity.
  - wsimpl. rewrite X2, X1. wsimpl.
    split; [reflexivity|]. split; [|repeat split; congruence || exact H2].
    unfold linked. wsimpl. rewrite X2, X1. wsimpl.
    rewrite filter_app. unfold linked. rewrite without_linked. cbn [app].
    apply filter_created. intros i d Hd. apply in_map_iff in Hd as (e & <- & _).
    apply experience_native_linked.
Qed.

(** [_update_personal_details] on a JSON object: afterwards the applicant
    has a Personal sub-record that carries the fields written. *)
Lemma update_personal_run (id : string) (p : dict) (w : world) :
  healthy w ->
  exists w' r old,
    _update_personal_details id (JDict p) w = (Ret tt, w') /\
    sub_record PersonalDetails id w' = Some r /\
    rec_fields r = dict_update old (personal_native id p) /\
    applicants_rows w' = applicants_rows w /\
    experience_rows w' = experience_rows w /\
    salary_rows w' = salary_rows w /\
    healthy w'.
Proof.
  intros Hh. unfold _update_personal_details.
  destruct (sub_record PersonalDetails id w) as [r0|] eqn:E0.
  - unfold sub_record, linked in E0.
    destruct (first_match_updated (record_matches "Applicant" id)
                (personal_native id p) (rows PersonalDetails w) r0) as (r' & F & G);
      [ intros i old; apply link_matches; reflexivity | exact E0 | ].
    eexists; exists (Rec (rec_id r') (dict_update (rec_fields r') (personal_native id p)));
      exists (rec_fields r'). split.
    + apply try_ret.
      rewrite (bind_run _ _ _ _ _ (search_run _ _ _ w Hh)).
      unfold bind at 1, lift at 1. rewrite personal_to_native_dict.
      destruct (filter _ _) as [|x l]; [discriminate|]. injection E0 as ->.
      rewrite (bind_run _ _ _ _ _ (update_run PersonalDetails _ _ (count_call w) r' Hh F)).
      reflexivity.
    + unfold sub_record, linked. wsimpl. rewrite G. repeat split; auto.
  - unfold sub_record, linked in E0.
    eexists; exists (Rec (fresh_id (created w)) (personal_native id p)); exists []. split.
    + apply try_ret.
      rewrite (bind_run _ _ _ _ _ (search_run _ _ _ w Hh)).
      unfold bind at 1, lift at 1. rewrite personal_to_native_dict.
      destruct (filter _ _) as [|x l] eqn:Ef; [|discriminate].
      rewrite (bind_run _ _ _ _ _ (create_run PersonalDetails _ (count_call w) Hh)).
      reflexivity.
    + unfold sub_record, linked. wsimpl. rewrite filter_app.
      destruct (filter _ (personal_rows w)); [|discriminate].
      cbn. rewrite String.eqb_refl. repeat split; auto.
Qed.

(** [_update_salary_preferences], likewise. *)
Lemma update_salary_run (id : string) (s : dict) (w : world) :
  healthy w ->
  exists w' r old,
    _update_salary_preferences id (JDict s) w = (Ret tt, w') /\
    sub_record SalaryPreferences id w' = Some r /\
    rec_fields r = dict_update old (salary_native id s) /\
    applicants_rows w' = applicants_rows w /\
    personal_rows w' = personal_rows w /\
    experience_rows w' = experience_rows w /\
    healthy w'.
Proof.
  intros Hh. unfold _update_salary_preferences.
  destruct (sub_record SalaryPreferences id w) as [r0|] eqn:E0.
  - unfold sub_record, linked in E0.
    destruct (first_match_updated (record_matches "Applicant" id)
                (salary_native id s) (rows SalaryPreferences w) r0) as (r' & F & G);
      [ intros i old; apply link_matches; reflexivity | exact E0 | ].
    eexists; exists (Rec (rec_id r') (dict_update (rec_fields r') (salary_native id s)));
      exists (rec_fields r'). split.
    + apply try_ret.
      rewrite (bind_run _ _ _ _ _ (search_run _ _ _ w Hh)).
      unfold bind at 1, lift at 1. rewrite salary_to_native_dict.
      destruct (filter _ _) as [|x l]; [discriminate|]. injection E0 as ->.
      rewrite (bind_run _ _ _ _ _ (update_run SalaryPreferences _ _ (count_call w) r' Hh F)).
      reflexivity.
    + unfold sub_record, linked. wsimpl. rewrite G. repeat split; auto.
  - unfold sub_record, linked in E0.
    eexists; exists (Rec (fresh_id (created w)) (salary_native id s)); exists []. split.
    + apply try_ret.
      rewrite (bind_run _ _ _ _ _ (search_run _ _ _ w Hh)).
      unfold bind at 1, lift at 1. rewrite salary_to_native_dict.
      destruct (filter _ _) as [|x l] eqn:Ef; [|discriminate].
      rewrite (bind_run _ _ _ _ _ (create_run SalaryPreferences _ (count_call w) Hh)).
      reflexivity.
    + unfold sub_record, linked. wsimpl. rewrite filter_app.
      destruct (filter _ (salary_rows w)); [|discriminate].
      cbn. rewrite String.eqb_refl. repeat split; auto.
Qed.


(** A run of [decompress_applicant_data] on a document whose three
    sections are a JSON object, a list of JSON objects and a JSON object,
    while the transport works. *)
Lemma decompress_run (id s : string) (w : world) (ra : airtable_record)
  (d p sal : dict) (ds : list dict) :
  healthy w ->
  find (has_id id) (applicants_rows w) = Some ra ->
  dict_get (rec_fields ra) "Compressed JSON" JNull = JStr s ->
  json_loads s = Ret (JDict d) ->
  dict_get d "personal" (JDict []) = JDict p ->
  dict_get d "experience" (JList []) = JList (map JDict ds) ->
  dict_get d "salary" (JDict []) = JDict sal ->
  NoDup (map rec_id (linked WorkExperience id w)) ->
  exists w' n rp oldp rs olds ra',
    decompress_applicant_data id w = (Ret true, w') /\
    healthy w' /\
    sub_record PersonalDetails id w' = Some rp /\
    rec_fields rp = dict_update oldp (personal_native id p) /\
    experience_rows w' =
      without (linked WorkExperience id w) (experience_rows w)
      ++ created_records n (map (experience_native id) ds) /\
    linked WorkExperience id w' = created_records n (map (experience_native id) ds) /\
    sub_record SalaryPreferences id w' = Some rs /\
    rec_fields rs = dict_update olds (salary_native id sal) /\
    find (has_id id) (applicants_rows w') = Some ra'.
Proof.
  intros Hh Fa Gs Ld Gp Ge Gl Hn.
  set (w0 := add_log (LogEntry INFO ("Starting decompression for applicant " ++ id)) w).
  destruct (update_personal_run id p (count_call w0) Hh)
    as (w1 & rp & oldp & E1 & Sp & Fp & A1 & X1 & S1 & H1).
  destruct (update_work_experience_run id ds w1 H1)
    as (w2 & n & E2 & X2 & L2 & A2 & P2 & S2 & H2).
  { unfold linked. wsimpl. rewrite X1. exact Hn. }
  destruct (update_salary_run id sal w2 H2)
    as (w3 & rs & olds & E3 & Ss & Fs & A3 & P3 & X3 & H3).
  assert (Fa3 : find (has_id id) (rows Applicants (count_tick w3)) = Some ra).
  { wsimpl. rewrite A3, A2, A1. exact Fa. }
  eexists; exists n, rp, oldp, rs, olds. eexists. split; [|split; [|split; [|split; [|split; [|split; [|split; [|split]]]]]]].
  - unfold decompress_applicant_data. apply try_ret.
    unfold bind at 1, logger at 1. fold w0.
    rewrite (bind_run _ _ _ _ _ (get_run Applicants id w0 ra Hh Fa)).
    rewrite (dict_mem_of_get _ _ _ Gs) by discriminate. cbn [negb].
    rewrite Gs. unfold bind at 1, lift at 1, py_json_loads. rewrite Ld.
    unfold bind at 1, lift at 1, py_get. rewrite Gp.
    rewrite (bind_run _ _ _ _ _ E1).
    unfold bind at 1, lift at 1. rewrite Ge.
    rewrite (bind_run _ _ _ _ _ E2).
    unfold bind at 1, lift at 1. rewrite Gl.
    rewrite (bind_run _ _ _ _ _ E3).
    unfold bind at 1, now_isoformat at 1.
    rewrite (bind_run _ _ _ _ _ (update_run Applicants id _ (count_tick w3) ra H3 Fa3)).
    reflexivity.
  - exact H3.
  - unfold sub_record, linked in *. wsimpl. rewrite P3, P2. exact Sp.
  - exact Fp.
  - wsimpl. rewrite X3, X2. unfold linked. wsimpl. rewrite X1. reflexivity.
  - unfold linked in *. wsimpl. rewrite X3. exact L2.
  - unfold sub_record, linked in *. wsimpl. exact Ss.
  - exact Fs.
  - wsimpl. rewrite find_update_rows, A3, A2, A1. unfold w0. wsimpl.
    rewrite Fa. cbn [option_map]. eapply find_some in Fa. destruct Fa as [_ ->].
    reflexivity.
Qed.

End Decompressor.

(* ================================================================== *)
(** * The transform between the document and the tables *)

Section Transform.

Import AirtableCompressor AirtableDecompressor.

Lemma nth_error_created (n i : nat) (news : list dict) (d : dict) :
  nth_error news i = Some d ->
  exists r, nth_error (created_records n news) i = Some r /\ rec_fields r = d.
Proof.
  revert n i. induction news as [|x news IH]; intros n [|i] H; cbn in *; try discriminate.
  - injection H as ->. eexists. split; reflexivity.
  - apply IH. exact H.
Qed.

(** C3 (destructive replace).  While the transport works, decompressing an
    applicant whose document lists the JSON objects [ds] as experience
    removes from the Work Experience table every record linked to the
    applicant (none of the records kept is linked to it) and appends one
    fresh record per entry, in document order: afterwards the linked
    records are exactly these, [length ds] of them, with the native fields
    of the entries. *)
Theorem decompress_replaces_experience (id s : string) (w : world)
  (ra : airtable_record) (d p sal : dict) (ds : list dict) :
  healthy w ->
  find (has_id id) (applicants_rows w) = Some ra ->
  dict_get (rec_fields ra) "Compressed JSON" JNull = JStr s ->
  json_loads s = Ret (JDict d) ->
  dict_get d "personal" (JDict []) = JDict p ->
  dict_get d "experience" (JList []) = JList (map JDict ds) ->
  dict_get d "salary" (JDict []) = JDict sal ->
  NoDup (map rec_id (linked WorkExperience id w)) ->
  exists w' fresh,
    decompress_applicant_data id w = (Ret true, w') /\
    experience_rows w' =
      without (linked WorkExperience id w) (experience_rows w) ++ fresh /\
    filter (record_matches "Applicant" id)
      (without (linked WorkExperience id w) (experience_rows w)) = [] /\
    linked WorkExperience id w' = fresh /\
    map rec_fields fresh = map (experience_native id) ds /\
    List.length (linked WorkExperience id w') = List.length ds.
Proof.
  intros Hh Fa Gs Ld Gp Ge Gl Hn.
  destruct (decompress_run id s w ra d p sal ds Hh Fa Gs Ld Gp Ge Gl Hn)
    as (w' & n & rp & oldp & rs & olds & ra' & E & _ & _ & _ & X & L & _).
  exists w', (created_records n (map (experience_native id) ds)).
  split; [exact E|]. split; [exact X|]. split.
  - apply without_linked.
  - split; [exact L|]. split; [apply created_records_fields|].
    rewrite L, <- (length_map rec_fields), created_records_fields, length_map.
    reflexivity.
Qed.

(** C4 (one-way normalization).  For an experience entry of the document
    whose [current] flag is truthy, whatever its [end] value, decompression
    writes a record with an empty End Date and the flag itself as Current
    Position; compressing the applicant again reads the entry back with
    [end] empty and the same flag. *)
Theorem current_entry_loses_end_date (id s : string) (w : world)
  (ra : airtable_record) (d p sal : dict) (ds : list dict) (i : nat) (e : dict) :
  healthy w ->
  find (has_id id) (applicants_rows w) = Some ra ->
  dict_get (rec_fields ra) "Compressed JSON" JNull = JStr s ->
  json_loads s = Ret (JDict d) ->
  dict_get d "personal" (JDict []) = JDict p ->
  dict_get d "experience" (JList []) = JList (map JDict ds) ->
  dict_get d "salary" (JDict []) = JDict sal ->
  NoDup (map rec_id (linked WorkExperience id w)) ->
  nth_error ds i = Some e ->
  truthy (dict_get e "current" (JBool false)) = true ->
  exists w1 w2 r doc exps e',
    decompress_applicant_data id w = (Ret true, w1) /\
    nth_error (linked WorkExperience id w1) i = Some r /\
    dict_get (rec_fields r) "End Date" JNull = JStr "" /\
    dict_get (rec_fields r) "Current Position" JNull = dict_get e "current" (JBool false) /\
    compress_applicant_data id w1 = (Ret (Some doc), w2) /\
    py_get doc "experience" JNull = Ret (JList exps) /\
    nth_error exps i = Some (JDict e') /\
    dict_get e' "end" JNull = JStr "" /\
    dict_get e' "current" JNull = dict_get e "current" (JBool false).
Proof.
  intros Hh Fa Gs Ld Gp Ge Gl Hn Hi Hc.
  destruct (decompress_run id s w ra d p sal ds Hh Fa Gs Ld Gp Ge Gl Hn)
    as (w1 & n & rp & oldp & rs & olds & ra' & E & H1 & Sp & _ & _ & L & Ss & _ & Fa').
  destruct (compress_healthy id w1 rp rs ra' H1 Sp Ss Fa') as (w2 & C & _).
  destruct (nth_error_created n i (map (experience_native id) ds) (experience_native id e))
    as (r & Nr & Fr); [apply map_nth_error; exact Hi|].
  exists w1, w2, r. eexists. eexists. exists (Document.experience_dict
    (Document.Experience (dict_get e "company" (JStr "")) (dict_get e "title" (JStr ""))
       (dict_get e "start" (JStr "")) (JStr "") (dict_get e "technologies" (JList []))
       (dict_get e "current" (JBool false)))).
  split; [exact E|]. split; [rewrite L; exact Nr|].
  split; [rewrite Fr; unfold experience_native; cbn; rewrite Hc; reflexivity|].
  split; [rewrite Fr; reflexivity|].
  split; [exact C|]. split; [reflexivity|].
  split; [|split; reflexivity].
  rewrite L, created_records_fields, map_map.
  erewrite map_nth_error by exact Hi.
  unfold experience_to_canonical, experience_native. cbn. rewrite Hc. reflexivity.
Qed.

Lemma personal_read_back (id : string) (old : dict) (p : Document.personal) :
  personal_to_canonical (dict_update old (personal_native id (Document.personal_dict p)))
  = Document.personal_json p.
Proof.
  unfold personal_to_canonical. rewrite !dict_get_update. reflexivity.
Qed.

Lemma salary_read_back (id : string) (old : dict) (s : Document.salary) :
  salary_to_canonical (dict_update old (salary_native id (Document.salary_dict s)))
  = Document.salary_json s.
Proof.
  unfold salary_to_canonical. rewrite !dict_get_update. reflexivity.
Qed.

Lemma experience_read_back (id : string) (e : Document.experience) :
  truthy (Document.current e) = false ->
  experience_to_canonical (experience_native id (Document.experience_dict e))
  = Document.experience_json e.
Proof.
  intros H. unfold experience_to_canonical, experience_native. cbn. rewrite H.
  reflexivity.
Qed.

(** C1 (round trip).  For a canonical document [D] none of whose experience
    entries is current, decompressing the applicant that carries [D] and
    compressing it again, while the transport works, returns [D] with a new
    metadata section: the personal, experience and salary sections are
    equal field for field and the experience entries keep their order. *)
Theorem roundtrip_decompress_compress (id s : string) (w : world)
  (ra : airtable_record) (D : Document.t) :
  healthy w ->
  find (has_id id) (applicants_rows w) = Some ra ->
  dict_get (rec_fields ra) "Compressed JSON" JNull = JStr s ->
  json_loads s = Ret (Document.to_json D) ->
  Forall (fun e => truthy (Document.current e) = false) (Document.doc_experience D) ->
  NoDup (map rec_id (linked WorkExperience id w)) ->
  exists w1 w2 metadata,
    decompress_applicant_data id w = (Ret true, w1) /\
    compress_applicant_data id w1 =
      (Ret (Some (Document.to_json (Document.with_metadata D metadata))), w2).
Proof.
  intros Hh Fa Gs Ld Hc Hn.
  destruct (decompress_run id s w ra (Document.sections D)
              (Document.personal_dict (Document.doc_personal D))
              (Document.salary_dict (Document.doc_salary D))
              (map Document.experience_dict (Document.doc_experience D))
              Hh Fa Gs Ld)
    as (w1 & n & rp & oldp & rs & olds & ra' & E & H1 & Sp & Fp & _ & L & Ss & Fs & Fa');
    [ reflexivity | cbn; rewrite map_map; reflexivity | reflexivity | exact Hn | ].
  destruct (compress_healthy id w1 rp rs ra' H1 Sp Ss Fa') as (w2 & C & _).
  exists w1, w2. eexists. split; [exact E|]. rewrite C. f_equal. f_equal. f_equal.
  unfold build_document, Document.to_json, Document.sections, Document.with_metadata.
  cbn [Document.doc_personal Document.doc_experience Document.doc_salary Document.doc_metadata].
  rewrite Fp, Fs, personal_read_back, salary_read_back, L, created_records_fields, !map_map.
  rewrite (map_ext_in _ Document.experience_json); [reflexivity|].
  intros e He. apply experience_read_back.
  rewrite Forall_forall in Hc. apply Hc. exact He.
Qed.

End Transform.
Section TransformWitnesses.

Import AirtableCompressor AirtableDecompressor.

Lemma steady_healthy : healthy Example.steady.
Proof. intros n. reflexivity. Defined.

Lemma linked_A_nodup :
  NoDup (map rec_id (linked WorkExperience "recA" Example.steady)).
Proof.
  repeat (constructor; [cbn; intuition discriminate|]). constructor.
Defined.

Lemma linked_B_nodup :
  NoDup (map rec_id (linked WorkExperience "recB" Example.steady)).
Proof. constructor. Defined.

(** Five records are linked to [recA] and its document lists two entries:
    after the run exactly two records are linked to it. *)
Lemma decompress_replaces_experience_witness :
  List.length (linked WorkExperience "recA" Example.steady) = 5 /\
  exists w' fresh,
    decompress_applicant_data "recA" Example.steady = (Ret true, w') /\
    experience_rows w' =
      without (linked WorkExperience "recA" Example.steady)
        (experience_rows Example.steady) ++ fresh /\
    filter (record_matches "Applicant" "recA")
      (without (linked WorkExperience "recA" Example.steady)
         (experience_rows Example.steady)) = [] /\
    linked WorkExperience "recA" w' = fresh /\
    map rec_fields fresh =
      map (experience_native "recA")
        (map Document.experience_dict [Example.past_1; Example.current_1]) /\
    List.length (linked WorkExperience "recA" w') = 2.
Proof.
  split; [reflexivity|].
  apply (decompress_replaces_experience "recA" Example.text_A Example.steady
           Example.applicant_A (Document.sections Example.doc_A)
           (Document.personal_dict Example.ada)
           (Document.salary_dict Example.ada_salary)
           (map Document.experience_dict [Example.past_1; Example.current_1])).
  - exact steady_healthy.
  - reflexivity.
  - reflexivity.
  - vm_compute. reflexivity.
  - reflexivity.
  - reflexivity.
  - reflexivity.
  - exact linked_A_nodup.
Defined.

Lemma current_entry_loses_end_date_witness :
  dict_get (Document.experience_dict Example.current_1) "end" JNull = JStr "2023-12-31" /\
  exists w1 w2 r doc exps e',
    decompress_applicant_data "recA" Example.steady = (Ret true, w1) /\
    nth_error (linked WorkExperience "recA" w1) 1 = Some r /\
    dict_get (rec_fields r) "End Date" JNull = JStr "" /\
    dict_get (rec_fields r) "Current Position" JNull = JBool true /\
    compress_applicant_data "recA" w1 = (Ret (Some doc), w2) /\
    py_get doc "experience" JNull = Ret (JList exps) /\
    nth_error exps 1 = Some (JDict e') /\
    dict_get e' "end" JNull = JStr "" /\
    dict_get e' "current" JNull = JBool true.
Proof.
  split; [reflexivity|].
  apply (current_entry_loses_end_date "recA" Example.text_A Example.steady
           Example.applicant_A (Document.sections Example.doc_A)
           (Document.personal_dict Example.ada)
           (Document.salary_dict Example.ada_salary)
           (map Document.experience_dict [Example.past_1; Example.current_1])
           1 (Document.experience_dict Example.current_1)).
  - exact steady_healthy.
  - reflexivity.
  - reflexivity.
  - vm_compute. reflexivity.
  - reflexivity.
  - reflexivity.
  - reflexivity.
  - exact linked_A_nodup.
  - reflexivity.
  - reflexivity.
Defined.

Lemma roundtrip_decompress_compress_witness :
  exists w1 w2 metadata,
    decompress_applicant_data "recB" Example.steady = (Ret true, w1) /\
    compress_applicant_data "recB" w1 =
      (Ret (Some (Document.to_json (Document.with_metadata Example.doc_B metadata))), w2).
Proof.
  apply (roundtrip_decompress_compress "recB" Example.text_B Example.steady
           Example.applicant_B Example.doc_B).
  - exact steady_healthy.
  - reflexivity.
  - reflexivity.
  - vm_compute. reflexivity.
  - repeat constructor.
  - exact linked_B_nodup.
Defined.

End TransformWitnesses.

(* ================================================================== *)
(** * Failures of the Compressor *)

Section CompressorFailures.

Import AirtableCompressor AirtableDecompressor.

Lemma stored_same_tables (id field : string) (w w' : world) :
  same_tables w w' -> stored id field w' = stored id field w.
Proof. intros H. unfold stored. rewrite (H Applicants : applicants_rows w' = _). reflexivity. Qed.

(** With both required sub-records in hand, the method ends as its update
    of the Applicants table ends. *)
Lemma compress_with_required (id : string) (w : world) (p s : dict) :
  fetched PersonalDetails id 0 w = Some p -> opt_truthy (Some p) = true ->
  fetched SalaryPreferences id 2 w = Some s -> opt_truthy (Some s) = true ->
  fst (compress_applicant_data id w) =
  if fails w (3 + calls w) then Raise (HTTPError "transport failure")
  else
    match find (has_id id) (applicants_rows w) with
    | Some _ =>
        Ret (Some (build_document p
                     (if fails w (1 + calls w) then []
                      else map rec_fields (linked WorkExperience id w))
                     s (clock w (ticks w))))
    | None => Raise (HTTPError "404 NOT_FOUND")
    end.
Proof.
  unfold fetched. cbn [Nat.add]. intros Fp Tp Fs Ts.
  unfold compress_applicant_data. mstep.
  rewrite fetch_personal_run. wsimpl.
  destruct (fails w (calls w)); [discriminate|]. wsimpl.
  rewrite fetch_experience_run. wsimpl.
  destruct (fails w (S (calls w))); wsimpl; rewrite fetch_salary_run; wsimpl;
    (destruct (fails w (S (S (calls w)))); [discriminate|]); wsimpl;
    unfold sub_record, linked in *; wsimpl; rewrite Fp, Fs;
    cbn [forallb]; rewrite Tp, Ts;
    cbv beta iota delta [andb negb now_isoformat update remote]; wsimpl;
    (destruct (fails w (S (S (S (calls w))))); [reflexivity|]); wsimpl;
    destruct (find (has_id id) (applicants_rows w)); reflexivity.
Qed.

(** C5 (missing prerequisite).  When the Personal or the Salary sub-record
    of the applicant is absent, [compress_applicant_data] returns [None],
    logs the missing data and writes nothing: the tables, and so the
    document and the last-compressed timestamp of the applicant, are
    unchanged.  With both sub-records present and no Work Experience
    record, while the transport works, it returns a document whose
    experience list is empty. *)
Theorem compress_missing_prerequisite :
  (forall (id : string) (w : world),
     sub_record PersonalDetails id w = None \/
     sub_record SalaryPreferences id w = None ->
     exists w',
       compress_applicant_data id w = (Ret None, w') /\
       same_tables w w' /\
       stored id "Compressed JSON" w' = stored id "Compressed JSON" w /\
       stored id "Last Compressed" w' = stored id "Last Compressed" w /\
       In (LogEntry ERROR ("Missing required data for applicant " ++ id)) (log w')) /\
  (forall (id : string) (w : world) (rp rs ra : airtable_record),
     healthy w ->
     sub_record PersonalDetails id w = Some rp ->
     sub_record SalaryPreferences id w = Some rs ->
     find (has_id id) (applicants_rows w) = Some ra ->
     linked WorkExperience id w = [] ->
     exists doc w',
       compress_applicant_data id w = (Ret (Some doc), w') /\
       py_get doc "experience" JNull = Ret (JList []) /\
       stored id "Compressed JSON" w' = JStr (json_dumps doc)).
Proof.
  split.
  - intros id w H.
    destruct (compress_without_required id w) as (w' & E & T & L).
    { unfold fetched. destruct H as [-> | ->]; [left | right];
        destruct (fails w _); reflexivity. }
    exists w'. split; [exact E|]. split; [exact T|].
    split; [apply stored_same_tables; exact T|].
    split; [apply stored_same_tables; exact T | exact L].
  - intros id w rp rs ra Hh Sp Ss Fa Le.
    destruct (compress_healthy id w rp rs ra Hh Sp Ss Fa) as (w' & E & A & _).
    rewrite Le in E, A. eexists; exists w'. split; [exact E|]. split; [reflexivity|].
    unfold stored. rewrite A, find_update_rows, Fa. cbn [option_map].
    apply find_some in Fa as [_ ->]. cbn [rec_fields].
    rewrite dict_get_update. reflexivity.
Qed.

Lemma compress_missing_prerequisite_witness :
  (exists w',
     compress_applicant_data "recC" Example.steady = (Ret None, w') /\
     same_tables Example.steady w' /\
     stored "recC" "Compressed JSON" w' = stored "recC" "Compressed JSON" Example.steady /\
     stored "recC" "Last Compressed" w' = stored "recC" "Last Compressed" Example.steady /\
     In (LogEntry ERROR "Missing required data for applicant recC") (log w')) /\
  (exists doc w',
     compress_applicant_data "recE" Example.steady = (Ret (Some doc), w') /\
     py_get doc "experience" JNull = Ret (JList []) /\
     stored "recE" "Compressed JSON" w' = JStr (json_dumps doc)).
Proof.
  split.
  - apply (proj1 compress_missing_prerequisite "recC" Example.steady).
    left. reflexivity.
  - apply (proj2 compress_missing_prerequisite "recE" Example.steady
             (Example.personal_of "recP5" "Eve" "recE")
             (Example.salary_of "recS5" "recE") Example.applicant_E).
    + intros n. reflexivity.
    + reflexivity.
    + reflexivity.
    + reflexivity.
    + reflexivity.
Defined.

(** A fetch of the Personal sub-record that fails in transport leaves its
    trace in the log. *)
Lemma personal_fetch_error_logged (id : string) (w : world) :
  fails w (calls w) = true ->
  In (LogEntry ERROR ("Failed to fetch personal data: " ++ transport_error_text))
    (log (snd (compress_applicant_data id w))).
Proof.
  intros F0. unfold compress_applicant_data. mstep.
  rewrite fetch_personal_run. wsimpl. rewrite F0.
  rewrite fetch_experience_run. wsimpl.
  destruct (fails w (S (calls w))); wsimpl; rewrite fetch_salary_run; wsimpl;
    destruct (fails w (S (S (calls w)))); wsimpl;
    unfold sub_record, linked; wsimpl;
    repeat match goal with
      | |- context [hd_error ?l] => destruct (hd_error l)
      end;
    cbn [option_map opt_truthy truthy forallb andb negb];
    wsimpl; rewrite !in_app_iff; cbn [In]; tauto.
Qed.

(** C7, as the code has it.  A fetch of the Personal or of the Salary
    sub-record that fails in transport is caught by the fetch helper, and
    [compress_applicant_data] then returns [None], logs the missing data
    and writes nothing, exactly as it does when the sub-record is absent;
    the failed fetch shows in the log only.  Only the update of the
    Applicants table raises to the caller: with both sub-records in hand,
    the method raises when that call fails. *)
Theorem compress_fetch_error_reads_as_missing (id : string) (w : world) :
  (fails w (calls w) = true \/ fails w (2 + calls w) = true ->
   exists w',
     compress_applicant_data id w = (Ret None, w') /\
     same_tables w w' /\
     In (LogEntry ERROR ("Missing required data for applicant " ++ id)) (log w')) /\
  (fails w (calls w) = true ->
   In (LogEntry ERROR ("Failed to fetch personal data: " ++ transport_error_text))
     (log (snd (compress_applicant_data id w)))) /\
  (forall p s,
     fetched PersonalDetails id 0 w = Some p -> opt_truthy (Some p) = true ->
     fetched SalaryPreferences id 2 w = Some s -> opt_truthy (Some s) = true ->
     fails w (3 + calls w) = true ->
     fst (compress_applicant_data id w) = Raise (HTTPError "transport failure")).
Proof.
  split; [|split].
  - intros H. apply compress_without_required. unfold fetched. cbn [Nat.add] in *.
    destruct H as [-> | ->]; [left | right]; reflexivity.
  - apply personal_fetch_error_logged.
  - intros p s Fp Tp Fs Ts Fu.
    rewrite (compress_with_required id w p s Fp Tp Fs Ts), Fu. reflexivity.
Qed.

Lemma compress_fetch_error_reads_as_missing_witness :
  (exists w',
     compress_applicant_data "recD" (Example.failing_at 0) = (Ret None, w') /\
     same_tables (Example.failing_at 0) w' /\
     In (LogEntry ERROR "Missing required data for applicant recD") (log w')) /\
  fst (compress_applicant_data "recD" (Example.failing_at 3))
  = Raise (HTTPError "transport failure").
Proof.
  split.
  - apply (proj1 (compress_fetch_error_reads_as_missing "recD" (Example.failing_at 0))).
    left. reflexivity.
  - apply (proj2 (proj2 (compress_fetch_error_reads_as_missing "recD" (Example.failing_at 3)))
             (rec_fields (Example.personal_of "recP4" "Dan" "recD"))
             (rec_fields (Example.salary_of "recS4" "recD")));
      reflexivity.
Defined.

(** C7, as stated, fails: [recD] without its Personal sub-record, and
    [recD] with it while the fetch of it fails in transport, give the
    caller the same outcome. *)
Lemma missing_data_and_fetch_error_indistinguishable :
  sub_record PersonalDetails "recD" Example.without_personal_of_D = None /\
  sub_record PersonalDetails "recD" (Example.failing_at 0)
    = Some (Example.personal_of "recP4" "Dan" "recD") /\
  fails (Example.failing_at 0) (calls (Example.failing_at 0)) = true /\
  fst (compress_applicant_data "recD" Example.without_personal_of_D) = Ret None /\
  fst (compress_applicant_data "recD" (Example.failing_at 0)) = Ret None.
Proof. repeat split; reflexivity. Qed.

End CompressorFailures.

(* ================================================================== *)
(** * The batch drivers *)

Section Batch.

Import AirtableCompressor AirtableDecompressor.

Lemma decompress_log (id : string) (w : world) :
  exists extra,
    log (snd (decompress_applicant_data id w)) =
      log w ++ LogEntry INFO ("Starting decompression for applicant " ++ id) :: extra /\
    Forall quiet extra.
Proof.
  unfold decompress_applicant_data. apply log_of_started.
  - unfold _update_personal_details, _update_work_experience, _update_salary_preferences.
    repeat logs_step; quiet_entry.
  - intros e. repeat logs_step; quiet_entry.
Qed.

(** [decompress_applicant_data] catches every exception itself. *)
Lemma decompress_never_raises (id : string) (w : world) :
  exists b, fst (decompress_applicant_data id w) = Ret b.
Proof.
  unfold decompress_applicant_data, try_except.
  match goal with |- context [match ?m w with _ => _ end] => destruct (m w) as [[b|e] w1] end.
  - exists b. reflexivity.
  - exists false. reflexivity.
Qed.

Lemma decompress_turn_run (a : airtable_record) (w : world) :
  fst (decompress_modified_turn a w) = Ret tt /\
  decompressions_started (log (snd (decompress_modified_turn a w))) =
    decompressions_started (log w) ++ [rec_id a] /\
  decompression_failures (log (snd (decompress_modified_turn a w))) =
    decompression_failures (log w).
Proof.
  destruct (decompress_log (rec_id a) w) as (extra & E & Q).
  destruct (decompress_never_raises (rec_id a) w) as (b & R).
  apply quiet_readings in Q as (_ & _ & Q3 & Q4).
  unfold decompress_modified_turn, try_except, bind, ret.
  destruct (decompress_applicant_data (rec_id a) w) as [[r|e] w1]; cbn [fst snd] in *;
    [|discriminate].
  split; [reflexivity|]. rewrite E.
  unfold decompressions_started, decompression_failures in *.
  rewrite !logged_after_app, (logged_after_cons INFO), (logged_after_cons ERROR), Q3, Q4.
  rewrite !logged_after_one. cbn [log_level log_msg level_eqb].
  rewrite strip_prefix_app, !app_nil_r. split; reflexivity.
Qed.

Lemma decompress_loop_run (modified : list airtable_record) (w : world) :
  fst (decompress_modified_loop modified w) = Ret tt /\
  decompressions_started (log (snd (decompress_modified_loop modified w))) =
    decompressions_started (log w) ++ map rec_id modified /\
  decompression_failures (log (snd (decompress_modified_loop modified w))) =
    decompression_failures (log w).
Proof.
  unfold decompress_modified_loop. revert w.
  induction modified as [|a modified IH]; intros w.
  - cbn. rewrite app_nil_r. repeat split.
  - destruct (decompress_turn_run a w) as (R & S1 & F1).
    rewrite (for_each_cons _ _ _ _ R).
    destruct (IH (snd (decompress_modified_turn a w))) as (R2 & S2 & F2).
    split; [exact R2|]. split.
    + rewrite S2, S1, <- app_assoc. reflexivity.
    + rewrite F2, F1. reflexivity.
Qed.





End Batch.

(* ================================================================== *)
(** * Change detection *)

Section ChangeDetection.

Import LLMEvaluator AirtableCompressor.

Lemma dict_get_rev_absent (new : dict) (k : string) (dflt : json) :
  dict_mem k new = false -> dict_get (rev new) k dflt = dflt.
Proof.
  induction new as [|[k' v] new IH]; cbn [rev dict_mem]; intros H; [reflexivity|].
  apply orb_false_iff in H as [H1 H2].
  rewrite dict_get_app. cbn [dict_get]. rewrite H1. auto.
Qed.

(** An update that does not carry a field leaves that field of every
    applicant as it was. *)
Lemma stored_after_update (id id' k : string) (new : dict) (w w' : world) :
  applicants_rows w' = update_rows id new (applicants_rows w) ->
  dict_mem k new = false ->
  stored id' k w' = stored id' k w.
Proof.
  intros H M. unfold stored. rewrite H, find_update_rows.
  destruct (find (has_id id') (applicants_rows w)) as [r|]; cbn [option_map]; [|reflexivity].
  destruct (has_id id r); [|reflexivity].
  cbn [rec_fields]. rewrite dict_get_update. apply dict_get_rev_absent. exact M.
Qed.

(** What an update writes is what is stored afterwards. *)
Lemma stored_written (id k : string) (new : dict) (w w' : world) (r : airtable_record) :
  applicants_rows w' = update_rows id new (applicants_rows w) ->
  find (has_id id) (applicants_rows w) = Some r ->
  stored id k w' = dict_get (rev new) k (dict_get (rec_fields r) k JNull).
Proof.
  intros H F. unfold stored. rewrite H, find_update_rows, F. cbn [option_map].
  apply find_some in F as [_ ->]. cbn [rec_fields]. apply dict_get_update.
Qed.

(** The data [_update_applicant_record] sends. *)
Lemma update_applicant_record_run (id S : string) (ev : evaluation) (w w' : world) :
  _update_applicant_record id ev S w = (Ret tt, w') ->
  exists r evaluation_date follow issues_text,
    find (has_id id) (applicants_rows w) = Some r /\
    applicants_rows w' =
      update_rows id
        [("LLM Summary", JStr (summary ev)); ("LLM Score", JNum (score ev));
         ("LLM Follow-Ups", JStr follow); ("LLM Issues", JStr issues_text);
         ("LLM Evaluation Date", JStr evaluation_date);
         ("Last JSON Hash", JStr (_hash_json S))]
        (applicants_rows w) /\
    fails w' = fails w.
Proof.
  unfold _update_applicant_record. mstep.
  cbv beta iota delta [now_isoformat update remote]. wsimpl.
  destruct (fails w (calls w)); [discriminate|].
  destruct (find (has_id id) (applicants_rows w)) as [r|] eqn:F; [|discriminate].
  intros E. injection E as <-. exists r. do 3 eexists.
  split; [reflexivity|]. split; reflexivity.
Qed.

(** C2, as the code has it.  [compress_applicant_data] never writes the
    digest: whatever it does, the digest stored for every applicant is the
    one stored before.  The digest is written by the evaluator, and after
    [_update_applicant_record] has recorded an evaluation of the string [S]
    the stored digest is the digest of [S]. *)
Theorem stored_hash_is_of_evaluated_document :
  (forall (id id' : string) (w : world),
     stored id' "Last JSON Hash" (snd (compress_applicant_data id w))
     = stored id' "Last JSON Hash" w) /\
  (forall (id S : string) (ev : evaluation) (w w' : world),
     _update_applicant_record id ev S w = (Ret tt, w') ->
     stored id "Last JSON Hash" w' = JStr (_hash_json S)).
Proof.
  split.
  - intros id id' w.
    destruct (compress_footprint id w) as [_ [A | (doc & ts & _ & A)]].
    + unfold stored. rewrite A. reflexivity.
    + apply (stored_after_update id id' _ _ _ _ A). reflexivity.
  - intros id S ev w w' E.
    destruct (update_applicant_record_run id S ev w w' E) as (r & d & f & i & F & A & _).
    rewrite (stored_written id _ _ w w' r A F). reflexivity.
Qed.

Lemma stored_hash_is_of_evaluated_document_witness :
  stored "recA" "Last JSON Hash" Scenario.evaluated = JStr (_hash_json Example.text_A).
Proof.
  apply (proj2 stored_hash_is_of_evaluated_document "recA" Example.text_A
           Scenario.review Example.steady Scenario.evaluated).
  reflexivity.
Defined.

(** C2, as stated, fails: after the evaluation of [recA] the stored digest
    is the digest of its document; compressing [recA] again writes another
    document and leaves the digest, which no longer is the digest of the
    document. *)
Lemma compress_leaves_stale_hash :
  hash_in_sync "recA" Scenario.evaluated = true /\
  returned_document (fst (compress_applicant_data "recA" Scenario.evaluated)) = true /\
  py_eq (stored "recA" "Compressed JSON" Scenario.recompressed)
        (stored "recA" "Compressed JSON" Scenario.evaluated) = false /\
  hash_in_sync "recA" Scenario.recompressed = false.
Proof. vm_compute. repeat split; reflexivity. Qed.

(** C6, as the code has it.  Right after [_update_applicant_record] has
    recorded an evaluation with a non-empty summary for the string [S],
    and when the record of the applicant can be read, [_needs_evaluation]
    answers [False] for [S] and, for any string [S'], [True] exactly when
    the digest of [S'] differs from the digest of [S]. *)
Theorem change_detection_by_digest (id S : string) (ev : evaluation) (w w' : world) :
  _update_applicant_record id ev S w = (Ret tt, w') ->
  summary ev <> "" ->
  fails w' (calls w') = false ->
  fst (_needs_evaluation id S w') = Ret false /\
  (forall S', fst (_needs_evaluation id S' w')
              = Ret (negb (String.eqb (_hash_json S) (_hash_json S')))) /\
  (forall S', _hash_json S' <> _hash_json S ->
              fst (_needs_evaluation id S' w') = Ret true).
Proof.
  intros E Hs Hf.
  destruct (update_applicant_record_run id S ev w w' E) as (r & d & f & i & F & A & _).
  assert (G : forall S', fst (_needs_evaluation id S' w')
                         = Ret (negb (String.eqb (_hash_json S) (_hash_json S')))).
  { intros S'. unfold _needs_evaluation, try_except, bind, get.
    rewrite remote_ok by exact Hf. wsimpl.
    rewrite A, find_update_rows, F. cbn [option_map].
    pose proof F as F'. apply find_some in F' as [_ ->]. cbn [rec_fields].
    rewrite !dict_get_update.
    cbn [rev app dict_get String.eqb Ascii.eqb Bool.eqb andb truthy negb].
    destruct (String.eqb (summary ev) "") eqn:Q;
      [apply String.eqb_eq in Q; contradiction|].
    reflexivity. }
  split; [rewrite G, String.eqb_refl; reflexivity|]. split; [exact G|].
  intros S' N. rewrite G.
  destruct (String.eqb (_hash_json S) (_hash_json S')) eqn:Q; [|reflexivity].
  apply String.eqb_eq in Q. congruence.
Qed.

Lemma change_detection_by_digest_witness :
  fst (_needs_evaluation "recA" Example.text_A Scenario.evaluated) = Ret false /\
  fst (_needs_evaluation "recA" Example.text_B Scenario.evaluated) = Ret true.
Proof.
  destruct (change_detection_by_digest "recA" Example.text_A Scenario.review
              Example.steady Scenario.evaluated) as (H1 & H2 & _).
  - reflexivity.
  - discriminate.
  - reflexivity.
  - split; [exact H1|]. rewrite H2. vm_compute. reflexivity.
Defined.

(** C6, as stated, fails: the two strings differ and have the same digest,
    so that after an evaluation of the first one [_needs_evaluation]
    answers [False] for the second. *)
Lemma colliding_strings_not_detected :
  String.eqb Scenario.twin_1 Scenario.twin_2 = false /\
  fst (_update_applicant_record "recA" Scenario.review Scenario.twin_1 Example.steady)
    = Ret tt /\
  truthy (stored "recA" "LLM Summary" Scenario.evaluated_twin) = true /\
  fst (_needs_evaluation "recA" Scenario.twin_2 Scenario.evaluated_twin) = Ret false.
Proof. vm_compute. repeat split; reflexivity. Qed.

End ChangeDetection.

(* ================================================================== *)
(** * The score of an evaluation *)

Section Score.

Import LLMEvaluator.

Local Open Scope Z_scope.









End Score.

(* ================================================================== *)
(** * The validator *)

Section Sorting.

Lemma string_ltb_lt (s t : string) :
  string_ltb s t = true <-> OrderedTypeEx.String_as_OT.lt s t.
Proof.
  unfold string_ltb. rewrite <- OrderedTypeEx.String_as_OT.cmp_lt.
  unfold OrderedTypeEx.String_as_OT.cmp.
  destruct (String.compare s t); split; congruence.
Qed.

Lemma string_le_cases (s t : string) :
  string_le s t <-> s = t \/ string_ltb s t = true.
Proof.
  unfold string_le, string_ltb. rewrite (String.compare_antisym t s).
  destruct (String.compare s t) eqn:E; cbn.
  - apply String.compare_eq_iff in E. split; auto.
  - split; auto.
  - split; [discriminate|]. intros [->|H]; [|discriminate].
    pose proof (String.compare_antisym t t) as Q. rewrite E in Q. discriminate.
Qed.

Lemma string_le_total (s t : string) : string_le s t \/ string_le t s.
Proof.
  unfold string_le, string_ltb. rewrite (String.compare_antisym t s).
  destruct (String.compare s t); cbn; auto.
Qed.

Lemma string_le_trans (a b c : string) :
  string_le a b -> string_le b c -> string_le a c.
Proof.
  rewrite !string_le_cases, !string_ltb_lt.
  intros [->|H1] [->|H2]; auto.
  right. eapply OrderedTypeEx.String_as_OT.lt_trans; eassumption.
Qed.

Lemma string_le_antisym (a b : string) : string_le a b -> string_le b a -> a = b.
Proof.
  rewrite !string_le_cases, !string_ltb_lt.
  intros [->|H1] [E|H2]; auto.
  exfalso. apply (OrderedTypeEx.String_as_OT.lt_not_eq a a); [|reflexivity].
  eapply OrderedTypeEx.String_as_OT.lt_trans; eassumption.
Qed.

Context {A : Type} (name : A -> string).

Lemma insert_named_perm (x : A) (l : list A) :
  Permutation (insert_named name x l) (x :: l).
Proof.
  induction l as [|y l IH]; cbn; [reflexivity|].
  destruct (string_ltb (name y) (name x)); [|reflexivity].
  rewrite IH. apply perm_swap.
Qed.

Lemma sort_named_perm (l : list A) : Permutation (sort_named name l) l.
Proof.
  induction l as [|x l IH]; cbn; [reflexivity|].
  rewrite insert_named_perm, IH. reflexivity.
Qed.

Lemma insert_named_sorted (x : A) (l : list A) :
  StronglySorted (name_le name) l -> StronglySorted (name_le name) (insert_named name x l).
Proof.
  induction 1 as [|y l S IH F]; cbn.
  - repeat constructor.
  - destruct (string_ltb (name y) (name x)) eqn:E.
    + constructor; [exact IH|].
      rewrite insert_named_perm. constructor; [|exact F].
      unfold name_le. apply string_le_cases. right. exact E.
    + constructor; [constructor; assumption|].
      constructor; [exact E|].
      rewrite Forall_forall in *. intros z Hz.
      eapply string_le_trans; [exact E | apply F; exact Hz].
Qed.

Lemma sort_named_sorted (l : list A) : StronglySorted (name_le name) (sort_named name l).
Proof.
  induction l as [|x l IH]; cbn; [constructor|].
  apply insert_named_sorted. exact IH.
Qed.

(** Two sorted arrangements of the same items are equal when the names
    tell the items apart. *)
Lemma sorted_unique (l1 l2 : list A) :
  (forall x y, In x l1 -> In y l1 -> name x = name y -> x = y) ->
  StronglySorted (name_le name) l1 -> StronglySorted (name_le name) l2 ->
  Permutation l1 l2 -> l1 = l2.
Proof.
  revert l2. induction l1 as [|x l1 IH]; intros l2 U S1 S2 P.
  - apply Permutation_nil in P. subst. reflexivity.
  - destruct l2 as [|y l2]; [apply Permutation_sym, Permutation_nil in P; discriminate|].
    apply StronglySorted_inv in S1 as [S1 F1].
    apply StronglySorted_inv in S2 as [S2 F2].
    rewrite Forall_forall in F1, F2.
    assert (x = y) as ->.
    { assert (In y (x :: l1)) as Hy
        by (eapply Permutation_in; [apply Permutation_sym; exact P | left; reflexivity]).
      assert (In x (y :: l2)) as Hx
        by (eapply Permutation_in; [exact P | left; reflexivity]).
      destruct Hy as [Hy|Hy]; [exact Hy|]. destruct Hx as [Hx|Hx]; [symmetry; exact Hx|].
      apply U; [left; reflexivity | right; exact Hy |].
      apply string_le_antisym; [apply F1; exact Hy | apply F2; exact Hx]. }
    f_equal. apply IH; auto.
    + intros a b Ha Hb. apply U; right; assumption.
    + eapply Permutation_cons_inv. exact P.
Qed.

Lemma sort_named_permuted (l l' : list A) :
  NoDup (map name l) -> Permutation l l' -> sort_named name l = sort_named name l'.
Proof.
  intros N P. apply sorted_unique.
  - intros x y Hx Hy E.
    apply (Permutation_in _ (sort_named_perm l)) in Hx, Hy.
    clear P. induction l as [|z l IH]; [contradiction|].
    cbn [map] in N. apply NoDup_cons_iff in N as [N1 N2].
    destruct Hx as [->|Hx], Hy as [->|Hy]; auto.
    + exfalso. apply N1. rewrite E. apply in_map. exact Hy.
    + exfalso. apply N1. rewrite <- E. apply in_map. exact Hx.
  - apply sort_named_sorted.
  - apply sort_named_sorted.
  - rewrite !sort_named_perm. exact P.
Qed.

End Sorting.

Section Validator.

Import AirtableDecompressor.

Lemma insert_keyed_named {A} (name : A -> string) (x : A) (l : list A) :
  insert_keyed (JStr (name x), x) (map (fun y => (JStr (name y), y)) l)
  = Ret (map (fun y => (JStr (name y), y)) (insert_named name x l)).
Proof.
  induction l as [|y l IH]; cbn [map insert_keyed insert_named]; [reflexivity|].
  cbn [fst py_lt obind]. destruct (string_ltb (name y) (name x)); [|reflexivity].
  rewrite IH. reflexivity.
Qed.

Lemma sort_keyed_named {A} (name : A -> string) (l : list A) :
  sort_keyed (map (fun y => (JStr (name y), y)) l)
  = Ret (map (fun y => (JStr (name y), y)) (sort_named name l)).
Proof.
  induction l as [|x l IH]; cbn [map sort_keyed sort_named fold_right]; [reflexivity|].
  rewrite IH. cbn [obind]. apply insert_keyed_named.
Qed.

(** [sorted] by a key that is a text for every item is the stable sort by
    that text. *)
Lemma py_sorted_named {A} (key : A -> outcome json) (name : A -> string) (l : list A) :
  (forall x, In x l -> key x = Ret (JStr (name x))) ->
  py_sorted key l = Ret (sort_named name l).
Proof.
  intros H. unfold py_sorted.
  assert (E : map_outcome (fun x => obind (key x) (fun k => Ret (k, x))) l
              = Ret (map (fun y => (JStr (name y), y)) l)).
  { induction l as [|x l IH]; cbn [map_outcome map]; [reflexivity|].
    rewrite H by (left; reflexivity). cbn [obind].
    rewrite IH by (intros y Hy; apply H; right; exact Hy). reflexivity. }
  rewrite E. cbn [obind]. rewrite sort_keyed_named. cbn [obind].
  rewrite map_map. cbn [snd]. rewrite map_id. reflexivity.
Qed.

Lemma insert_named_map {A B} (f : A -> B) (nameA : A -> string) (nameB : B -> string)
  (x : A) (l : list A) :
  (forall y, nameB (f y) = nameA y) ->
  insert_named nameB (f x) (map f l) = map f (insert_named nameA x l).
Proof.
  intros H. induction l as [|y l IH]; cbn [map insert_named]; [reflexivity|].
  rewrite !H. destruct (string_ltb (nameA y) (nameA x)); [|reflexivity].
  rewrite IH. reflexivity.
Qed.

Lemma sort_named_map {A B} (f : A -> B) (nameA : A -> string) (nameB : B -> string)
  (l : list A) :
  (forall y, nameB (f y) = nameA y) ->
  sort_named nameB (map f l) = map f (sort_named nameA l).
Proof.
  intros H. induction l as [|x l IH]; cbn [map sort_named fold_right]; [reflexivity|].
  fold (sort_named nameB (map f l)). fold (sort_named nameA l).
  rewrite IH. apply insert_named_map. exact H.
Qed.

Lemma views_total {A} (view : A -> option (string * json)) (l : list A)
  (vs : list (string * json)) :
  map view l = map Some vs ->
  map (fun x => view_or_empty (view x)) l = vs /\
  forall x, In x l -> view x = Some (view_or_empty (view x)).
Proof.
  revert vs. induction l as [|x l IH]; intros [|v vs] H; cbn in *; try discriminate.
  - split; [reflexivity | contradiction].
  - injection H as Hx Hl. destruct (IH vs Hl) as [E F].
    rewrite Hx, E. split; [reflexivity|].
    intros y [<-|Hy]; [rewrite Hx; reflexivity | apply F; exact Hy].
Qed.

Lemma dict_get_present (d : dict) (k : string) (d1 d2 v : json) :
  dict_get d k d1 = v -> v <> d1 -> dict_get d k d2 = v.
Proof.
  induction d as [|[k' x] d IH]; cbn; intros H N.
  - congruence.
  - destruct (String.eqb k' k); auto.
Qed.

(** The comparison loop sees company names and titles only. *)
Lemma experience_pairs_match_views (rs : list airtable_record) (es : list dict) :
  (forall r, In r rs ->
     native_view (rec_fields r) = Some (view_or_empty (native_view (rec_fields r)))) ->
  (forall e, In e es -> canonical_view e = Some (view_or_empty (canonical_view e))) ->
  experience_pairs_match (combine rs (map JDict es))
  = Ret (forallb (fun ae => same_company_title (fst ae) (snd ae))
           (combine (map (fun r => view_or_empty (native_view (rec_fields r))) rs)
                    (map (fun e => view_or_empty (canonical_view e)) es))).
Proof.
  revert es. induction rs as [|r rs IH]; intros [|e es] Hr He;
    cbn [combine map experience_pairs_match forallb]; try reflexivity.
  pose proof (Hr r (or_introl eq_refl)) as Vr.
  pose proof (He e (or_introl eq_refl)) as Ve.
  rewrite IH;
    [ | intros; apply Hr; right; assumption | intros; apply He; right; assumption ].
  unfold native_view in Vr. unfold canonical_view in Ve.
  unfold same_company_title, native_view, canonical_view, py_or, py_get.
  cbn [obind fst snd].
  destruct (dict_get (rec_fields r) "Company" JNull) as [| | |c| |]; try discriminate.
  destruct (dict_get e "company" JNull) as [| | |c'| |]; try discriminate.
  cbn [view_or_empty fst snd py_eq].
  destruct (String.eqb c c'); cbn [negb andb]; [|reflexivity].
  destruct (py_eq _ _); reflexivity.
Qed.

(** [_validate_experience_data] when every company is a text: the answer
    is the one of [experience_agrees] on the company names and titles. *)
Lemma validate_experience_run (id : string) (w : world) (es : list dict)
  (av ev : list (string * json)) :
  fails w (calls w) = false ->
  map native_view (map rec_fields (linked WorkExperience id w)) = map Some av ->
  map canonical_view es = map Some ev ->
  _validate_experience_data id (JList (map JDict es)) w
  = (Ret (experience_agrees av ev), count_call w).
Proof.
  intros Hf Ha He. rewrite map_map in Ha.
  destruct (views_total _ _ _ Ha) as [Ea Ta].
  destruct (views_total _ _ _ He) as [Ee Te].
  unfold _validate_experience_data. apply try_ret.
  unfold bind at 1, search. rewrite remote_ok by exact Hf.
  fold (linked WorkExperience id (count_call w)).
  change (linked WorkExperience id (count_call w)) with (linked WorkExperience id w).
  unfold bind at 1, lift at 1, py_len.
  unfold experience_agrees. rewrite <- Ea, <- Ee, !length_map.
  destruct (Nat.eqb _ _); cbn [negb andb]; [|reflexivity].
  unfold bind at 1, lift at 1.
  rewrite (py_sorted_named _
             (fun r => fst (view_or_empty (native_view (rec_fields r))))).
  2:{ intros r Hr. specialize (Ta r Hr). unfold native_view in *.
      destruct (dict_get (rec_fields r) "Company" JNull) as [| | |c| |] eqn:G;
        try discriminate.
      cbn [view_or_empty fst]. f_equal.
      apply (dict_get_present _ _ JNull); [exact G | discriminate]. }
  unfold bind at 1, lift at 1, py_iter.
  unfold bind at 1, lift at 1.
  rewrite (py_sorted_named _ entry_name).
  2:{ intros x Hx. apply in_map_iff in Hx as (e & <- & Hx). specialize (Te e Hx).
      unfold py_get, entry_name, canonical_view in *.
      destruct (dict_get e "company" JNull) as [| | |c| |] eqn:G; try discriminate.
      cbn [view_or_empty fst]. f_equal.
      apply (dict_get_present _ _ JNull); [exact G | discriminate]. }
  rewrite (sort_named_map JDict (fun e => fst (view_or_empty (canonical_view e))) entry_name)
    by reflexivity.
  unfold lift. rewrite experience_pairs_match_views.
  - rewrite <- (sort_named_map (fun r => view_or_empty (native_view (rec_fields r)))
                  (fun r => fst (view_or_empty (native_view (rec_fields r)))) fst)
      by reflexivity.
    rewrite <- (sort_named_map (fun e => view_or_empty (canonical_view e))
                  (fun e => fst (view_or_empty (canonical_view e))) fst)
      by reflexivity.
    reflexivity.
  - intros r Hr. apply Ta. eapply Permutation_in; [apply sort_named_perm | exact Hr].
  - intros e Hx. apply Te. eapply Permutation_in; [apply sort_named_perm | exact Hx].
Qed.

End Validator.

Section Integrity.

Import AirtableDecompressor.

Lemma validate_personal_total (id : string) (expected : json) (w : world) :
  exists b, _validate_personal_data id expected w = (Ret b, count_call w).
Proof.
  unfold _validate_personal_data, try_except, bind, search, remote, ret, lift.
  destruct (fails w (calls w)); [eexists; reflexivity|].
  destruct (filter _ _); [eexists; reflexivity|].
  match goal with |- context [py_and ?a ?b] => destruct (py_and a b) end;
    eexists; reflexivity.
Qed.

Lemma validate_salary_total (id : string) (expected : json) (w : world) :
  exists b, _validate_salary_data id expected w = (Ret b, count_call w).
Proof.
  unfold _validate_salary_data, try_except, bind, search, remote, ret, lift.
  destruct (fails w (calls w)); [eexists; reflexivity|].
  destruct (filter _ _); [eexists; reflexivity|].
  match goal with |- context [py_and ?a ?b] => destruct (py_and a b) end;
    eexists; reflexivity.
Qed.

Lemma experience_agrees_permuted (av av' ev ev' : list (string * json)) :
  Permutation av av' -> Permutation ev ev' ->
  NoDup (map fst av) -> NoDup (map fst ev) ->
  experience_agrees av' ev' = experience_agrees av ev.
Proof.
  intros Pa Pe Na Ne. unfold experience_agrees.
  rewrite <- (sort_named_permuted fst av av' Na Pa).
  rewrite <- (sort_named_permuted fst ev ev' Ne Pe).
  rewrite (Permutation_length Pa), (Permutation_length Pe). reflexivity.
Qed.

(** C8 (validation by company and title).  For an applicant whose
    document parses to a JSON object, while the transport works,
    [validate_data_integrity] returns one boolean per section.  When the
    companies are texts, its experience entry is the answer of
    [experience_agrees] on the company names and titles of the records
    read and of the document entries: the counts are equal and, both
    lists being sorted by company name, the pairs agree on company and
    title; no other field is looked at.  That answer does not depend on
    the order of the records or of the entries; entries of one company
    name apart, which the specification leaves to their order of arrival,
    the company names of each list are taken pairwise distinct. *)
Theorem validate_by_company_and_title (id s : string) (w : world)
  (ra : airtable_record) (d : dict) (es : list dict) (av ev : list (string * json)) :
  healthy w ->
  find (has_id id) (applicants_rows w) = Some ra ->
  dict_get (rec_fields ra) "Compressed JSON" JNull = JStr s ->
  json_loads s = Ret (JDict d) ->
  dict_get d "experience" (JList []) = JList (map JDict es) ->
  map native_view (map rec_fields (linked WorkExperience id w)) = map Some av ->
  map canonical_view es = map Some ev ->
  (exists personal salary w',
     validate_data_integrity id w =
       (Ret (JDict [("personal", JBool personal);
                    ("experience", JBool (experience_agrees av ev));
                    ("salary", JBool salary)]), w')) /\
  (forall av' ev',
     Permutation av av' -> Permutation ev ev' ->
     NoDup (map fst av) -> NoDup (map fst ev) ->
     experience_agrees av' ev' = experience_agrees av ev).
Proof.
  intros Hh Fa Gs Ld Ge Va Ve. split.
  - destruct (validate_personal_total id (dict_get d "personal" (JDict [])) (count_call w))
      as (bp & Ep).
    destruct (validate_salary_total id (dict_get d "salary" (JDict []))
                (count_call (count_call (count_call w)))) as (bs & Es).
    exists bp, bs. eexists.
    unfold validate_data_integrity. apply try_ret.
    rewrite (bind_run _ _ _ _ _ (get_run Applicants id w ra Hh Fa)).
    rewrite (dict_mem_of_get _ _ _ Gs) by discriminate. cbn [negb].
    rewrite Gs. unfold bind at 1, lift at 1, py_json_loads. rewrite Ld.
    unfold bind at 1, lift at 1, py_get.
    rewrite (bind_run _ _ _ _ _ Ep).
    unfold bind at 1, lift at 1. rewrite Ge.
    rewrite (bind_run _ _ _ _ _
               (validate_experience_run id (count_call (count_call w)) es av ev
                  (Hh _) Va Ve)).
    unfold bind at 1, lift at 1.
    rewrite (bind_run _ _ _ _ _ Es).
    reflexivity.
  - intros av' ev'. apply experience_agrees_permuted.
Qed.

Lemma validate_by_company_and_title_witness :
  (exists personal salary w',
     validate_data_integrity "recA" Listing.decompressed =
       (Ret (JDict [("personal", JBool personal);
                    ("experience", JBool true);
                    ("salary", JBool salary)]), w')) /\
  (forall av' ev',
     Permutation [("Initech", JStr "Engineer"); ("Hooli", JStr "Staff Engineer")] av' ->
     Permutation [("Initech", JStr "Engineer"); ("Hooli", JStr "Staff Engineer")] ev' ->
     NoDup ["Initech"; "Hooli"] -> NoDup ["Initech"; "Hooli"] ->
     experience_agrees av' ev' = true).
Proof.
  apply (validate_by_company_and_title "recA" Example.text_A Listing.decompressed
           (Rec "recA"
              (dict_update (rec_fields Example.applicant_A)
                 [("Last Decompressed", JStr (Example.clock 0))]))
           (Document.sections Example.doc_A)
           (map Document.experience_dict [Example.past_1; Example.current_1])
           [("Initech", JStr "Engineer"); ("Hooli", JStr "Staff Engineer")]
           [("Initech", JStr "Engineer"); ("Hooli", JStr "Staff Engineer")]).
  - intros n. reflexivity.
  - reflexivity.
  - reflexivity.
  - vm_compute. reflexivity.
  - reflexivity.
  - reflexivity.
  - reflexivity.
Defined.

(** The limitation the specification documents: entries of one company
    are compared in their order of arrival.  The five positions of [recA],
    listed in the order of its records, pass the check; listed with the
    two positions at Acme exchanged, they do not. *)
Lemma order_matters_within_a_company :
  Permutation Listing.positions Listing.positions_exchanged /\
  fst (_validate_experience_data "recA" (JList Listing.positions) Example.steady)
    = Ret true /\
  fst (_validate_experience_data "recA" (JList Listing.positions_exchanged) Example.steady)
    = Ret false.
Proof.
  split; [apply perm_swap|]. split; reflexivity.
Qed.

End Integrity.

(* ================================================================== *)
(** * What the methods leave untouched *)

Section Keeps.

Context (t : table).

Lemma keeps_ret {A} (a : A) : keeps t (ret a).
Proof. intros w. reflexivity. Qed.

Lemma keeps_raise {A} (e : exn) : keeps t (@raise A e).
Proof. intros w. reflexivity. Qed.

Lemma keeps_lift {A} (o : outcome A) : keeps t (lift o).
Proof. intros w. reflexivity. Qed.

Lemma keeps_logger (lv : level) (msg : string) : keeps t (logger lv msg).
Proof. intros w. destruct t; reflexivity. Qed.

Lemma keeps_now : keeps t now_isoformat.
Proof. intros w. destruct t; reflexivity. Qed.

Lemma keeps_bind {A B} (m : M A) (k : A -> M B) :
  keeps t m -> (forall a, keeps t (k a)) -> keeps t (bind m k).
Proof.
  intros Hm Hk w. unfold bind. specialize (Hm w).
  destruct (m w) as [[a|e] w1]; cbn [snd] in *.
  - rewrite Hk. exact Hm.
  - exact Hm.
Qed.

Lemma keeps_try {A} (m : M A) (h : exn -> M A) :
  keeps t m -> (forall e, keeps t (h e)) -> keeps t (try_except m h).
Proof.
  intros Hm Hh w. unfold try_except. specialize (Hm w).
  destruct (m w) as [[a|e] w1]; cbn [snd] in *.
  - exact Hm.
  - rewrite Hh. exact Hm.
Qed.

Lemma keeps_for_each {A} (l : list A) (body : A -> M unit) :
  (forall x, keeps t (body x)) -> keeps t (for_each l body).
Proof.
  intros H. induction l as [|x l IH]; cbn [for_each].
  - apply keeps_ret.
  - apply keeps_bind; auto.
Qed.

Lemma keeps_remote {A} (op : M A) : keeps t op -> keeps t (remote op).
Proof.
  intros H w. unfold remote. destruct (fails w (calls w)).
  - destruct t; reflexivity.
  - rewrite H. destruct t; reflexivity.
Qed.

Lemma keeps_search t' f v : keeps t (search t' f v).
Proof. apply keeps_remote. intros w. reflexivity. Qed.

Lemma keeps_get_all t' phi : keeps t (get_all t' phi).
Proof. apply keeps_remote. intros w. reflexivity. Qed.

Lemma keeps_get t' id : keeps t (get t' id).
Proof. apply keeps_remote. intros w. destruct (find _ _); reflexivity. Qed.

Lemma keeps_update t' id new : t' <> t -> keeps t (update t' id new).
Proof.
  intros N. apply keeps_remote. intros w. unfold update.
  destruct (find _ _); [|reflexivity]. destruct t, t'; try reflexivity; congruence.
Qed.

Lemma keeps_create t' new : t' <> t -> keeps t (create t' new).
Proof.
  intros N. apply keeps_remote. intros w.
  destruct t, t'; try reflexivity; congruence.
Qed.

Lemma keeps_delete t' id : t' <> t -> keeps t (delete t' id).
Proof.
  intros N. apply keeps_remote. intros w. unfold delete.
  destruct (existsb _ _); [|reflexivity]. destruct t, t'; try reflexivity; congruence.
Qed.

End Keeps.

(** Applies the rules above along a method body; what is left are the
    writes of the body, to be told apart from the table kept. *)
Ltac keeps_step :=
  first
    [ apply keeps_bind; [|intros ?]
    | apply keeps_try; [|intros ?]
    | apply keeps_for_each; intros ?
    | apply keeps_ret | apply keeps_raise | apply keeps_lift
    | apply keeps_logger | apply keeps_now
    | apply keeps_search | apply keeps_get | apply keeps_get_all
    | apply keeps_update | apply keeps_create | apply keeps_delete
    | match goal with
      | |- keeps _ (match ?x with _ => _ end) => destruct x
      | |- keeps _ (if ?x then _ else _) => destruct x
      end ].

Section ReadOnly.

Import AirtableCompressor AirtableDecompressor LLMEvaluator.

Lemma compress_keeps (t : table) (id : string) :
  t <> Applicants -> keeps t (compress_applicant_data id).
Proof.
  intros N. unfold compress_applicant_data, _fetch_personal_data,
    _fetch_experience_data, _fetch_salary_data.
  repeat keeps_step. congruence.
Qed.

(** X1.  The Compressor reads the three source tables and never writes
    them: whatever [compress_applicant_data] and the whole batch
    [compress_all_pending] meet (absent records, failures of the transport
    at any call), the Personal Details, Work Experience and Salary
    Preferences tables are afterwards what they were. *)
Theorem compressor_never_writes_sources (t : table) :
  t <> Applicants ->
  (forall id w, rows t (snd (compress_applicant_data id w)) = rows t w) /\
  (forall w, rows t (snd (compress_all_pending w)) = rows t w).
Proof.
  intros N. split.
  - intros id. apply compress_keeps. exact N.
  - change (keeps t compress_all_pending).
    unfold compress_all_pending, compress_pending_loop, compress_pending_turn.
    repeat first [ apply compress_keeps; exact N | keeps_step ].
Qed.

Lemma compressor_never_writes_sources_witness :
  rows WorkExperience (snd (compress_all_pending (Example.failing_at 8)))
  = rows WorkExperience (Example.failing_at 8).
Proof.
  apply (proj2 (compressor_never_writes_sources WorkExperience ltac:(discriminate))).
Defined.

End ReadOnly.
(* ================================================================== *)
(** * The schedule of failures is the environment's *)

Section Faults.

Lemma faults_ret {A} (a : A) : same_faults (ret a).
Proof. intros w. reflexivity. Qed.

Lemma faults_raise {A} (e : exn) : same_faults (@raise A e).
Proof. intros w. reflexivity. Qed.

Lemma faults_lift {A} (o : outcome A) : same_faults (lift o).
Proof. intros w. reflexivity. Qed.

Lemma faults_logger (lv : level) (msg : string) : same_faults (logger lv msg).
Proof. intros w. reflexivity. Qed.

Lemma faults_now : same_faults now_isoformat.
Proof. intros w. reflexivity. Qed.

Lemma faults_bind {A B} (m : M A) (k : A -> M B) :
  same_faults m -> (forall a, same_faults (k a)) -> same_faults (bind m k).
Proof.
  intros Hm Hk w. unfold bind. specialize (Hm w).
  destruct (m w) as [[a|e] w1]; cbn [snd] in *.
  - rewrite Hk. exact Hm.
  - exact Hm.
Qed.

Lemma faults_try {A} (m : M A) (h : exn -> M A) :
  same_faults m -> (forall e, same_faults (h e)) -> same_faults (try_except m h).
Proof.
  intros Hm Hh w. unfold try_except. specialize (Hm w).
  destruct (m w) as [[a|e] w1]; cbn [snd] in *.
  - exact Hm.
  - rewrite Hh. exact Hm.
Qed.

Lemma faults_for_each {A} (l : list A) (body : A -> M unit) :
  (forall x, same_faults (body x)) -> same_faults (for_each l body).
Proof.
  intros H. induction l as [|x l IH]; cbn [for_each].
  - apply faults_ret.
  - apply faults_bind; auto.
Qed.

Lemma faults_remote {A} (op : M A) : same_faults op -> same_faults (remote op).
Proof.
  intros H w. unfold remote. destruct (fails w (calls w)).
  - reflexivity.
  - rewrite H. reflexivity.
Qed.

Lemma faults_search t f v : same_faults (search t f v).
Proof. apply faults_remote. intros w. reflexivity. Qed.

Lemma faults_get_all t phi : same_faults (get_all t phi).
Proof. apply faults_remote. intros w. reflexivity. Qed.

Lemma faults_get t id : same_faults (get t id).
Proof. apply faults_remote. intros w. destruct (find _ _); reflexivity. Qed.

Lemma faults_update t id new : same_faults (update t id new).
Proof.
  apply faults_remote. intros w. unfold update.
  destruct (find _ _); [|reflexivity]. destruct t; reflexivity.
Qed.

Lemma faults_create t new : same_faults (create t new).
Proof. apply faults_remote. intros w. destruct t; reflexivity. Qed.

Lemma faults_delete t id : same_faults (delete t id).
Proof.
  apply faults_remote. intros w. unfold delete.
  destruct (existsb _ _); [|reflexivity]. destruct t; reflexivity.
Qed.

End Faults.

Ltac faults_step :=
  first
    [ apply faults_bind; [|intros ?]
    | apply faults_try; [|intros ?]
    | apply faults_for_each; intros ?
    | apply faults_ret | apply faults_raise | apply faults_lift
    | apply faults_logger | apply faults_now
    | apply faults_search | apply faults_get | apply faults_get_all
    | apply faults_update | apply faults_create | apply faults_delete
    | match goal with
      | |- same_faults (match ?x with _ => _ end) => destruct x
      | |- same_faults (if ?x then _ else _) => destruct x
      end ].

Section FaultsOfMethods.

Import AirtableCompressor AirtableDecompressor.

Lemma compress_faults (id : string) : same_faults (compress_applicant_data id).
Proof.
  unfold compress_applicant_data, _fetch_personal_data,
    _fetch_experience_data, _fetch_salary_data.
  repeat faults_step.
Qed.

Lemma decompress_faults (id : string) : same_faults (decompress_applicant_data id).
Proof.
  unfold decompress_applicant_data, _update_personal_details,
    _update_work_experience, _update_salary_preferences.
  repeat faults_step.
Qed.

End FaultsOfMethods.

Section CompressorEdges.

Import AirtableCompressor.

(** A run that returns a document has written it, with one update of the
    applicant's record. *)
Lemma compress_success_writes (id : string) (w : world) (doc : json) :
  fst (compress_applicant_data id w) = Ret (Some doc) ->
  exists ts r p exps s compressed_at,
    doc = build_document p exps s compressed_at /\
    find (has_id id) (applicants_rows w) = Some r /\
    applicants_rows (snd (compress_applicant_data id w)) =
      update_rows id (compress_payload doc ts) (applicants_rows w).
Proof.
  unfold compress_applicant_data. mstep.
  rewrite fetch_personal_run. wsimpl.
  destruct (fails w (calls w)) eqn:F0; rewrite fetch_experience_run; wsimpl;
  destruct (fails w (S (calls w))) eqn:F1; rewrite fetch_salary_run; wsimpl;
  destruct (fails w (S (S (calls w)))) eqn:F2; wsimpl;
  unfold sub_record, linked in *; wsimpl.
  all: repeat match goal with
       | |- context [hd_error ?l] => destruct (hd_error l)
       end.
  all: cbn [option_map opt_truthy truthy forallb andb negb] in *.
  all: repeat match goal with
       | |- context [match rec_fields ?r with _ => _ end] => destruct (rec_fields r) eqn:?
       end.
  all: cbv beta iota delta [andb negb now_isoformat update remote]; wsimpl.
  all: try discriminate.
  all: destruct (fails w (S (S (S (calls w))))) eqn:F3; wsimpl; try discriminate.
  all: destruct (find (has_id id) (applicants_rows w)) eqn:Fa; wsimpl; try discriminate.
  all: intros E; injection E as <-; do 6 eexists; repeat split; reflexivity.
Qed.

Lemma json_dumps_dict_not_blank (d : dict) : blank (JStr (json_dumps (JDict d))) = false.
Proof. destruct d as [|[k v] d]; reflexivity. Qed.

(** X2.  A failure of the transport on the fetch of the Work Experience
    records alone is swallowed: [_fetch_experience_data] answers the empty
    list, and [compress_applicant_data] then returns and stores a document
    whose experience list is empty, whatever records the applicant has. *)
Theorem experience_fetch_error_empties_experience (id : string) (w : world)
  (rp rs ra : airtable_record) :
  fails w (calls w) = false ->
  fails w (1 + calls w) = true ->
  fails w (2 + calls w) = false ->
  fails w (3 + calls w) = false ->
  sub_record PersonalDetails id w = Some rp ->
  sub_record SalaryPreferences id w = Some rs ->
  find (has_id id) (applicants_rows w) = Some ra ->
  exists doc,
    fst (compress_applicant_data id w) = Ret (Some doc) /\
    py_get doc "experience" JNull = Ret (JList []) /\
    stored id "Compressed JSON" (snd (compress_applicant_data id w))
      = JStr (json_dumps doc).
Proof.
  intros F0 F1 F2 F3 Sp Ss Fa.
  pose proof (sub_record_linked _ _ _ _ Sp) as [_ Mp].
  pose proof (sub_record_linked _ _ _ _ Ss) as [_ Ms].
  apply record_matches_fields in Mp, Ms.
  pose proof (compress_with_required id w (rec_fields rp) (rec_fields rs)) as C.
  unfold fetched in C. cbn [Nat.add] in *. rewrite F0, F2, Sp, Ss, F1, F3, Fa in C.
  specialize (C eq_refl Mp eq_refl Ms).
  eexists. split; [exact C|]. split; [reflexivity|].
  destruct (compress_success_writes id w _ C) as (ts & r & _ & _ & _ & _ & _ & _ & A).
  rewrite (stored_written id _ _ w _ ra A Fa). reflexivity.
Qed.

Lemma experience_fetch_error_empties_experience_witness :
  List.length (linked WorkExperience "recA" (Example.failing_at 1)) = 5 /\
  exists doc,
    fst (compress_applicant_data "recA" (Example.failing_at 1)) = Ret (Some doc) /\
    py_get doc "experience" JNull = Ret (JList []) /\
    stored "recA" "Compressed JSON" (snd (compress_applicant_data "recA" (Example.failing_at 1)))
      = JStr (json_dumps doc).
Proof.
  split; [reflexivity|].
  apply (experience_fetch_error_empties_experience "recA" (Example.failing_at 1)
           (Example.personal_of "recP1" "Ada" "recA") (Example.salary_of "recS1" "recA")
           Example.applicant_A); reflexivity.
Defined.

(** X3.  Fields that a native record lacks read as their defaults.  While
    the transport works, for an applicant whose Personal and Salary
    sub-records carry nothing but the link to it and who has no Work
    Experience record, the document returned has four empty texts as
    personal section, no experience, and the rates 0, the currency USD and
    the availability 0 as salary section. *)
Theorem compress_defaults (id : string) (w : world) (pid sid : string) (ra : airtable_record)
  (link : json) :
  healthy w ->
  sub_record PersonalDetails id w = Some (Rec pid [("Applicant", link)]) ->
  sub_record SalaryPreferences id w = Some (Rec sid [("Applicant", link)]) ->
  linked WorkExperience id w = [] ->
  find (has_id id) (applicants_rows w) = Some ra ->
  exists metadata,
    fst (compress_applicant_data id w) =
    Ret (Some (JDict
      [("personal", JDict [("name", JStr ""); ("email", JStr "");
                           ("location", JStr ""); ("linkedin", JStr "")]);
       ("experience", JList []);
       ("salary", JDict [("preferred_rate", JNum 0); ("minimum_rate", JNum 0);
                         ("currency", JStr "USD"); ("availability", JNum 0)]);
       ("metadata", metadata)])).
Proof.
  intros Hh Sp Ss Le Fa.
  destruct (compress_healthy id w _ _ ra Hh Sp Ss Fa) as (w' & E & _).
  rewrite E, Le. eexists. reflexivity.
Qed.

Lemma compress_defaults_witness :
  exists metadata,
    fst (compress_applicant_data "recG" Sparse.base) =
    Ret (Some (JDict
      [("personal", JDict [("name", JStr ""); ("email", JStr "");
                           ("location", JStr ""); ("linkedin", JStr "")]);
       ("experience", JList []);
       ("salary", JDict [("preferred_rate", JNum 0); ("minimum_rate", JNum 0);
                         ("currency", JStr "USD"); ("availability", JNum 0)]);
       ("metadata", metadata)])).
Proof.
  apply (compress_defaults "recG" Sparse.base "recP7" "recS7" (Rec "recG" [])
           (JList [JStr "recG"])).
  - intros n. reflexivity.
  - reflexivity.
  - reflexivity.
  - reflexivity.
  - reflexivity.
Defined.

(** X4.  Once [compress_applicant_data] has returned a document for an
    applicant, the record of the applicant carries a document that is not
    blank, so that the filter of [compress_all_pending] no longer selects
    it. *)
Theorem compressed_applicant_not_pending (id : string) (w : world) (doc : json) :
  fst (compress_applicant_data id w) = Ret (Some doc) ->
  exists r,
    find (has_id id) (applicants_rows (snd (compress_applicant_data id w))) = Some r /\
    dict_get (rec_fields r) "Compressed JSON" JNull = JStr (json_dumps doc) /\
    eval_formula pending_formula (rec_fields r) = false.
Proof.
  intros E.
  destruct (compress_success_writes id w doc E) as (ts & r & p & exps & s & ca & D & F & A).
  rewrite A, find_update_rows, F. cbn [option_map].
  pose proof F as F'. apply find_some in F' as [_ ->].
  eexists. split; [reflexivity|]. cbn [rec_fields].
  assert (G : dict_get (dict_update (rec_fields r) (compress_payload doc ts))
                "Compressed JSON" JNull = JStr (json_dumps doc)).
  { rewrite dict_get_update. reflexivity. }
  split; [exact G|].
  unfold pending_formula. cbn [eval_formula]. rewrite G, D.
  unfold build_document. rewrite json_dumps_dict_not_blank. reflexivity.
Qed.

Lemma compressed_applicant_not_pending_witness :
  eval_formula pending_formula (rec_fields Example.applicant_E) = true /\
  exists r,
    find (has_id "recE")
      (applicants_rows (snd (compress_applicant_data "recE" Example.steady))) = Some r /\
    eval_formula pending_formula (rec_fields r) = false.
Proof.
  split; [reflexivity|].
  destruct (compressed_applicant_not_pending "recE" Example.steady _ eq_refl)
    as (r & F & _ & P).
  exists r. split; [exact F | exact P].
Defined.

End CompressorEdges.
Section BatchCompletes.

Import AirtableCompressor.

(** A compression never blanks a document: a document that is not blank
    stays so, for every applicant. *)
Lemma compress_keeps_documents (id id' : string) (w : world) :
  blank (stored id' "Compressed JSON" w) = false ->
  blank (stored id' "Compressed JSON" (snd (compress_applicant_data id w))) = false.
Proof.
  intros B. destruct (compress_footprint id w) as [_ [A | (doc & ts & E & A)]].
  - unfold stored in *. rewrite A. exact B.
  - destruct (compress_success_writes id w doc E) as (_ & _ & p & exps & s & ca & D & _ & _).
    unfold stored in *. rewrite A, find_update_rows.
    destruct (find (has_id id') (applicants_rows w)) as [r|]; [|discriminate].
    cbn [option_map]. destruct (has_id id r); [|exact B].
    cbn [rec_fields]. rewrite dict_get_update, D.
    apply json_dumps_dict_not_blank.
Qed.

Lemma compress_turn_world (a : airtable_record) (w : world) :
  exists extra,
    snd (compress_pending_turn a w)
    = add_logs extra (snd (compress_applicant_data (rec_id a) w)).
Proof.
  unfold compress_pending_turn, try_except, bind, ret, logger.
  destruct (compress_applicant_data (rec_id a) w) as [[r|e] w1]; cbn [snd].
  - exists []. reflexivity.
  - eexists [_]. reflexivity.
Qed.

Lemma rows_add_logs (t : table) (extra : list log_entry) (w : world) :
  rows t (add_logs extra w) = rows t w.
Proof.
  unfold add_logs. revert w.
  induction extra as [|e extra IH]; intros w; cbn [fold_left]; [reflexivity|].
  rewrite IH. destruct t; reflexivity.
Qed.

Lemma stored_add_logs (id k : string) (extra : list log_entry) (w : world) :
  stored id k (add_logs extra w) = stored id k w.
Proof.
  unfold stored.
  change (applicants_rows (add_logs extra w)) with (rows Applicants (add_logs extra w)).
  rewrite rows_add_logs. reflexivity.
Qed.

Lemma fails_add_logs (extra : list log_entry) (w : world) :
  fails (add_logs extra w) = fails w.
Proof.
  unfold add_logs. revert w.
  induction extra as [|e extra IH]; intros w; cbn [fold_left]; [reflexivity|].
  rewrite IH. reflexivity.
Qed.

Lemma compress_loop_keeps_documents (pending : list airtable_record) (id' : string)
  (w : world) :
  blank (stored id' "Compressed JSON" w) = false ->
  blank (stored id' "Compressed JSON" (snd (compress_pending_loop pending w))) = false.
Proof.
  unfold compress_pending_loop. revert w.
  induction pending as [|a pending IH]; intros w B; [exact B|].
  rewrite (for_each_cons _ _ _ _ (proj1 (compress_turn_run a w))).
  apply IH. destruct (compress_turn_world a w) as (extra & ->).
  rewrite stored_add_logs. apply compress_keeps_documents. exact B.
Qed.

Lemma compress_turn_servable (a b : airtable_record) (w : world) :
  servable w b -> servable (snd (compress_pending_turn a w)) b.
Proof.
  intros (Fb & Pb & Sb). destruct (compress_turn_world a w) as (extra & ->).
  destruct (compress_footprint (rec_id a) w) as [K A].
  unfold servable, sub_record, linked in *.
  rewrite !rows_add_logs.
  rewrite (K PersonalDetails) by discriminate.
  rewrite (K SalaryPreferences) by discriminate.
  split; [|split; assumption].
  change (applicants_rows (add_logs extra (snd (compress_applicant_data (rec_id a) w))))
    with (rows Applicants (add_logs extra (snd (compress_applicant_data (rec_id a) w)))).
  rewrite rows_add_logs. cbn [rows].
  destruct A as [-> | (doc & ts & _ & ->)]; [exact Fb|].
  rewrite find_update_rows.
  destruct (find (has_id (rec_id b)) (applicants_rows w)); [discriminate | congruence].
Qed.

Lemma compress_turn_healthy (a : airtable_record) (w : world) :
  healthy w -> healthy (snd (compress_pending_turn a w)).
Proof.
  intros Hh n. destruct (compress_turn_world a w) as (extra & ->).
  rewrite fails_add_logs, compress_faults. apply Hh.
Qed.

Lemma compress_loop_serves (pending : list airtable_record) (w : world) (b : airtable_record) :
  healthy w -> In b pending -> servable w b ->
  blank (stored (rec_id b) "Compressed JSON"
           (snd (compress_pending_loop pending w))) = false.
Proof.
  revert w.
  induction pending as [|a pending IH]; intros w Hh Hb Hs; [destruct Hb|].
  unfold compress_pending_loop.
  rewrite (for_each_cons _ _ _ _ (proj1 (compress_turn_run a w))).
  fold (compress_pending_loop pending (snd (compress_pending_turn a w))).
  destruct Hb as [<- | Hb].
  - apply compress_loop_keeps_documents.
    destruct (compress_turn_world a w) as (extra & ->). rewrite stored_add_logs.
    destruct Hs as (Fa & Sp & Ss).
    destruct (find (has_id (rec_id a)) (applicants_rows w)) as [ra|] eqn:Ea; [|congruence].
    destruct (sub_record PersonalDetails (rec_id a) w) as [rp|] eqn:Ep; [|congruence].
    destruct (sub_record SalaryPreferences (rec_id a) w) as [rs|] eqn:Es; [|congruence].
    destruct (compress_healthy (rec_id a) w rp rs ra Hh Ep Es Ea) as (w1 & E & A & _).
    rewrite E. cbn [snd].
    unfold stored. rewrite A, find_update_rows, Ea. cbn [option_map].
    apply find_some in Ea as [_ ->]. cbn [rec_fields]. rewrite dict_get_update.
    apply json_dumps_dict_not_blank.
  - apply IH; [apply compress_turn_healthy; exact Hh | exact Hb |].
    apply compress_turn_servable. exact Hs.
Qed.

Lemma find_listed (a : airtable_record) (rs : list airtable_record) :
  In a rs -> find (has_id (rec_id a)) rs <> None.
Proof.
  intros I N. pose proof (find_none _ _ N a I) as H.
  unfold has_id in H. rewrite String.eqb_refl in H. discriminate.
Qed.

(** X5.  While the transport works, [compress_all_pending] returns
    normally and leaves no servable applicant behind: every applicant it
    selected whose Personal and Salary sub-records exist carries a document
    afterwards. *)
Theorem batch_compresses_every_servable_applicant (w : world) :
  healthy w ->
  fst (compress_all_pending w) = Ret tt /\
  forall a,
    In a (filter (fun r => eval_formula pending_formula (rec_fields r)) (applicants_rows w)) ->
    sub_record PersonalDetails (rec_id a) w <> None ->
    sub_record SalaryPreferences (rec_id a) w <> None ->
    blank (stored (rec_id a) "Compressed JSON" (snd (compress_all_pending w))) = false.
Proof.
  intros Hh.
  set (pending := filter (fun r => eval_formula pending_formula (rec_fields r))
                    (applicants_rows w)).
  set (w0 := add_log (LogEntry INFO ("Found " ++ str_nat (List.length pending)
                                       ++ " applicants pending compression"))
               (count_call w)).
  assert (E : compress_all_pending w = compress_pending_loop pending w0).
  { unfold compress_all_pending, try_except, bind at 1, get_all.
    rewrite remote_ok by apply Hh.
    unfold bind at 1, logger at 1. cbn [rows fst snd]. fold pending_formula.
    change (applicants_rows (count_call w)) with (applicants_rows w).
    fold pending. fold w0.
    pose proof (proj1 (compress_loop_run pending w0)) as R.
    destruct (compress_pending_loop pending w0) as [[[]|e] w']; [reflexivity | discriminate]. }
  rewrite E. split; [apply compress_loop_run|].
  intros a Ha Sp Ss.
  apply compress_loop_serves; [intros n; apply Hh | exact Ha |].
  apply filter_In in Ha as [Ha _].
  split; [exact (find_listed a _ Ha) | split; assumption].
Qed.

Lemma batch_compresses_every_servable_applicant_witness :
  fst (compress_all_pending Example.steady) = Ret tt /\
  blank (stored "recE" "Compressed JSON" (snd (compress_all_pending Example.steady))) = false.
Proof.
  destruct (batch_compresses_every_servable_applicant Example.steady
              ltac:(intros n; reflexivity)) as [R S].
  split; [exact R|].
  apply (S Example.applicant_E).
  - vm_compute. tauto.
  - discriminate.
  - discriminate.
Defined.

End BatchCompletes.
(* ================================================================== *)
(** * The Decompressor at its edges *)

Section DecompressorEdges.

Import AirtableDecompressor.

(** X6.  Without a document to work from, [decompress_applicant_data]
    answers [False] and writes nothing: when the read of the applicant's
    record fails or finds no record, when the record has no 'Compressed
    JSON' or one that is no text, when [json.loads] rejects the text, and
    when the text parses to a value that is no JSON object, the four
    tables are as before.  (A text with a float literal is read by Python
    and is not among these.) *)
Theorem decompress_rejects_without_writing (id : string) (w : world) :
  document_read id w = NoDocument ->
  fst (decompress_applicant_data id w) = Ret false /\
  same_tables w (snd (decompress_applicant_data id w)).
Proof.
  unfold document_read, decompress_applicant_data, same_tables, get, remote.
  mstep. wsimpl.
  destruct (fails w (calls w)); mstep; wsimpl;
    [intros _; split; [reflexivity | intros []; reflexivity]|].
  destruct (find (has_id id) (applicants_rows w)) as [r|]; mstep; wsimpl;
    [|intros _; split; [reflexivity | intros []; reflexivity]].
  destruct (dict_mem "Compressed JSON" (rec_fields r)); cbn [negb]; mstep; wsimpl;
    [|intros _; split; [reflexivity | intros []; reflexivity]].
  destruct (py_json_loads _) as [[]|[]]; try discriminate; mstep; wsimpl;
    intros _; (split; [reflexivity | intros []; reflexivity]).
Qed.

Lemma decompress_rejects_without_writing_witness :
  (fst (decompress_applicant_data "recE" Example.steady) = Ret false /\
   same_tables Example.steady (snd (decompress_applicant_data "recE" Example.steady))) /\
  (fst (decompress_applicant_data "recU" Garbled.base) = Ret false /\
   same_tables Garbled.base (snd (decompress_applicant_data "recU" Garbled.base))).
Proof.
  split.
  - apply (decompress_rejects_without_writing "recE" Example.steady). reflexivity.
  - apply (decompress_rejects_without_writing "recU" Garbled.base). reflexivity.
Defined.

End DecompressorEdges.

Section Stamp.

Import AirtableDecompressor.

Lemma stamps_after {A} (id : string) (m : M A) (k : A -> M bool) :
  keeps Applicants m -> (forall a, stamps_on_true id (k a)) ->
  stamps_on_true id (bind m k).
Proof.
  intros Hm Hk w. unfold bind. specialize (Hm w). cbn [rows] in Hm.
  destruct (m w) as [[a|e] w1]; cbn [fst snd] in *.
  - specialize (Hk a w1). rewrite <- Hm. exact Hk.
  - exact Hm.
Qed.

Lemma stamps_quiet (id : string) (m : M bool) :
  keeps Applicants m -> (forall w, fst (m w) <> Ret true) -> stamps_on_true id m.
Proof.
  intros Hm Hn w. specialize (Hm w). specialize (Hn w). cbn [rows] in Hm.
  destruct (fst (m w)) as [[]|e]; [congruence | exact Hm | exact Hm].
Qed.

Lemma stamps_try (id : string) (m : M bool) (h : exn -> M bool) :
  stamps_on_true id m ->
  (forall e, keeps Applicants (h e)) -> (forall e w, fst (h e w) <> Ret true) ->
  stamps_on_true id (try_except m h).
Proof.
  intros Hm Hk Hn w. unfold try_except. specialize (Hm w).
  destruct (m w) as [[b|e] w1]; cbn [fst snd] in *.
  - exact Hm.
  - specialize (Hk e w1). specialize (Hn e w1). cbn [rows] in Hk.
    destruct (h e w1) as [[[]|e'] w2]; cbn [fst snd] in *; congruence.
Qed.

Lemma stamps_final (id msg : string) (ts : string) :
  stamps_on_true id
    (bind (update Applicants id [("Last Decompressed", JStr ts)]) (fun _ =>
     bind (logger INFO msg) (fun _ => ret true))).
Proof.
  intros w. unfold bind, update, remote, logger, ret.
  destruct (fails w (calls w)); [reflexivity|]. wsimpl.
  destruct (find (has_id id) (applicants_rows w)); [|reflexivity].
  cbn [fst snd]. wsimpl. exists ts. reflexivity.
Qed.

Lemma decompress_stamps (id : string) :
  stamps_on_true id (decompress_applicant_data id).
Proof.
  unfold decompress_applicant_data.
  apply stamps_try.
  - apply stamps_after; [apply keeps_logger | intros _].
    apply stamps_after; [apply keeps_get | intros r].
    destruct (negb _).
    + apply stamps_quiet; [repeat keeps_step | intros w0; discriminate].
    + apply stamps_after; [apply keeps_lift | intros d].
      apply stamps_after; [apply keeps_lift | intros p].
      apply stamps_after.
      { unfold _update_personal_details. repeat keeps_step; discriminate. }
      intros _.
      apply stamps_after; [apply keeps_lift | intros e].
      apply stamps_after.
      { unfold _update_work_experience. repeat keeps_step; discriminate. }
      intros _.
      apply stamps_after; [apply keeps_lift | intros s].
      apply stamps_after.
      { unfold _update_salary_preferences. repeat keeps_step; discriminate. }
      intros _.
      apply stamps_after; [apply keeps_now | intros ts].
      apply stamps_final.
  - intros e. repeat keeps_step.
  - intros e w0. discriminate.
Qed.

(** X7.  [decompress_applicant_data] stamps 'Last Decompressed' exactly
    when it answers [True]: after the answer [True] the Applicants table is
    the old one with that one field of the applicant's record set, and
    after [False] the Applicants table is untouched, whatever went wrong
    and however far the writes to the other tables went. *)
Theorem decompress_stamps_exactly_on_success (id : string) (w : world) :
  match fst (decompress_applicant_data id w) with
  | Ret true =>
      exists ts,
        applicants_rows (snd (decompress_applicant_data id w)) =
        update_rows id [("Last Decompressed", JStr ts)] (applicants_rows w)
  | Ret false =>
      applicants_rows (snd (decompress_applicant_data id w)) = applicants_rows w
  | Raise _ => False
  end.
Proof.
  pose proof (decompress_stamps id w) as S.
  destruct (decompress_never_raises id w) as (b & R).
  rewrite R in *. destruct b; exact S.
Qed.

End Stamp.

Section ValidatorEdges.

Import AirtableDecompressor.

Lemma validate_experience_total (id : string) (expected : json) (w : world) :
  exists b w', _validate_experience_data id expected w = (Ret b, w').
Proof.
  unfold _validate_experience_data, try_except.
  match goal with |- context [match ?m w with _ => _ end] => destruct (m w) as [[b|e] w1] end.
  - exists b, w1. reflexivity.
  - exists false, w1. reflexivity.
Qed.

Lemma get_cases (t : table) (id : string) (w : world) :
  get t id w =
  if fails w (calls w) then (Raise (HTTPError "transport failure"), count_call w)
  else match find (has_id id) (rows t w) with
       | Some r => (Ret r, count_call w)
       | None => (Raise (HTTPError "404 NOT_FOUND"), count_call w)
       end.
Proof.
  unfold get, remote. destruct (fails w (calls w)); [reflexivity|].
  destruct t; wsimpl; destruct (find _ _); reflexivity.
Qed.

Lemma validate_keeps (t : table) (id : string) : keeps t (validate_data_integrity id).
Proof.
  unfold validate_data_integrity, _validate_personal_data, _validate_experience_data,
    _validate_salary_data.
  repeat keeps_step.
Qed.

(** X8.  [validate_data_integrity] only reads and always answers: in every
    world the four tables are as before; the answer is the one-entry map
    [{'error': ...}] when there is no document to work from (record
    unreadable or absent, no 'Compressed JSON' or one that is no text,
    text rejected by [json.loads] or parsing to a value that is no
    object), and the map of the three booleans when the text parses to a
    JSON object.  (Nothing is said of the answer for a text that Python
    reads and the model does not.) *)
Theorem validate_reads_only_and_answers (id : string) (w : world) :
  same_tables w (snd (validate_data_integrity id w)) /\
  match document_read id w with
  | NoDocument =>
      exists msg,
        fst (validate_data_integrity id w) = Ret (JDict [("error", JStr msg)])
  | Document _ =>
      exists personal experience salary,
        fst (validate_data_integrity id w) =
        Ret (JDict [("personal", JBool personal);
                    ("experience", JBool experience);
                    ("salary", JBool salary)])
  | NotFollowed => True
  end.
Proof.
  split; [intros t; apply validate_keeps|].
  unfold document_read, validate_data_integrity.
  pose proof (get_cases Applicants id w) as G. cbn [rows] in G.
  destruct (fails w (calls w)).
  { rewrite (try_raise _ _ _ _ _ (bind_raise _ _ _ _ _ G)). eexists. reflexivity. }
  destruct (find (has_id id) (applicants_rows w)) as [r|].
  2:{ rewrite (try_raise _ _ _ _ _ (bind_raise _ _ _ _ _ G)). eexists. reflexivity. }
  destruct (dict_mem "Compressed JSON" (rec_fields r)) eqn:Dm.
  2:{ erewrite try_ret; [|rewrite (bind_run _ _ _ _ _ G), Dm; reflexivity].
      eexists. reflexivity. }
  destruct (py_json_loads _) as [v|e] eqn:L.
  2:{ destruct e; try exact I;
        (erewrite try_raise; [|rewrite (bind_run _ _ _ _ _ G), Dm; cbn [negb];
                               unfold bind at 1, lift at 1; rewrite L; reflexivity];
         eexists; reflexivity). }
  destruct v;
    try (erewrite try_raise;
         [|rewrite (bind_run _ _ _ _ _ G), Dm; cbn [negb];
           unfold bind at 1, lift at 1; rewrite L;
           unfold bind at 1, lift at 1; reflexivity];
         eexists; reflexivity).
  destruct (validate_personal_total id (dict_get d "personal" (JDict [])) (count_call w))
    as (bp & Ep).
  destruct (validate_experience_total id (dict_get d "experience" (JList []))
              (count_call (count_call w))) as (be & w2 & Ee).
  destruct (validate_salary_total id (dict_get d "salary" (JDict [])) w2) as (bs & Es).
  exists bp, be, bs.
  erewrite try_ret; [reflexivity|].
  rewrite (bind_run _ _ _ _ _ G), Dm. cbn [negb].
  unfold bind at 1, lift at 1. rewrite L.
  unfold bind at 1, lift at 1, py_get.
  rewrite (bind_run _ _ _ _ _ Ep).
  unfold bind at 1, lift at 1.
  rewrite (bind_run _ _ _ _ _ Ee).
  unfold bind at 1, lift at 1.
  rewrite (bind_run _ _ _ _ _ Es).
  reflexivity.
Qed.

End ValidatorEdges.
Section PartialWrites.

Import AirtableDecompressor.

Lemma salary_to_native_not_object (id : string) (v : json) :
  (forall s, v <> JDict s) ->
  salary_to_native id v = Raise (AttributeError "object has no attribute 'get'").
Proof. intros N. destruct v; try reflexivity. destruct (N d eq_refl). Qed.

(** [_update_salary_preferences] on a section that is no JSON object: the
    search is made, the error of [.get] is logged and raised again, and no
    table is written. *)
Lemma update_salary_not_object (id : string) (v : json) (w : world) :
  healthy w -> (forall s, v <> JDict s) ->
  exists w' e,
    _update_salary_preferences id v w = (Raise e, w') /\
    same_tables w w' /\ healthy w'.
Proof.
  intros Hh N. unfold _update_salary_preferences.
  eexists; eexists. split.
  - erewrite try_raise;
      [|rewrite (bind_run _ _ _ _ _ (search_run _ _ _ w Hh));
        unfold bind at 1, lift at 1; rewrite (salary_to_native_not_object id v N);
        reflexivity].
    reflexivity.
  - split; [intros []; reflexivity | exact Hh].
Qed.

(** X9.  [decompress_applicant_data] is not all-or-nothing.  With a
    document whose salary section is no JSON object (a [null], say) and
    whose other sections are well-formed, the Personal sub-record has been
    written and the Work Experience records replaced when the error of the
    salary section is met: the answer is [False], the Salary Preferences
    and the Applicants tables are as before, and the writes to the other
    two tables stay. *)
Theorem decompress_keeps_partial_writes (id s : string) (w : world)
  (ra : airtable_record) (d p : dict) (ds : list dict) (v : json) :
  healthy w ->
  find (has_id id) (applicants_rows w) = Some ra ->
  dict_get (rec_fields ra) "Compressed JSON" JNull = JStr s ->
  json_loads s = Ret (JDict d) ->
  dict_get d "personal" (JDict []) = JDict p ->
  dict_get d "experience" (JList []) = JList (map JDict ds) ->
  dict_get d "salary" (JDict []) = v ->
  (forall sal, v <> JDict sal) ->
  NoDup (map rec_id (linked WorkExperience id w)) ->
  exists w' n rp oldp,
    decompress_applicant_data id w = (Ret false, w') /\
    sub_record PersonalDetails id w' = Some rp /\
    rec_fields rp = dict_update oldp (personal_native id p) /\
    experience_rows w' =
      without (linked WorkExperience id w) (experience_rows w)
      ++ created_records n (map (experience_native id) ds) /\
    salary_rows w' = salary_rows w /\
    applicants_rows w' = applicants_rows w.
Proof.
  intros Hh Fa Gs Ld Gp Ge Gl Nv Hn.
  set (w0 := add_log (LogEntry INFO ("Starting decompression for applicant " ++ id)) w).
  destruct (update_personal_run id p (count_call w0) Hh)
    as (w1 & rp & oldp & E1 & Sp & Fp & A1 & X1 & S1 & H1).
  destruct (update_work_experience_run id ds w1 H1)
    as (w2 & n & E2 & X2 & L2 & A2 & P2 & S2 & H2).
  { unfold linked. wsimpl. rewrite X1. exact Hn. }
  destruct (update_salary_not_object id v w2 H2 Nv) as (w3 & e & E3 & T3 & H3).
  pose proof (T3 Applicants) as A3. pose proof (T3 PersonalDetails) as P3.
  pose proof (T3 WorkExperience) as X3. pose proof (T3 SalaryPreferences) as S3.
  cbn [rows] in A3, P3, X3, S3.
  eexists; exists n, rp, oldp. split; [|split; [|split; [|split; [|split]]]].
  - unfold decompress_applicant_data.
    erewrite try_raise;
      [|unfold bind at 1, logger at 1; fold w0;
        rewrite (bind_run _ _ _ _ _ (get_run Applicants id w0 ra Hh Fa));
        rewrite (dict_mem_of_get _ _ _ Gs) by discriminate; cbn [negb];
        rewrite Gs; unfold bind at 1, lift at 1, py_json_loads; rewrite Ld;
        unfold bind at 1, lift at 1, py_get; rewrite Gp;
        rewrite (bind_run _ _ _ _ _ E1);
        unfold bind at 1, lift at 1; rewrite Ge;
        rewrite (bind_run _ _ _ _ _ E2);
        unfold bind at 1, lift at 1; rewrite Gl;
        rewrite (bind_raise _ _ _ _ _ E3); reflexivity].
    reflexivity.
  - unfold sub_record, linked in *. wsimpl. rewrite P3, P2. exact Sp.
  - exact Fp.
  - wsimpl. rewrite X3, X2. unfold linked. wsimpl. rewrite X1. reflexivity.
  - wsimpl. rewrite S3, S2, S1. reflexivity.
  - wsimpl. rewrite A3, A2, A1. reflexivity.
Qed.

Lemma decompress_keeps_partial_writes_witness :
  exists w' n rp oldp,
    decompress_applicant_data "recH" Broken.base = (Ret false, w') /\
    sub_record PersonalDetails "recH" w' = Some rp /\
    rec_fields rp =
      dict_update oldp
        (personal_native "recH" [("name", JStr "Hal"); ("email", JStr "hal@example.org")]) /\
    experience_rows w' =
      without (linked WorkExperience "recH" Broken.base) (experience_rows Broken.base)
      ++ created_records n
           (map (experience_native "recH")
              [[("company", JStr "Acme"); ("title", JStr "Pilot")]]) /\
    salary_rows w' = salary_rows Broken.base /\
    applicants_rows w' = applicants_rows Broken.base.
Proof.
  apply (decompress_keeps_partial_writes "recH" Broken.text Broken.base
           Broken.applicant Broken.doc _ _ JNull).
  - intros n. reflexivity.
  - reflexivity.
  - reflexivity.
  - vm_compute. reflexivity.
  - reflexivity.
  - reflexivity.
  - reflexivity.
  - intros sal. discriminate.
  - vm_compute. repeat constructor. intros [].
Defined.

End PartialWrites.
Section ValidateAfterDecompress.

Import AirtableDecompressor.

Lemma py_eq_scalar (v : json) : is_scalar v = true -> py_eq v v = true.
Proof.
  destruct v; cbn; intros H; try discriminate; try reflexivity.
  - apply Z.eqb_refl.
  - apply Z.eqb_refl.
  - apply String.eqb_refl.
Qed.

Lemma dict_get_mem (d : dict) (k : string) (d1 d2 : json) :
  dict_mem k d = true -> dict_get d k d1 = dict_get d k d2.
Proof.
  induction d as [|[k' v] d IH]; cbn; [discriminate|].
  destruct (String.eqb k' k); [reflexivity | exact IH].
Qed.

(** What the decompressor writes for a key that the section has is read
    back as equal to the section's value. *)
Lemma written_equals_expected (d : dict) (k : string) (dflt : json) :
  dict_mem k d && is_scalar (dict_get d k JNull) = true ->
  py_eq (dict_get d k dflt) (dict_get d k JNull) = true.
Proof.
  intros H. apply andb_true_iff in H as [M S].
  rewrite (dict_get_mem d k dflt JNull M). apply py_eq_scalar. exact S.
Qed.

Lemma validate_personal_run (id : string) (p old : dict) (r : airtable_record) (w : world) :
  fails w (calls w) = false ->
  sub_record PersonalDetails id w = Some r ->
  rec_fields r = dict_update old (personal_native id p) ->
  complete personal_keys p = true ->
  _validate_personal_data id (JDict p) w = (Ret true, count_call w).
Proof.
  intros Hf Sr Fr C. unfold _validate_personal_data. apply try_ret.
  unfold bind at 1, search. rewrite remote_ok by exact Hf.
  unfold sub_record, linked in Sr. cbn [fst snd].
  change (rows PersonalDetails (count_call w)) with (rows PersonalDetails w).
  destruct (filter _ _) as [|x l]; [discriminate|]. injection Sr as ->.
  unfold lift, py_get, py_and. cbn [obind]. rewrite Fr, !dict_get_update.
  cbn [complete personal_keys forallb] in C.
  repeat (apply andb_true_iff in C as [?C C]).
  cbn [personal_native rev app dict_get String.eqb Ascii.eqb Bool.eqb].
  rewrite !written_equals_expected by assumption. reflexivity.
Qed.

Lemma validate_salary_run (id : string) (s old : dict) (r : airtable_record) (w : world) :
  fails w (calls w) = false ->
  sub_record SalaryPreferences id w = Some r ->
  rec_fields r = dict_update old (salary_native id s) ->
  complete salary_keys s = true ->
  _validate_salary_data id (JDict s) w = (Ret true, count_call w).
Proof.
  intros Hf Sr Fr C. unfold _validate_salary_data. apply try_ret.
  unfold bind at 1, search. rewrite remote_ok by exact Hf.
  unfold sub_record, linked in Sr. cbn [fst snd].
  change (rows SalaryPreferences (count_call w)) with (rows SalaryPreferences w).
  destruct (filter _ _) as [|x l]; [discriminate|]. injection Sr as ->.
  unfold lift, py_get, py_and. cbn [obind]. rewrite Fr, !dict_get_update.
  cbn [complete salary_keys forallb] in C.
  repeat (apply andb_true_iff in C as [?C C]).
  cbn [salary_native rev app dict_get String.eqb Ascii.eqb Bool.eqb].
  rewrite !written_equals_expected by assumption. reflexivity.
Qed.

Lemma native_view_written (id : string) (e : dict) :
  entry_complete e = true ->
  native_view (experience_native id e) = canonical_view e /\
  exists v, canonical_view e = Some v /\ py_eq (snd v) (snd v) = true.
Proof.
  unfold entry_complete, native_view, canonical_view, experience_native.
  cbn [dict_get String.eqb Ascii.eqb Bool.eqb].
  destruct (dict_get e "company" JNull) as [| | | c | |] eqn:Ec; try discriminate.
  intros H. apply andb_true_iff in H as [M S].
  rewrite (dict_get_present e "company" JNull (JStr "") (JStr c) Ec) by discriminate.
  rewrite (dict_get_mem e "title" (JStr "") JNull M).
  split; [reflexivity|]. eexists. split; [reflexivity|]. apply py_eq_scalar. exact S.
Qed.

Lemma pairs_agree (l : list (string * json)) :
  (forall v, In v l -> py_eq (snd v) (snd v) = true) ->
  forallb (fun ae => same_company_title (fst ae) (snd ae)) (combine l l) = true.
Proof.
  induction l as [|v l IH]; intros H; cbn [combine forallb]; [reflexivity|].
  unfold same_company_title at 1. cbn [fst snd].
  rewrite String.eqb_refl, (H v) by (left; reflexivity). cbn [andb].
  apply IH. intros x Hx. apply H. right. exact Hx.
Qed.

Lemma experience_agrees_same (l : list (string * json)) :
  (forall v, In v l -> py_eq (snd v) (snd v) = true) ->
  experience_agrees l l = true.
Proof.
  intros H. unfold experience_agrees. rewrite Nat.eqb_refl. cbn [andb].
  apply pairs_agree. intros v Hv. apply H.
  apply (Permutation_in _ (sort_named_perm fst l)). exact Hv.
Qed.

Lemma views_written (id : string) (ds : list dict) :
  forallb entry_complete ds = true ->
  exists ev,
    map native_view (map (experience_native id) ds) = map Some ev /\
    map canonical_view ds = map Some ev /\
    forall v, In v ev -> py_eq (snd v) (snd v) = true.
Proof.
  induction ds as [|e ds IH]; cbn [forallb map]; intros H.
  - exists []. repeat split. intros v [].
  - apply andb_true_iff in H as [He H].
    destruct (IH H) as (ev & Na & Ca & Pa).
    destruct (native_view_written id e He) as (Ne & v & Ce & Pe).
    exists (v :: ev). cbn [map]. rewrite Ne, Ce, Na, Ca. repeat split.
    intros x [<- | Hx]; [exact Pe | apply Pa; exact Hx].
Qed.

(** X10.  A document that has been decompressed validates: when the
    personal and salary sections have all their keys with scalar values and
    every experience entry has a text for its company and a scalar title,
    [validate_data_integrity] right after a successful
    [decompress_applicant_data] answers [True] for the three sections
    (entries with a truthy current flag, whose end date was dropped,
    included: the check looks at company and title only). *)
Theorem decompressed_document_validates (id s : string) (w : world)
  (ra : airtable_record) (d p sal : dict) (ds : list dict) :
  healthy w ->
  find (has_id id) (applicants_rows w) = Some ra ->
  dict_get (rec_fields ra) "Compressed JSON" JNull = JStr s ->
  json_loads s = Ret (JDict d) ->
  dict_get d "personal" (JDict []) = JDict p ->
  dict_get d "experience" (JList []) = JList (map JDict ds) ->
  dict_get d "salary" (JDict []) = JDict sal ->
  NoDup (map rec_id (linked WorkExperience id w)) ->
  complete personal_keys p = true ->
  forallb entry_complete ds = true ->
  complete salary_keys sal = true ->
  exists w1 w2,
    decompress_applicant_data id w = (Ret true, w1) /\
    validate_data_integrity id w1 = (Ret all_valid, w2).
Proof.
  intros Hh Fa Gs Ld Gp Ge Gl Hn Cp Ce Cs.
  destruct (decompress_run id s w ra d p sal ds Hh Fa Gs Ld Gp Ge Gl Hn)
    as (w1 & n & rp & oldp & rs & olds & ra' & E & H1 & Sp & Fp & X & L & Ss & Fs & _).
  pose proof (decompress_stamps id w) as St. rewrite E in St. cbn [fst snd] in St.
  destruct St as (ts & A1).
  assert (F1 : find (has_id id) (rows Applicants w1)
               = Some (Rec (rec_id ra)
                         (dict_update (rec_fields ra) [("Last Decompressed", JStr ts)]))).
  { cbn [rows]. rewrite A1, find_update_rows, Fa. cbn [option_map].
    apply find_some in Fa as [_ ->]. reflexivity. }
  assert (G1 : dict_get (dict_update (rec_fields ra) [("Last Decompressed", JStr ts)])
                 "Compressed JSON" JNull = JStr s).
  { rewrite dict_get_update. exact Gs. }
  destruct (views_written id ds Ce) as (ev & Na & Ca & Pa).
  exists w1. eexists. split; [exact E|].
  unfold validate_data_integrity. apply try_ret.
  rewrite (bind_run _ _ _ _ _ (get_run Applicants id w1 _ H1 F1)).
  cbn [rec_fields].
  rewrite (dict_mem_of_get _ _ _ G1) by discriminate. cbn [negb].
  rewrite G1. unfold bind at 1, lift at 1, py_json_loads. rewrite Ld.
  unfold bind at 1, lift at 1, py_get. rewrite Gp.
  rewrite (bind_run _ _ _ _ _
             (validate_personal_run id p oldp rp (count_call w1) (H1 _) Sp Fp Cp)).
  unfold bind at 1, lift at 1. rewrite Ge.
  rewrite (bind_run _ _ _ _ _
             (validate_experience_run id (count_call (count_call w1)) ds ev ev (H1 _)
                ltac:(change (linked WorkExperience id (count_call (count_call w1)))
                        with (linked WorkExperience id w1);
                      rewrite L, created_records_fields; exact Na) Ca)).
  unfold bind at 1, lift at 1. rewrite Gl.
  rewrite (bind_run _ _ _ _ _
             (validate_salary_run id sal olds rs (count_call (count_call (count_call w1)))
                (H1 _) Ss Fs Cs)).
  rewrite (experience_agrees_same ev Pa). reflexivity.
Qed.

(** The document of [recA] has a current position that carries an end
    date: the date is dropped by the decompression and the validation
    passes all the same. *)
Lemma decompressed_document_validates_witness :
  exists w1 w2,
    decompress_applicant_data "recA" Example.steady = (Ret true, w1) /\
    validate_data_integrity "recA" w1 = (Ret all_valid, w2).
Proof.
  apply (decompressed_document_validates "recA" Example.text_A Example.steady
           Example.applicant_A (Document.sections Example.doc_A)
           (Document.personal_dict Example.ada)
           (Document.salary_dict Example.ada_salary)
           (map Document.experience_dict [Example.past_1; Example.current_1])).
  - exact steady_healthy.
  - reflexivity.
  - reflexivity.
  - vm_compute. reflexivity.
  - reflexivity.
  - reflexivity.
  - reflexivity.
  - exact linked_A_nodup.
  - reflexivity.
  - reflexivity.
  - reflexivity.
Defined.

End ValidateAfterDecompress.
Section AbsentKeys.

Import AirtableDecompressor.

Lemma validate_personal_absent (id k : string) (p old : dict) (r : airtable_record)
  (w : world) :
  fails w (calls w) = false ->
  sub_record PersonalDetails id w = Some r ->
  rec_fields r = dict_update old (personal_native id p) ->
  In k personal_keys -> dict_mem k p = false ->
  _validate_personal_data id (JDict p) w = (Ret false, count_call w).
Proof.
  intros Hf Sr Fr Hk M. unfold _validate_personal_data. apply try_ret.
  unfold bind at 1, search. rewrite remote_ok by exact Hf.
  unfold sub_record, linked in Sr. cbn [fst snd].
  change (rows PersonalDetails (count_call w)) with (rows PersonalDetails w).
  destruct (filter _ _) as [|x l]; [discriminate|]. injection Sr as ->.
  unfold lift, py_get, py_and. cbn [obind]. rewrite Fr, !dict_get_update.
  cbn [personal_native rev app dict_get String.eqb Ascii.eqb Bool.eqb].
  cbn [personal_keys In] in Hk.
  destruct Hk as [<- | [<- | [<- | [<- | []]]]];
    rewrite !(dict_mem_get _ _ M); cbn [py_eq];
    repeat match goal with
           | |- context [py_eq ?a ?b] => destruct (py_eq a b)
           end; reflexivity.
Qed.

(** X11.  The validation is stricter than the decompression on absent
    keys.  A personal section that lacks one of its four keys decompresses
    without complaint, the native field being written as the empty text;
    the validation that follows compares that text with [None] and answers
    [False] for the personal section. *)
Theorem absent_key_fails_validation (id s k : string) (w : world)
  (ra : airtable_record) (d p sal : dict) (ds : list dict) :
  healthy w ->
  find (has_id id) (applicants_rows w) = Some ra ->
  dict_get (rec_fields ra) "Compressed JSON" JNull = JStr s ->
  json_loads s = Ret (JDict d) ->
  dict_get d "personal" (JDict []) = JDict p ->
  dict_get d "experience" (JList []) = JList (map JDict ds) ->
  dict_get d "salary" (JDict []) = JDict sal ->
  NoDup (map rec_id (linked WorkExperience id w)) ->
  In k personal_keys -> dict_mem k p = false ->
  exists w1 w2 experience salary,
    decompress_applicant_data id w = (Ret true, w1) /\
    validate_data_integrity id w1 =
      (Ret (JDict [("personal", JBool false);
                   ("experience", JBool experience);
                   ("salary", JBool salary)]), w2).
Proof.
  intros Hh Fa Gs Ld Gp Ge Gl Hn Hk M.
  destruct (decompress_run id s w ra d p sal ds Hh Fa Gs Ld Gp Ge Gl Hn)
    as (w1 & n & rp & oldp & rs & olds & ra' & E & H1 & Sp & Fp & _).
  pose proof (decompress_stamps id w) as St. rewrite E in St. cbn [fst snd] in St.
  destruct St as (ts & A1).
  assert (F1 : find (has_id id) (rows Applicants w1)
               = Some (Rec (rec_id ra)
                         (dict_update (rec_fields ra) [("Last Decompressed", JStr ts)]))).
  { cbn [rows]. rewrite A1, find_update_rows, Fa. cbn [option_map].
    apply find_some in Fa as [_ ->]. reflexivity. }
  assert (G1 : dict_get (dict_update (rec_fields ra) [("Last Decompressed", JStr ts)])
                 "Compressed JSON" JNull = JStr s).
  { rewrite dict_get_update. exact Gs. }
  destruct (validate_experience_total id (JList (map JDict ds)) (count_call (count_call w1)))
    as (be & w2 & Ee).
  destruct (validate_salary_total id (JDict sal) w2) as (bs & Es).
  exists w1. eexists. exists be, bs. split; [exact E|].
  unfold validate_data_integrity. apply try_ret.
  rewrite (bind_run _ _ _ _ _ (get_run Applicants id w1 _ H1 F1)).
  cbn [rec_fields].
  rewrite (dict_mem_of_get _ _ _ G1) by discriminate. cbn [negb].
  rewrite G1. unfold bind at 1, lift at 1, py_json_loads. rewrite Ld.
  unfold bind at 1, lift at 1, py_get. rewrite Gp.
  rewrite (bind_run _ _ _ _ _
             (validate_personal_absent id k p oldp rp (count_call w1) (H1 _) Sp Fp Hk M)).
  unfold bind at 1, lift at 1. rewrite Ge.
  rewrite (bind_run _ _ _ _ _ Ee).
  unfold bind at 1, lift at 1. rewrite Gl.
  rewrite (bind_run _ _ _ _ _ Es).
  reflexivity.
Qed.

Lemma absent_key_fails_validation_witness :
  exists w1 w2 experience salary,
    decompress_applicant_data "recT" Terse.base = (Ret true, w1) /\
    validate_data_integrity "recT" w1 =
      (Ret (JDict [("personal", JBool false);
                   ("experience", JBool experience);
                   ("salary", JBool salary)]), w2).
Proof.
  apply (absent_key_fails_validation "recT" Terse.text "email" Terse.base
           Terse.applicant Terse.doc [("name", JStr "Tess")] [] []).
  - intros n. reflexivity.
  - reflexivity.
  - reflexivity.
  - vm_compute. reflexivity.
  - reflexivity.
  - reflexivity.
  - reflexivity.
  - constructor.
  - right. left. reflexivity.
  - reflexivity.
Defined.

End AbsentKeys.
Section EvaluatorEdges.

Import LLMEvaluator.

Lemma hex_digit_hex (n : N) : (n < 16)%N -> is_lower_hex (hex_digit n) = true.
Proof.
  intros H. assert (E : n = N.of_nat (N.to_nat n)) by (symmetry; apply N2Nat.id).
  assert (L : (N.to_nat n < 16)%nat) by lia.
  rewrite E. generalize dependent (N.to_nat n). intros k _ L.
  do 16 (destruct k as [|k]; [reflexivity|]). lia.
Qed.

Lemma hex_byte_hex (x : Z) :
  Forall (fun c => is_lower_hex c = true) (list_ascii_of_string (hex_byte (x mod 256))).
Proof.
  unfold hex_byte. cbn [list_ascii_of_string].
  pose proof (Z.mod_pos_bound x 256 ltac:(lia)) as B.
  repeat constructor; apply hex_digit_hex.
  - assert (0 <= (x mod 256) / 16 < 16)%Z
      by (split; [apply Z.div_pos; lia | apply Z.div_lt_upper_bound; lia]).
    lia.
  - pose proof (Z.mod_pos_bound (x mod 256) 16 ltac:(lia)). lia.
Qed.

Lemma hex_bytes_shape (bs : list Z) :
  Forall (fun b => exists x, b = (x mod 256)%Z) bs ->
  String.length (String.concat EmptyString (map hex_byte bs)) = 2 * List.length bs /\
  Forall (fun c => is_lower_hex c = true)
    (list_ascii_of_string (String.concat EmptyString (map hex_byte bs))).
Proof.
  induction bs as [|b bs IH]; intros H; [split; [reflexivity | constructor]|].
  apply Forall_cons_iff in H as [(x & ->) H]. destruct (IH H) as [L F].
  assert (C : String.concat EmptyString (map hex_byte ((x mod 256)%Z :: bs))
              = (hex_byte (x mod 256) ++ String.concat EmptyString (map hex_byte bs))%string).
  { cbn [map String.concat]. destruct (map hex_byte bs) eqn:E; [|reflexivity].
    cbn [String.concat]. unfold hex_byte. reflexivity. }
  rewrite C. split.
  - unfold hex_byte at 1. cbn [String.append String.length List.length]. rewrite L. lia.
  - pose proof (hex_byte_hex x) as Hx. unfold hex_byte in *.
    cbn [String.append list_ascii_of_string] in *.
    apply Forall_cons_iff in Hx as [H1 Hx]. apply Forall_cons_iff in Hx as [H2 _].
    repeat constructor; assumption.
Qed.

Lemma le_bytes_mod (n : nat) (x : Z) :
  Forall (fun b => exists y, b = (y mod 256)%Z) (le_bytes n x).
Proof.
  revert x. induction n as [|n IH]; intros x; cbn [le_bytes]; constructor.
  - exists x. reflexivity.
  - apply IH.
Qed.

Lemma le_bytes_length (n : nat) (x : Z) : List.length (le_bytes n x) = n.
Proof.
  revert x. induction n as [|n IH]; intros x; cbn [le_bytes List.length]; [reflexivity|].
  rewrite IH. reflexivity.
Qed.

(** The sixteen bytes of a digest, whatever the state they are read from. *)
Lemma digest_bytes_shape (st : md5_state) :
  let bs := le_bytes 4 (sA st) ++ le_bytes 4 (sB st)
            ++ le_bytes 4 (sC st) ++ le_bytes 4 (sD st) in
  List.length bs = 16 /\ Forall (fun b => exists x, b = (x mod 256)%Z) bs.
Proof.
  split.
  - rewrite !length_app, !le_bytes_length. reflexivity.
  - repeat (apply Forall_app; split); apply le_bytes_mod.
Qed.

Lemma hash_json_not_empty (s : string) : String.eqb "" (_hash_json s) = false.
Proof.
  unfold _hash_json, md5_hexdigest, md5_digest.
  match goal with |- context [fold_left ?f ?l ?i] => generalize (fold_left f l i) end.
  intros st. destruct (digest_bytes_shape st) as [L B]. cbv zeta in L, B.
  destruct (hex_bytes_shape _ B) as [H _]. rewrite L in H.
  destruct (String.concat _ _); [discriminate | reflexivity].
Qed.

(** X12.  The digest [_hash_json] returns for any string is a text of 32
    lower-case hexadecimal digits; in particular it is never empty. *)
Theorem hash_json_is_32_hex_digits (s : string) :
  String.length (_hash_json s) = 32 /\
  Forall (fun c => is_lower_hex c = true) (list_ascii_of_string (_hash_json s)).
Proof.
  unfold _hash_json, md5_hexdigest, md5_digest.
  match goal with |- context [fold_left ?f ?l ?i] => generalize (fold_left f l i) end.
  intros st. destruct (digest_bytes_shape st) as [L B]. cbv zeta in L, B.
  destruct (hex_bytes_shape _ B) as [H F].
  split; [|exact F]. rewrite H, L. reflexivity.
Qed.

Lemma needs_evaluation_keeps (t : table) (id js : string) :
  keeps t (_needs_evaluation id js).
Proof. unfold _needs_evaluation. repeat keeps_step. Qed.

(** X13.  [_needs_evaluation] only reads, never raises, and errs on the
    side of evaluating: it answers [True] when the applicant's record
    cannot be read (transport failure, no such record), when the record has
    no summary or an empty one, and when it has a summary and no stored
    digest at all. *)
Theorem needs_evaluation_defaults_to_true (id js : string) (w : world) :
  same_tables w (snd (_needs_evaluation id js w)) /\
  (exists b, fst (_needs_evaluation id js w) = Ret b) /\
  match record_read id w with
  | None => fst (_needs_evaluation id js w) = Ret true
  | Some r =>
      truthy (dict_get (rec_fields r) "LLM Summary" JNull) = false \/
      dict_mem "Last JSON Hash" (rec_fields r) = false ->
      fst (_needs_evaluation id js w) = Ret true
  end.
Proof.
  split; [intros t; apply needs_evaluation_keeps|].
  unfold record_read, _needs_evaluation, get, remote. mstep. wsimpl.
  destruct (fails w (calls w)); mstep; wsimpl;
    [split; [eexists|]; reflexivity|].
  destruct (find (has_id id) (applicants_rows w)) as [r|]; mstep; wsimpl;
    [|split; [eexists|]; reflexivity].
  destruct (truthy (dict_get (rec_fields r) "LLM Summary" JNull)); cbn [negb fst];
    [|split; [eexists|]; reflexivity].
  split; [eexists; reflexivity|].
  intros [H | H]; [discriminate|].
  rewrite (dict_mem_get _ _ H). cbn [py_eq].
  rewrite hash_json_not_empty. reflexivity.
Qed.

Lemma parse_line_follow_ups (st : evaluation * option section) (raw : string) :
  Forall (fun q => q <> EmptyString) (follow_ups (fst st)) ->
  Forall (fun q => q <> EmptyString) (follow_ups (fst (parse_line st raw))).
Proof.
  destruct st as [result sec]. unfold parse_line. cbn [fst]. intros H.
  destruct (String.prefix "Summary:" (strip raw)); [exact H|].
  destruct (String.prefix "Score:" (strip raw)); [exact H|].
  destruct (String.prefix "Issues:" (strip raw)).
  { cbn [fst]. destruct (existsb _ _); exact H. }
  destruct (String.prefix "Follow-Ups:" (strip raw)); [exact H|].
  destruct (String.prefix bullet (strip raw) && _)%bool.
  { cbn [fst]. destruct (String.eqb _ _) eqn:Q; [exact H|].
    cbn [follow_ups]. apply Forall_app. split; [exact H|].
    constructor; [|constructor]. apply String.eqb_neq. exact Q. }
  destruct (_ && _ && _)%bool; exact H.
Qed.

Lemma fold_parse_line_follow_ups (lines : list string) (st : evaluation * option section) :
  Forall (fun q => q <> EmptyString) (follow_ups (fst st)) ->
  Forall (fun q => q <> EmptyString) (follow_ups (fst (fold_left parse_line lines st))).
Proof.
  revert st. induction lines as [|raw lines IH]; intros st H; [exact H|].
  cbn [fold_left]. apply IH. apply parse_line_follow_ups. exact H.
Qed.

Lemma Forall_firstn {A} (P : A -> Prop) (n : nat) (l : list A) :
  Forall P l -> Forall P (firstn n l).
Proof.
  intros H. revert n. induction H as [|x l Hx H IH]; intros [|n]; cbn [firstn];
    constructor; auto.
Qed.

(** X14.  Whatever the response, [_parse_llm_response] returns an
    evaluation with at most three follow-up questions, none of them empty,
    and writes no table. *)
Theorem follow_ups_at_most_three (response_text : option string) (w : world) :
  exists ev,
    fst (_parse_llm_response response_text w) = Ret ev /\
    List.length (follow_ups ev) <= 3 /\
    Forall (fun q => q <> EmptyString) (follow_ups ev) /\
    same_tables w (snd (_parse_llm_response response_text w)).
Proof.
  destruct response_text as [text|].
  - unfold _parse_llm_response, try_except, lift, parse_response.
    pose proof (fold_parse_line_follow_ups (split_on LF (strip text))
                  (Evaluation "" 5 [] [], None) ltac:(constructor)) as H.
    destruct (fold_left parse_line _ _) as [result sec]. cbn [fst] in H.
    eexists. split; [reflexivity|]. cbn [follow_ups fst snd].
    split; [|split; [|intros []; reflexivity]].
    + destruct (Nat.ltb _ _); cbn [follow_ups]; apply firstn_le_length.
    + destruct (Nat.ltb _ _); cbn [follow_ups]; apply Forall_firstn; exact H.
  - eexists. split; [reflexivity|]. cbn. split; [lia|].
    split; [|intros []; reflexivity].
    constructor; [discriminate | constructor].
Qed.

End EvaluatorEdges.
Section ExactTables.

Import AirtableDecompressor.

Lemma update_personal_exact (id : string) (p : dict) (w : world) :
  healthy w ->
  exists w',
    _update_personal_details id (JDict p) w = (Ret tt, w') /\
    personal_rows w' = upserted PersonalDetails id (personal_native id p) (created w) w /\
    created w' = created w + upsert_creations PersonalDetails id w /\
    applicants_rows w' = applicants_rows w /\
    experience_rows w' = experience_rows w /\
    salary_rows w' = salary_rows w /\
    healthy w'.
Proof.
  intros Hh. unfold _update_personal_details, upserted, upsert_creations.
  destruct (sub_record PersonalDetails id w) as [r0|] eqn:E0.
  - unfold sub_record, linked in E0.
    destruct (first_match_updated (record_matches "Applicant" id)
                (personal_native id p) (rows PersonalDetails w) r0) as (r' & F & G);
      [ intros i old; apply link_matches; reflexivity | exact E0 | ].
    eexists. split.
    + apply try_ret.
      rewrite (bind_run _ _ _ _ _ (search_run _ _ _ w Hh)).
      unfold bind at 1, lift at 1. rewrite personal_to_native_dict.
      destruct (filter _ _) as [|x l]; [discriminate|]. injection E0 as ->.
      rewrite (bind_run _ _ _ _ _ (update_run PersonalDetails _ _ (count_call w) r' Hh F)).
      reflexivity.
    + wsimpl. rewrite Nat.add_0_r. repeat split; auto.
  - unfold sub_record, linked in E0.
    eexists. split.
    + apply try_ret.
      rewrite (bind_run _ _ _ _ _ (search_run _ _ _ w Hh)).
      unfold bind at 1, lift at 1. rewrite personal_to_native_dict.
      destruct (filter _ _) as [|x l] eqn:Ef; [|discriminate].
      rewrite (bind_run _ _ _ _ _ (create_run PersonalDetails _ (count_call w) Hh)).
      reflexivity.
    + wsimpl. rewrite Nat.add_1_r. repeat split; auto.
Qed.

Lemma update_salary_exact (id : string) (s : dict) (w : world) :
  healthy w ->
  exists w',
    _update_salary_preferences id (JDict s) w = (Ret tt, w') /\
    salary_rows w' = upserted SalaryPreferences id (salary_native id s) (created w) w /\
    created w' = created w + upsert_creations SalaryPreferences id w /\
    applicants_rows w' = applicants_rows w /\
    personal_rows w' = personal_rows w /\
    experience_rows w' = experience_rows w /\
    healthy w'.
Proof.
  intros Hh. unfold _update_salary_preferences, upserted, upsert_creations.
  destruct (sub_record SalaryPreferences id w) as [r0|] eqn:E0.
  - unfold sub_record, linked in E0.
    destruct (first_match_updated (record_matches "Applicant" id)
                (salary_native id s) (rows SalaryPreferences w) r0) as (r' & F & G);
      [ intros i old; apply link_matches; reflexivity | exact E0 | ].
    eexists. split.
    + apply try_ret.
      rewrite (bind_run _ _ _ _ _ (search_run _ _ _ w Hh)).
      unfold bind at 1, lift at 1. rewrite salary_to_native_dict.
      destruct (filter _ _) as [|x l]; [discriminate|]. injection E0 as ->.
      rewrite (bind_run _ _ _ _ _ (update_run SalaryPreferences _ _ (count_call w) r' Hh F)).
      reflexivity.
    + wsimpl. rewrite Nat.add_0_r. repeat split; auto.
  - unfold sub_record, linked in E0.
    eexists. split.
    + apply try_ret.
      rewrite (bind_run _ _ _ _ _ (search_run _ _ _ w Hh)).
      unfold bind at 1, lift at 1. rewrite salary_to_native_dict.
      destruct (filter _ _) as [|x l] eqn:Ef; [|discriminate].
      rewrite (bind_run _ _ _ _ _ (create_run SalaryPreferences _ (count_call w) Hh)).
      reflexivity.
    + wsimpl. rewrite Nat.add_1_r. repeat split; auto.
Qed.

Lemma delete_loop_exact (l : list airtable_record) (w : world) :
  healthy w -> NoDup (map rec_id l) -> incl l (experience_rows w) ->
  exists w',
    for_each l (fun record => delete WorkExperience (rec_id record)) w = (Ret tt, w') /\
    experience_rows w' = without l (experience_rows w) /\
    created w' = created w /\
    applicants_rows w' = applicants_rows w /\
    personal_rows w' = personal_rows w /\
    salary_rows w' = salary_rows w /\
    healthy w'.
Proof.
  revert w. induction l as [|r l IH]; intros w Hh Hn Hi.
  - exists w. rewrite without_nil. repeat split; auto.
  - cbn [map] in Hn. apply NoDup_cons_iff in Hn as [Hr Hn].
    assert (Er : existsb (has_id (rec_id r)) (rows WorkExperience w) = true).
    { apply existsb_exists. exists r. split; [apply Hi; left; reflexivity|].
      apply String.eqb_refl. }
    pose proof (delete_run WorkExperience (rec_id r) w Hh Er) as E.
    cbn [for_each]. rewrite (bind_run _ _ _ _ _ E).
    match type of E with _ = (_, ?w1) =>
      destruct (IH w1) as (w' & E' & X & C & A & P & S & H') end.
    + exact Hh.
    + exact Hn.
    + intros x Hx. wsimpl. apply filter_In. split; [apply Hi; right; exact Hx|].
      apply negb_true_iff. unfold has_id. apply String.eqb_neq. intros Q.
      apply Hr. rewrite <- Q. apply in_map. exact Hx.
    + exists w'. wsimpl. rewrite X, without_cons. repeat split; auto.
Qed.

Lemma create_loop_exact (id : string) (ds : list dict) (w : world) :
  healthy w ->
  exists w',
    for_each (map JDict ds)
      (fun exp =>
         bind (lift (experience_to_native id exp)) (fun create_data =>
         bind (create WorkExperience create_data) (fun _ => ret tt))) w = (Ret tt, w') /\
    experience_rows w' =
      experience_rows w ++ created_records (created w) (map (experience_native id) ds) /\
    created w' = created w + List.length ds /\
    applicants_rows w' = applicants_rows w /\
    personal_rows w' = personal_rows w /\
    salary_rows w' = salary_rows w /\
    healthy w'.
Proof.
  revert w. induction ds as [|e ds IH]; intros w Hh.
  - exists w. cbn. rewrite app_nil_r, Nat.add_0_r. repeat split; auto.
  - cbn [map for_each]. unfold bind at 1 2. unfold lift at 1.
    rewrite experience_to_native_dict.
    rewrite (bind_run _ _ _ _ _ (create_run WorkExperience _ w Hh)).
    unfold ret at 1.
    match goal with |- context [for_each _ _ ?w1] =>
      destruct (IH w1) as (w' & E' & X & C & A & P & S & H') end; [exact Hh|].
    exists w'. rewrite E'. wsimpl. rewrite X, <- app_assoc, C.
    cbn [List.length]. repeat split; auto; lia.
Qed.

Lemma update_work_experience_exact (id : string) (ds : list dict) (w : world) :
  healthy w -> NoDup (map rec_id (linked WorkExperience id w)) ->
  exists w',
    _update_work_experience id (JList (map JDict ds)) w = (Ret tt, w') /\
    experience_rows w' =
      without (linked WorkExperience id w) (experience_rows w)
      ++ created_records (created w) (map (experience_native id) ds) /\
    created w' = created w + List.length ds /\
    applicants_rows w' = applicants_rows w /\
    personal_rows w' = personal_rows w /\
    salary_rows w' = salary_rows w /\
    healthy w'.
Proof.
  intros Hh Hn. unfold _update_work_experience.
  destruct (delete_loop_exact (linked WorkExperience id w) (count_call w))
    as (w1 & E1 & X1 & C1 & A1 & P1 & S1 & H1); [exact Hh | exact Hn | |].
  { intros x Hx. apply filter_In in Hx as [Hx _]. exact Hx. }
  destruct (create_loop_exact id ds w1 H1) as (w2 & E2 & X2 & C2 & A2 & P2 & S2 & H2).
  eexists. split.
  - apply try_ret.
    rewrite (bind_run _ _ _ _ _ (search_run _ _ _ w Hh)).
    change (filter (record_matches "Applicant" id) (rows WorkExperience w))
      with (linked WorkExperience id w).
    rewrite (bind_run _ _ _ _ _ E1).
    unfold bind at 1, lift at 1, py_iter.
    rewrite (bind_run _ _ _ _ _ E2).
    unfold bind at 1, lift at 1, py_len. reflexivity.
  - wsimpl. rewrite X2, X1, C2, C1. wsimpl.
    repeat split; congruence || exact H2.
Qed.

Lemma upserted_same_rows (t : table) (id : string) (new : dict) (c : nat) (w w' : world) :
  rows t w' = rows t w ->
  upserted t id new c w' = upserted t id new c w /\
  upsert_creations t id w' = upsert_creations t id w.
Proof.
  intros E. unfold upserted, upsert_creations, sub_record, linked. rewrite E.
  split; reflexivity.
Qed.

(** The four tables after a run of [decompress_applicant_data] on a
    well-formed document, while the transport works. *)
Lemma decompress_exact (id s : string) (w : world) (ra : airtable_record)
  (d p sal : dict) (ds : list dict) :
  healthy w ->
  find (has_id id) (applicants_rows w) = Some ra ->
  dict_get (rec_fields ra) "Compressed JSON" JNull = JStr s ->
  json_loads s = Ret (JDict d) ->
  dict_get d "personal" (JDict []) = JDict p ->
  dict_get d "experience" (JList []) = JList (map JDict ds) ->
  dict_get d "salary" (JDict []) = JDict sal ->
  NoDup (map rec_id (linked WorkExperience id w)) ->
  let c1 := created w + upsert_creations PersonalDetails id w in
  let c2 := c1 + List.length ds in
  exists w' ts,
    decompress_applicant_data id w = (Ret true, w') /\
    healthy w' /\
    personal_rows w' = upserted PersonalDetails id (personal_native id p) (created w) w /\
    experience_rows w' =
      without (linked WorkExperience id w) (experience_rows w)
      ++ created_records c1 (map (experience_native id) ds) /\
    salary_rows w' = upserted SalaryPreferences id (salary_native id sal) c2 w /\
    applicants_rows w' =
      update_rows id [("Last Decompressed", JStr ts)] (applicants_rows w) /\
    created w' = c2 + upsert_creations SalaryPreferences id w.
Proof.
  intros Hh Fa Gs Ld Gp Ge Gl Hn c1 c2.
  set (w0 := add_log (LogEntry INFO ("Starting decompression for applicant " ++ id)) w).
  destruct (update_personal_exact id p (count_call w0) Hh)
    as (w1 & E1 & P1 & C1 & A1 & X1 & S1 & H1).
  destruct (update_work_experience_exact id ds w1 H1)
    as (w2 & E2 & X2 & C2 & A2 & P2 & S2 & H2).
  { unfold linked. wsimpl. rewrite X1. exact Hn. }
  destruct (update_salary_exact id sal w2 H2)
    as (w3 & E3 & S3 & C3 & A3 & P3 & X3 & H3).
  assert (Fa3 : find (has_id id) (rows Applicants (count_tick w3)) = Some ra).
  { wsimpl. rewrite A3, A2, A1. exact Fa. }
  destruct (upserted_same_rows PersonalDetails id (personal_native id p) (created w)
              w (count_call w0) eq_refl) as [Up Cp].
  destruct (upserted_same_rows SalaryPreferences id (salary_native id sal) (created w2)
              w w2) as [Us Cs].
  { cbn [rows]. rewrite S2, S1. reflexivity. }
  eexists; eexists. split; [|split; [|split; [|split; [|split; [|split]]]]].
  - unfold decompress_applicant_data. apply try_ret.
    unfold bind at 1, logger at 1. fold w0.
    rewrite (bind_run _ _ _ _ _ (get_run Applicants id w0 ra Hh Fa)).
    rewrite (dict_mem_of_get _ _ _ Gs) by discriminate. cbn [negb].
    rewrite Gs. unfold bind at 1, lift at 1, py_json_loads. rewrite Ld.
    unfold bind at 1, lift at 1, py_get. rewrite Gp.
    rewrite (bind_run _ _ _ _ _ E1).
    unfold bind at 1, lift at 1. rewrite Ge.
    rewrite (bind_run _ _ _ _ _ E2).
    unfold bind at 1, lift at 1. rewrite Gl.
    rewrite (bind_run _ _ _ _ _ E3).
    unfold bind at 1, now_isoformat at 1.
    rewrite (bind_run _ _ _ _ _ (update_run Applicants id _ (count_tick w3) ra H3 Fa3)).
    reflexivity.
  - exact H3.
  - wsimpl. rewrite P3, P2, P1. exact Up.
  - wsimpl. rewrite X3, X2. unfold linked. wsimpl. rewrite X1, C1, Cp. reflexivity.
  - wsimpl. rewrite S3, Us, C2, C1, Cp. reflexivity.
  - wsimpl. rewrite A3, A2, A1. reflexivity.
  - wsimpl. rewrite C3, C2, C1, Cs, Cp. reflexivity.
Qed.

End ExactTables.
Section Ids.

Lemma to_int_not_nil (z : Z) : Z.to_int z <> Decimal.Pos Decimal.Nil /\ Z.to_int z <> Decimal.Neg Decimal.Nil.
Proof.
  destruct z as [|p|p]; cbn; split; try discriminate;
    intros E; injection E as E; revert E; apply DecimalPos.Unsigned.to_uint_nonnil.
Qed.

Lemma assigned_number_fresh (n : nat) : assigned_number (fresh_id n) = Some n.
Proof.
  unfold fresh_id, assigned_number, str_nat, str_Z. cbn [String.append].
  destruct (to_int_not_nil (Z.of_nat n)) as [A B].
  rewrite (NilZero.isi _ A B). cbn [option_map].
  rewrite DecimalZ.of_to, Nat2Z.id. reflexivity.
Qed.

Lemma fresh_id_inj (n m : nat) : fresh_id n = fresh_id m -> n = m.
Proof.
  intros E. pose proof (assigned_number_fresh n) as H. rewrite E, assigned_number_fresh in H.
  congruence.
Qed.

Lemma ids_below_unassigned (w : world) : ids_below w = true -> unassigned w.
Proof.
  unfold ids_below. intros H t r n Hr Hn E.
  rewrite forallb_forall in H. specialize (H t).
  rewrite forallb_forall in H. 
  assert (Ht : In t [Applicants; PersonalDetails; WorkExperience; SalaryPreferences])
    by (destruct t; cbn; tauto).
  specialize (H Ht r Hr). rewrite E, assigned_number_fresh in H.
  apply Nat.ltb_lt in H. lia.
Qed.

End Ids.
Section Idempotence.

Import AirtableDecompressor.

Lemma dict_set_same (d : dict) (k : string) (v : json) :
  dict_mem k d = true -> dict_get d k JNull = v -> dict_set d k v = d.
Proof.
  induction d as [|[k' v'] d IH]; cbn [dict_mem dict_get dict_set]; [discriminate|].
  destruct (String.eqb k' k) eqn:E; cbn [orb].
  - intros _ ->. reflexivity.
  - intros M G. rewrite IH; auto.
Qed.

Lemma dict_mem_set (d : dict) (k k' : string) (v : json) :
  dict_mem k' (dict_set d k v) = (String.eqb k k' || dict_mem k' d)%bool.
Proof.
  induction d as [|[k0 v0] d IH]; cbn [dict_set dict_mem].
  - reflexivity.
  - destruct (String.eqb k0 k) eqn:E; cbn [dict_mem].
    + apply String.eqb_eq in E. subst k0.
      destruct (String.eqb k k'); reflexivity.
    + rewrite IH. destruct (String.eqb k0 k'), (String.eqb k k'); reflexivity.
Qed.

Lemma dict_mem_update (new d : dict) (k : string) :
  dict_mem k (dict_update d new) = (dict_mem k new || dict_mem k d)%bool.
Proof.
  unfold dict_update. revert d.
  induction new as [|[k0 v0] new IH]; intros d; cbn [fold_left dict_mem fst snd];
    [reflexivity|].
  rewrite IH, dict_mem_set.
  destruct (String.eqb k0 k), (dict_mem k new), (dict_mem k d); reflexivity.
Qed.

Lemma dict_get_rev_last (new : dict) (k : string) (v dflt : json) :
  NoDup (map fst new) -> In (k, v) new -> dict_get (rev new) k dflt = v.
Proof.
  revert dflt.
  induction new as [|[k0 v0] new IH]; cbn [map rev In fst]; intros dflt N H; [destruct H|].
  apply NoDup_cons_iff in N as [N0 N]. rewrite dict_get_app.
  destruct H as [H | H].
  - injection H as -> ->.
    rewrite dict_get_rev_absent.
    + cbn [dict_get]. rewrite String.eqb_refl. reflexivity.
    + destruct (dict_mem k new) eqn:M; [|reflexivity]. exfalso. apply N0.
      clear - M. induction new as [|[k1 v1] new IH]; cbn in *; [discriminate|].
      apply orb_true_iff in M as [M | M]; [left; apply String.eqb_eq; exact M | right; auto].
  - apply IH; assumption.
Qed.

Lemma dict_mem_in (new : dict) (k : string) (v : json) :
  In (k, v) new -> dict_mem k new = true.
Proof.
  induction new as [|[k0 v0] new IH]; cbn [In dict_mem]; intros H; [destruct H|].
  destruct H as [H | H].
  - injection H as -> ->. rewrite String.eqb_refl. reflexivity.
  - rewrite (IH H). apply orb_true_r.
Qed.

(** Writing the same fields twice is writing them once. *)
Lemma dict_update_twice (new d : dict) :
  NoDup (map fst new) -> dict_update (dict_update d new) new = dict_update d new.
Proof.
  intros N. set (d' := dict_update d new).
  assert (H : forall l, incl l new ->
                fold_left (fun acc kv => dict_set acc (fst kv) (snd kv)) l d' = d').
  { induction l as [|[k v] l IH]; intros Hl; cbn [fold_left fst snd]; [reflexivity|].
    rewrite dict_set_same.
    - apply IH. intros x Hx. apply Hl. right. exact Hx.
    - unfold d'. rewrite dict_mem_update, (dict_mem_in new k v); [reflexivity|].
      apply Hl. left. reflexivity.
    - unfold d'. rewrite dict_get_update. apply dict_get_rev_last; [exact N|].
      apply Hl. left. reflexivity. }
  apply H. apply incl_refl.
Qed.

Lemma update_rows_twice (id : string) (new : dict) (rs : list airtable_record) :
  NoDup (map fst new) ->
  update_rows id new (update_rows id new rs) = update_rows id new rs.
Proof.
  intros N. induction rs as [|r rs IH]; cbn [update_rows]; [reflexivity|].
  destruct (has_id id r) eqn:E; cbn [update_rows].
  - change (has_id id (Rec (rec_id r) (dict_update (rec_fields r) new)))
      with (has_id id r).
    rewrite E. cbn [rec_id rec_fields]. rewrite dict_update_twice by exact N. reflexivity.
  - rewrite E, IH. reflexivity.
Qed.

Lemma update_rows_appended (id : string) (new f : dict) (rs : list airtable_record) :
  (forall r, In r rs -> rec_id r <> id) ->
  update_rows id new (rs ++ [Rec id f]) = rs ++ [Rec id (dict_update f new)].
Proof.
  induction rs as [|r rs IH]; intros H; cbn [app update_rows].
  - unfold has_id. cbn [rec_id]. rewrite String.eqb_refl. reflexivity.
  - assert (E : has_id id r = false).
    { unfold has_id. apply String.eqb_neq. apply H. left. reflexivity. }
    rewrite E, IH; [reflexivity|]. intros x Hx. apply H. right. exact Hx.
Qed.

Lemma length_update_rows (id : string) (new : dict) (rs : list airtable_record) :
  List.length (update_rows id new rs) = List.length rs.
Proof.
  induction rs as [|r rs IH]; cbn [update_rows]; [reflexivity|].
  destruct (has_id id r); cbn [List.length]; congruence.
Qed.

Lemma dict_get_in (d : dict) (k : string) (v dflt : json) :
  NoDup (map fst d) -> In (k, v) d -> dict_get d k dflt = v.
Proof.
  induction d as [|[k0 v0] d IH]; cbn [map In fst dict_get]; intros N H; [destruct H|].
  apply NoDup_cons_iff in N as [N0 N]. destruct H as [H | H].
  - injection H as -> ->. rewrite String.eqb_refl. reflexivity.
  - destruct (String.eqb k0 k) eqn:E; [|auto].
    apply String.eqb_eq in E. subst k0. exfalso. apply N0.
    apply (in_map fst) in H. exact H.
Qed.

Lemma dict_update_self (new : dict) :
  NoDup (map fst new) -> dict_update new new = new.
Proof.
  intros N. unfold dict_update.
  assert (H : forall l, incl l new ->
                fold_left (fun acc kv => dict_set acc (fst kv) (snd kv)) l new = new).
  { induction l as [|[k v] l IH]; intros Hl; cbn [fold_left fst snd]; [reflexivity|].
    rewrite dict_set_same.
    - apply IH. intros x Hx. apply Hl. right. exact Hx.
    - apply (dict_mem_in new k v). apply Hl. left. reflexivity.
    - apply dict_get_in; [exact N|]. apply Hl. left. reflexivity. }
  apply H. apply incl_refl.
Qed.

(** A second upsert of the same fields changes nothing and creates no
    record. *)
Lemma upserted_twice (t : table) (id : string) (new : dict) (c c' : nat) (w w1 : world) :
  NoDup (map fst new) ->
  dict_get (rev new) "Applicant" JNull = JList [JStr id] ->
  record_matches "Applicant" id (Rec (fresh_id c) new) = true ->
  (forall r, In r (rows t w) -> rec_id r <> fresh_id c) ->
  rows t w1 = upserted t id new c w ->
  upserted t id new c' w1 = rows t w1 /\ upsert_creations t id w1 = 0.
Proof.
  intros N L M F H1. unfold upserted, upsert_creations, sub_record, linked in *.
  destruct (hd_error (filter (record_matches "Applicant" id) (rows t w))) as [r0|] eqn:E0.
  - destruct (first_match_updated (record_matches "Applicant" id) new (rows t w) r0)
      as (r' & Fr & G); [intros i old; apply link_matches; exact L | exact E0 |].
    rewrite H1, G. cbn [rec_id].
    apply find_some in Fr as [_ Fr]. unfold has_id in Fr. apply String.eqb_eq in Fr.
    rewrite Fr, update_rows_twice by exact N. split; reflexivity.
  - assert (E : filter (record_matches "Applicant" id) (rows t w) = []).
    { destruct (filter _ _); [reflexivity | discriminate]. }
    rewrite H1, filter_app, E. cbn [filter app]. rewrite M. cbn [hd_error rec_id].
    rewrite update_rows_appended by exact F.
    rewrite dict_update_self by exact N. split; reflexivity.
Qed.

Lemma created_ids (n : nat) (news : list dict) (r : airtable_record) :
  In r (created_records n news) -> exists k, n <= k /\ rec_id r = fresh_id k.
Proof.
  revert n. induction news as [|d ds IH]; intros n; cbn [created_records In]; [intros []|].
  intros [<- | H].
  - exists n. split; [lia | reflexivity].
  - destruct (IH _ H) as (k & Hk & E). exists k. split; [lia | exact E].
Qed.

Lemma created_nodup (n : nat) (news : list dict) :
  NoDup (map rec_id (created_records n news)).
Proof.
  revert n. induction news as [|d ds IH]; intros n; cbn [created_records map]; constructor.
  - intros H. apply in_map_iff in H as (r & E & Hr).
    destruct (created_ids _ _ _ Hr) as (k & Hk & E'). rewrite E' in E.
    cbn [rec_id] in E. apply fresh_id_inj in E. lia.
  - apply IH.
Qed.

Lemma without_app (l a b : list airtable_record) :
  without l (a ++ b) = without l a ++ without l b.
Proof. unfold without. apply filter_app. Qed.

Lemma without_self (l : list airtable_record) : without l l = [].
Proof.
  unfold without.
  assert (H : forall l', incl l' l ->
                filter (fun x => negb (existsb (fun r => has_id (rec_id r) x) l)) l' = []).
  { induction l' as [|x l' IH]; intros Hi; cbn [filter]; [reflexivity|].
    assert (E : existsb (fun r => has_id (rec_id r) x) l = true).
    { apply existsb_exists. exists x. split; [apply Hi; left; reflexivity|].
      unfold has_id. apply String.eqb_refl. }
    rewrite E. cbn [negb]. apply IH. intros y Hy. apply Hi. right. exact Hy. }
  apply H. apply incl_refl.
Qed.

Lemma without_disjoint (l rs : list airtable_record) :
  (forall x r, In x rs -> In r l -> rec_id x <> rec_id r) -> without l rs = rs.
Proof.
  unfold without. induction rs as [|x rs IH]; intros H; cbn [filter]; [reflexivity|].
  assert (E : existsb (fun r => has_id (rec_id r) x) l = false).
  { destruct (existsb _ l) eqn:Q; [|reflexivity].
    apply existsb_exists in Q as (r & Hr & Q). unfold has_id in Q.
    apply String.eqb_eq in Q. exfalso. apply (H x r); [left; reflexivity | exact Hr | exact Q]. }
  rewrite E. cbn [negb]. rewrite IH; [reflexivity|].
  intros y r Hy Hr. apply H; [right; exact Hy | exact Hr].
Qed.

Lemma without_subset (l rs : list airtable_record) (x : airtable_record) :
  In x (without l rs) -> In x rs.
Proof. unfold without. intros H. apply filter_In in H as [H _]. exact H. Qed.

Lemma native_keys_distinct (id : string) (p sal : dict) :
  NoDup (map fst (personal_native id p)) /\ NoDup (map fst (salary_native id sal)).
Proof.
  split; cbn [map fst personal_native salary_native];
    repeat (constructor; [cbn [In]; intuition discriminate|]); constructor.
Qed.

Lemma native_linked (id i : string) (p sal : dict) :
  record_matches "Applicant" id (Rec i (personal_native id p)) = true /\
  record_matches "Applicant" id (Rec i (salary_native id sal)) = true.
Proof.
  unfold record_matches, personal_native, salary_native. cbn.
  rewrite String.eqb_refl. split; reflexivity.
Qed.

Lemma linked_after_replacement (id : string) (n : nat) (ds : list dict)
  (rs rs' : list airtable_record) :
  rs' = without (filter (record_matches "Applicant" id) rs) rs
        ++ created_records n (map (experience_native id) ds) ->
  filter (record_matches "Applicant" id) rs'
  = created_records n (map (experience_native id) ds).
Proof.
  intros ->. rewrite filter_app, without_linked. cbn [app].
  apply filter_created. intros i d Hd. apply in_map_iff in Hd as (e & <- & _).
  apply experience_native_linked.
Qed.

(** X16.  Decompressing twice is decompressing once.  While the transport
    works and the store assigns ids that no record carries, a second run of
    [decompress_applicant_data] on the same well-formed document answers
    [True] again and leaves the Personal Details and Salary Preferences
    tables exactly as the first run left them, creates no further
    sub-record, leaves every Work Experience record with the same fields in
    the same order (the applicant's own under new ids), and changes
    nothing of the Applicants table but the time stamp. *)
Theorem decompress_twice (id s : string) (w : world) (ra : airtable_record)
  (d p sal : dict) (ds : list dict) :
  healthy w ->
  unassigned w ->
  find (has_id id) (applicants_rows w) = Some ra ->
  dict_get (rec_fields ra) "Compressed JSON" JNull = JStr s ->
  json_loads s = Ret (JDict d) ->
  dict_get d "personal" (JDict []) = JDict p ->
  dict_get d "experience" (JList []) = JList (map JDict ds) ->
  dict_get d "salary" (JDict []) = JDict sal ->
  NoDup (map rec_id (linked WorkExperience id w)) ->
  exists w1 w2,
    decompress_applicant_data id w = (Ret true, w1) /\
    decompress_applicant_data id w1 = (Ret true, w2) /\
    personal_rows w2 = personal_rows w1 /\
    salary_rows w2 = salary_rows w1 /\
    map rec_fields (experience_rows w2) = map rec_fields (experience_rows w1) /\
    (forall id' k, k <> "Last Decompressed" -> stored id' k w2 = stored id' k w1).
Proof.
  intros Hh Hu Fa Gs Ld Gp Ge Gl Hn.
  destruct (decompress_exact id s w ra d p sal ds Hh Fa Gs Ld Gp Ge Gl Hn)
    as (w1 & ts1 & E1 & H1 & P1 & X1 & S1 & A1 & C1).
  set (c1 := created w + upsert_creations PersonalDetails id w) in *.
  set (c2 := c1 + List.length ds) in *.
  assert (Fa1 : find (has_id id) (applicants_rows w1)
                = Some (Rec (rec_id ra)
                          (dict_update (rec_fields ra) [("Last Decompressed", JStr ts1)]))).
  { rewrite A1, find_update_rows, Fa. cbn [option_map].
    apply find_some in Fa as [_ ->]. reflexivity. }
  assert (Gs1 : dict_get (dict_update (rec_fields ra) [("Last Decompressed", JStr ts1)])
                  "Compressed JSON" JNull = JStr s).
  { rewrite dict_get_update. exact Gs. }
  assert (L1 : linked WorkExperience id w1
               = created_records c1 (map (experience_native id) ds)).
  { exact (linked_after_replacement id c1 ds (experience_rows w) _ X1). }
  assert (Hn1 : NoDup (map rec_id (linked WorkExperience id w1))).
  { rewrite L1. apply created_nodup. }
  destruct (decompress_exact id s w1 _ d p sal ds H1 Fa1 Gs1 Ld Gp Ge Gl Hn1)
    as (w2 & ts2 & E2 & H2 & P2 & X2 & S2 & A2 & C2).
  destruct (native_keys_distinct id p sal) as [Np Ns].
  destruct (upserted_twice PersonalDetails id (personal_native id p)
              (created w) (created w1) w w1 Np eq_refl
              (proj1 (native_linked id _ p sal))) as [Up Cp].
  { intros r Hr. apply (Hu PersonalDetails r (created w) Hr). lia. }
  { exact P1. }
  destruct (upserted_twice SalaryPreferences id (salary_native id sal)
              c2 (created w1 + upsert_creations PersonalDetails id w1 + List.length ds)
              w w1 Ns eq_refl
              (proj2 (native_linked id _ p sal))) as [Us Cs].
  { intros r Hr. apply (Hu SalaryPreferences r c2 Hr). unfold c2, c1. lia. }
  { exact S1. }
  exists w1, w2. split; [exact E1|]. split; [exact E2|].
  split; [rewrite P2; exact Up|]. split; [rewrite S2; exact Us|]. split.
  - rewrite X2, L1, X1, without_app, without_self, app_nil_r.
    rewrite without_disjoint.
    + rewrite !map_app, !created_records_fields. reflexivity.
    + intros x r Hx Hr E. apply without_subset in Hx.
      destruct (created_ids _ _ _ Hr) as (k & Hk & Ek). rewrite Ek in E.
      apply (Hu WorkExperience x k Hx); [unfold c1 in Hk; lia | exact E].
  - intros id' k Hk. apply (stored_after_update id id' k _ w1 w2 A2).
    cbn [dict_mem]. rewrite orb_false_r. apply String.eqb_neq. congruence.
Qed.

Lemma decompress_twice_witness :
  exists w1 w2,
    decompress_applicant_data "recA" Example.steady = (Ret true, w1) /\
    decompress_applicant_data "recA" w1 = (Ret true, w2) /\
    personal_rows w2 = personal_rows w1 /\
    salary_rows w2 = salary_rows w1 /\
    map rec_fields (experience_rows w2) = map rec_fields (experience_rows w1) /\
    (forall id' k, k <> "Last Decompressed" -> stored id' k w2 = stored id' k w1).
Proof.
  apply (decompress_twice "recA" Example.text_A Example.steady
           Example.applicant_A (Document.sections Example.doc_A)
           (Document.personal_dict Example.ada)
           (Document.salary_dict Example.ada_salary)
           (map Document.experience_dict [Example.past_1; Example.current_1])).
  - exact steady_healthy.
  - apply ids_below_unassigned. vm_compute. reflexivity.
  - reflexivity.
  - reflexivity.
  - vm_compute. reflexivity.
  - reflexivity.
  - reflexivity.
  - reflexivity.
  - exact linked_A_nodup.
Defined.

(** X15.  The Personal Details and Salary Preferences sub-records are
    upserted.  After a run of [decompress_applicant_data] on a well-formed
    document, each of the two tables is the old one with the first record
    linked to the applicant updated in place (fields the document does not
    name stay, no record is added), or, when no record was linked to the
    applicant, with one new record at its end. *)
Theorem decompress_upserts_sub_records (id s : string) (w : world)
  (ra : airtable_record) (d p sal : dict) (ds : list dict) :
  healthy w ->
  find (has_id id) (applicants_rows w) = Some ra ->
  dict_get (rec_fields ra) "Compressed JSON" JNull = JStr s ->
  json_loads s = Ret (JDict d) ->
  dict_get d "personal" (JDict []) = JDict p ->
  dict_get d "experience" (JList []) = JList (map JDict ds) ->
  dict_get d "salary" (JDict []) = JDict sal ->
  NoDup (map rec_id (linked WorkExperience id w)) ->
  exists w' cp cs,
    decompress_applicant_data id w = (Ret true, w') /\
    personal_rows w' = upserted PersonalDetails id (personal_native id p) cp w /\
    salary_rows w' = upserted SalaryPreferences id (salary_native id sal) cs w /\
    List.length (personal_rows w') =
      List.length (personal_rows w) + upsert_creations PersonalDetails id w /\
    List.length (salary_rows w') =
      List.length (salary_rows w) + upsert_creations SalaryPreferences id w.
Proof.
  intros Hh Fa Gs Ld Gp Ge Gl Hn.
  destruct (decompress_exact id s w ra d p sal ds Hh Fa Gs Ld Gp Ge Gl Hn)
    as (w1 & ts1 & E1 & H1 & P1 & X1 & S1 & A1 & C1).
  exists w1. eexists; eexists. split; [exact E1|]. split; [exact P1|]. split; [exact S1|].
  rewrite P1, S1. unfold upserted, upsert_creations.
  split.
  - destruct (sub_record PersonalDetails id w).
    + rewrite length_update_rows. cbn [rows]. lia.
    + rewrite length_app. reflexivity.
  - destruct (sub_record SalaryPreferences id w).
    + rewrite length_update_rows. cbn [rows]. lia.
    + rewrite length_app. reflexivity.
Qed.

(** The applicant of [Terse.base] has no sub-record: one of each is
    created; the two tables grow by one record. *)
Lemma decompress_upserts_sub_records_witness :
  exists w' cp cs,
    decompress_applicant_data "recT" Terse.base = (Ret true, w') /\
    personal_rows w' =
      upserted PersonalDetails "recT" (personal_native "recT" [("name", JStr "Tess")])
        cp Terse.base /\
    salary_rows w' =
      upserted SalaryPreferences "recT" (salary_native "recT" []) cs Terse.base /\
    List.length (personal_rows w') =
      List.length (personal_rows Terse.base)
      + upsert_creations PersonalDetails "recT" Terse.base /\
    List.length (salary_rows w') =
      List.length (salary_rows Terse.base)
      + upsert_creations SalaryPreferences "recT" Terse.base.
Proof.
  apply (decompress_upserts_sub_records "recT" Terse.text Terse.base
           Terse.applicant Terse.doc [("name", JStr "Tess")] [] []).
  - intros n. reflexivity.
  - reflexivity.
  - reflexivity.
  - vm_compute. reflexivity.
  - reflexivity.
  - reflexivity.
  - reflexivity.
  - constructor.
Defined.

End Idempotence.
Section CompressThenDecompress.

Import AirtableCompressor AirtableDecompressor.

Lemma find_unique (r : airtable_record) (rs : list airtable_record) :
  NoDup (map rec_id rs) -> In r rs -> find (has_id (rec_id r)) rs = Some r.
Proof.
  induction rs as [|x rs IH]; cbn [map In find]; intros N H; [destruct H|].
  apply NoDup_cons_iff in N as [N0 N]. destruct H as [-> | H].
  - unfold has_id. rewrite String.eqb_refl. reflexivity.
  - destruct (has_id (rec_id r) x) eqn:E; [|auto].
    unfold has_id in E. apply String.eqb_eq in E. exfalso. apply N0.
    rewrite E. apply in_map. exact H.
Qed.

Lemma sub_record_in (t : table) (id : string) (w : world) (r : airtable_record) :
  sub_record t id w = Some r -> In r (rows t w).
Proof.
  unfold sub_record, linked. intros H.
  destruct (filter _ _) as [|x l] eqn:E; [discriminate|]. injection H as ->.
  assert (I : In r (filter (record_matches "Applicant" id) (rows t w)))
    by (rewrite E; left; reflexivity).
  apply filter_In in I as [I _]. exact I.
Qed.

(** The sub-record after an upsert of [new] over the sub-record [r]. *)
Lemma sub_record_upserted (t : table) (id : string) (new : dict) (c : nat)
  (w w' : world) (r : airtable_record) :
  NoDup (map rec_id (rows t w)) ->
  dict_get (rev new) "Applicant" JNull = JList [JStr id] ->
  sub_record t id w = Some r ->
  rows t w' = upserted t id new c w ->
  sub_record t id w' = Some (Rec (rec_id r) (dict_update (rec_fields r) new)).
Proof.
  intros N L S H. pose proof (sub_record_in _ _ _ _ S) as I.
  unfold upserted in H. rewrite S in H. unfold sub_record, linked in *. rewrite H.
  destruct (first_match_updated (record_matches "Applicant" id) new (rows t w) r)
    as (r' & F & G); [intros i old; apply link_matches; exact L | exact S |].
  rewrite (find_unique r _ N I) in F. injection F as <-. exact G.
Qed.

Lemma personal_kept (id : string) (r : airtable_record) :
  keeps_fields_of id r
    (Rec (rec_id r)
       (dict_update (rec_fields r)
          (personal_native id (section_dict (personal_to_canonical (rec_fields r)))))).
Proof.
  split; [reflexivity|]. cbn [rec_fields rec_id]. split.
  - rewrite dict_get_update. reflexivity.
  - intros k Hk M. rewrite dict_get_update.
    unfold personal_native. cbn [rev app]. cbn [dict_get].
    repeat match goal with
           | |- context [String.eqb ?a k] =>
               let E := fresh "E" in
               destruct (String.eqb a k) eqn:E;
               [apply String.eqb_eq in E; subst k|]
           end; try congruence; try reflexivity;
      cbn; apply dict_get_mem; exact M.
Qed.

Lemma salary_kept (id : string) (r : airtable_record) :
  keeps_fields_of id r
    (Rec (rec_id r)
       (dict_update (rec_fields r)
          (salary_native id (section_dict (salary_to_canonical (rec_fields r)))))).
Proof.
  split; [reflexivity|]. cbn [rec_fields rec_id]. split.
  - rewrite dict_get_update. reflexivity.
  - intros k Hk M. rewrite dict_get_update.
    unfold salary_native. cbn [rev app]. cbn [dict_get].
    repeat match goal with
           | |- context [String.eqb ?a k] =>
               let E := fresh "E" in
               destruct (String.eqb a k) eqn:E;
               [apply String.eqb_eq in E; subst k|]
           end; try congruence; try reflexivity;
      cbn; apply dict_get_mem; exact M.
Qed.

(** Compression followed by decompression, for a document that the parser
    reads back as it was printed. *)
Lemma compress_decompress_run (id : string) (w : world) (rp rs ra : airtable_record) :
  healthy w ->
  sub_record PersonalDetails id w = Some rp ->
  sub_record SalaryPreferences id w = Some rs ->
  find (has_id id) (applicants_rows w) = Some ra ->
  NoDup (map rec_id (personal_rows w)) ->
  NoDup (map rec_id (salary_rows w)) ->
  NoDup (map rec_id (linked WorkExperience id w)) ->
  json_loads (json_dumps (build_document (rec_fields rp)
                            (map rec_fields (linked WorkExperience id w))
                            (rec_fields rs) (clock w (ticks w))))
  = Ret (build_document (rec_fields rp)
           (map rec_fields (linked WorkExperience id w))
           (rec_fields rs) (clock w (ticks w))) ->
  exists doc w1 w2 rp' rs',
    compress_applicant_data id w = (Ret (Some doc), w1) /\
    decompress_applicant_data id w1 = (Ret true, w2) /\
    sub_record PersonalDetails id w2 = Some rp' /\ keeps_fields_of id rp rp' /\
    sub_record SalaryPreferences id w2 = Some rs' /\ keeps_fields_of id rs rs' /\
    map rec_fields (linked WorkExperience id w2)
    = map (restored id) (map rec_fields (linked WorkExperience id w)).
Proof.
  intros Hh Sp Ss Fa Np Ns Nx Ld.
  destruct (compress_healthy id w rp rs ra Hh Sp Ss Fa) as (w1 & E & A & K & H1).
  set (exps := map rec_fields (linked WorkExperience id w)) in *.
  set (doc := build_document (rec_fields rp) exps (rec_fields rs) (clock w (ticks w))) in *.
  set (ts := clock w (S (ticks w))) in *.
  pose proof (K PersonalDetails ltac:(discriminate)) as Kp.
  pose proof (K WorkExperience ltac:(discriminate)) as Kx.
  pose proof (K SalaryPreferences ltac:(discriminate)) as Ks.
  assert (Fa1 : find (has_id id) (applicants_rows w1)
                = Some (Rec (rec_id ra) (dict_update (rec_fields ra) (compress_payload doc ts)))).
  { rewrite A, find_update_rows, Fa. cbn [option_map].
    apply find_some in Fa as [_ ->]. reflexivity. }
  assert (Gs1 : dict_get (dict_update (rec_fields ra) (compress_payload doc ts))
                  "Compressed JSON" JNull = JStr (json_dumps doc)).
  { rewrite dict_get_update. reflexivity. }
  set (p := section_dict (personal_to_canonical (rec_fields rp))).
  set (sal := section_dict (salary_to_canonical (rec_fields rs))).
  set (ds := map (fun f => section_dict (experience_to_canonical f)) exps).
  assert (Ge : dict_get (section_dict doc) "experience" (JList []) = JList (map JDict ds)).
  { unfold ds. rewrite map_map. reflexivity. }
  assert (L1 : linked WorkExperience id w1 = linked WorkExperience id w).
  { unfold linked. rewrite Kx. reflexivity. }
  destruct (decompress_exact id (json_dumps doc) w1 _ (section_dict doc) p sal ds
              H1 Fa1 Gs1 Ld eq_refl Ge eq_refl)
    as (w2 & ts2 & E2 & H2 & P2 & X2 & S2 & A2 & C2).
  { rewrite L1. exact Nx. }
  exists doc, w1, w2. eexists; eexists.
  split; [exact E|]. split; [exact E2|].
  split; [|split; [apply personal_kept|]].
  { eapply (sub_record_upserted PersonalDetails id (personal_native id p) _ w1 w2 rp).
    - rewrite Kp. exact Np.
    - reflexivity.
    - unfold sub_record, linked. rewrite Kp. exact Sp.
    - exact P2. }
  split; [|split; [apply salary_kept|]].
  { eapply (sub_record_upserted SalaryPreferences id (salary_native id sal) _ w1 w2 rs).
    - rewrite Ks. exact Ns.
    - reflexivity.
    - unfold sub_record, linked. rewrite Ks. exact Ss.
    - exact S2. }
  change (linked WorkExperience id w2)
    with (filter (record_matches "Applicant" id) (experience_rows w2)).
  rewrite (linked_after_replacement id _ ds (experience_rows w1) _ X2).
  rewrite created_records_fields. unfold ds. rewrite map_map. reflexivity.
Qed.

End CompressThenDecompress.
Section Drivers.

Import AirtableCompressor AirtableDecompressor.

(** X18.  The two batch drivers raise exactly when the listing of the
    applicants fails.  When the call of [get_all] fails in transport the
    error is logged and raised again and no table is touched; when it
    succeeds the driver returns normally, whatever happens to the
    applicants it goes through. *)
Theorem drivers_raise_only_on_listing (w : world) :
  (if fails w (calls w)
   then fst (compress_all_pending w) = Raise (HTTPError "transport failure") /\
        same_tables w (snd (compress_all_pending w)) /\
        log (snd (compress_all_pending w))
        = log w ++ [LogEntry ERROR ("Failed to compress pending applicants: "
                                      ++ transport_error_text)]
   else fst (compress_all_pending w) = Ret tt) /\
  (if fails w (calls w)
   then fst (decompress_all_modified w) = Raise (HTTPError "transport failure") /\
        same_tables w (snd (decompress_all_modified w)) /\
        log (snd (decompress_all_modified w))
        = log w ++ [LogEntry ERROR ("Failed to decompress modified applicants: "
                                      ++ transport_error_text)]
   else fst (decompress_all_modified w) = Ret tt).
Proof.
  unfold compress_all_pending, decompress_all_modified, get_all.
  destruct (fails w (calls w)) eqn:F; split.
  - erewrite try_raise; [|apply bind_raise; apply remote_fail; exact F].
    repeat split.
  - erewrite try_raise; [|apply bind_raise; apply remote_fail; exact F].
    repeat split.
  - unfold try_except, bind at 1. rewrite remote_ok by exact F.
    unfold bind at 1, logger at 1.
    match goal with |- context [compress_pending_loop ?l ?w0] =>
      pose proof (proj1 (compress_loop_run l w0)) as R;
      destruct (compress_pending_loop l w0) as [[[]|e] w'] end;
      [reflexivity | discriminate].
  - unfold try_except, bind at 1. rewrite remote_ok by exact F.
    unfold bind at 1, logger at 1.
    match goal with |- context [decompress_modified_loop ?l ?w0] =>
      pose proof (proj1 (decompress_loop_run l w0)) as R;
      destruct (decompress_modified_loop l w0) as [[[]|e] w'] end;
      [reflexivity | discriminate].
Qed.

End Drivers.
Section Evaluation.

Import AirtableCompressor LLMEvaluator.

(** X19.  [_update_applicant_record] writes all of an evaluation or
    nothing.  When the record of the applicant can be updated the six
    evaluation fields are set on it in one update and the method returns;
    when the update fails (transport failure, no such record) the error is
    logged and raised again and the four tables are as before. *)
Theorem evaluation_written_whole_or_not_at_all (id S : string) (ev : evaluation)
  (w : world) :
  match record_read id w with
  | Some r =>
      fst (_update_applicant_record id ev S w) = Ret tt /\
      exists follow issues_text evaluation_date,
        applicants_rows (snd (_update_applicant_record id ev S w)) =
        update_rows id
          [("LLM Summary", JStr (summary ev)); ("LLM Score", JNum (score ev));
           ("LLM Follow-Ups", JStr follow); ("LLM Issues", JStr issues_text);
           ("LLM Evaluation Date", JStr evaluation_date);
           ("Last JSON Hash", JStr (_hash_json S))]
          (applicants_rows w)
  | None =>
      (exists e, fst (_update_applicant_record id ev S w) = Raise e) /\
      same_tables w (snd (_update_applicant_record id ev S w))
  end.
Proof.
  unfold record_read, _update_applicant_record, update, remote. mstep.
  unfold now_isoformat. wsimpl.
  destruct (fails w (calls w)); mstep; wsimpl.
  - split; [eexists; reflexivity | intros []; reflexivity].
  - destruct (find (has_id id) (applicants_rows w)) as [r|]; mstep; wsimpl.
    + split; [reflexivity|]. do 3 eexists. reflexivity.
    + split; [eexists; reflexivity | intros []; reflexivity].
Qed.

(** X20.  Compressing again gives the same document.  While the transport
    works, a second run of [compress_applicant_data] returns and stores the
    document of the first run with a new [compressed_at] and nothing else
    changed: the document is a function of the three source tables, which
    a compression does not write. *)
Theorem compress_twice (id : string) (w : world) (rp rs ra : airtable_record) :
  healthy w ->
  sub_record PersonalDetails id w = Some rp ->
  sub_record SalaryPreferences id w = Some rs ->
  find (has_id id) (applicants_rows w) = Some ra ->
  exists w1 w2 t1 t2,
    compress_applicant_data id w =
      (Ret (Some (build_document (rec_fields rp)
                    (map rec_fields (linked WorkExperience id w)) (rec_fields rs) t1)), w1) /\
    compress_applicant_data id w1 =
      (Ret (Some (build_document (rec_fields rp)
                    (map rec_fields (linked WorkExperience id w)) (rec_fields rs) t2)), w2) /\
    stored id "Compressed JSON" w2 =
      JStr (json_dumps (build_document (rec_fields rp)
                          (map rec_fields (linked WorkExperience id w)) (rec_fields rs) t2)).
Proof.
  intros Hh Sp Ss Fa.
  destruct (compress_healthy id w rp rs ra Hh Sp Ss Fa) as (w1 & E1 & A1 & K1 & H1).
  assert (Sp1 : sub_record PersonalDetails id w1 = Some rp).
  { unfold sub_record, linked. rewrite K1 by discriminate. exact Sp. }
  assert (Ss1 : sub_record SalaryPreferences id w1 = Some rs).
  { unfold sub_record, linked. rewrite K1 by discriminate. exact Ss. }
  assert (Fa1 : find (has_id id) (applicants_rows w1) <> None).
  { rewrite A1, find_update_rows, Fa. discriminate. }
  destruct (find (has_id id) (applicants_rows w1)) as [ra1|] eqn:Fa1'; [|congruence].
  destruct (compress_healthy id w1 rp rs ra1 H1 Sp1 Ss1 Fa1') as (w2 & E2 & A2 & K2 & H2).
  assert (L : linked WorkExperience id w1 = linked WorkExperience id w).
  { unfold linked. rewrite K1 by discriminate. reflexivity. }
  rewrite L in E2, A2.
  exists w1, w2. do 2 eexists. split; [exact E1|]. split; [exact E2|].
  unfold stored. rewrite A2, find_update_rows, Fa1'. cbn [option_map].
  apply find_some in Fa1' as [_ ->]. cbn [rec_fields]. rewrite dict_get_update.
  reflexivity.
Qed.

Lemma compress_twice_witness :
  exists w1 w2 t1 t2,
    compress_applicant_data "recD" Example.steady =
      (Ret (Some (build_document (rec_fields (Example.personal_of "recP4" "Dan" "recD"))
                    (map rec_fields (linked WorkExperience "recD" Example.steady))
                    (rec_fields (Example.salary_of "recS4" "recD")) t1)), w1) /\
    compress_applicant_data "recD" w1 =
      (Ret (Some (build_document (rec_fields (Example.personal_of "recP4" "Dan" "recD"))
                    (map rec_fields (linked WorkExperience "recD" Example.steady))
                    (rec_fields (Example.salary_of "recS4" "recD")) t2)), w2) /\
    stored "recD" "Compressed JSON" w2 =
      JStr (json_dumps
              (build_document (rec_fields (Example.personal_of "recP4" "Dan" "recD"))
                 (map rec_fields (linked WorkExperience "recD" Example.steady))
                 (rec_fields (Example.salary_of "recS4" "recD")) t2)).
Proof.
  apply (compress_twice "recD" Example.steady
           (Example.personal_of "recP4" "Dan" "recD")
           (Example.salary_of "recS4" "recD") Example.applicant_D).
  - exact steady_healthy.
  - reflexivity.
  - reflexivity.
  - reflexivity.
Defined.

End Evaluation.
Section SummaryLength.

Import LLMEvaluator.

Lemma string_append_assoc (a b c : string) :
  ((a ++ b) ++ c = a ++ (b ++ c))%string.
Proof. induction a as [|x a IH]; cbn [String.append]; [reflexivity | rewrite IH; reflexivity]. Qed.




Lemma split_ws_from_nonempty_cur (s : string) (c : ascii) (cur : list ascii) :
  split_ws_from (c :: cur) s <> [].
Proof.
  revert c cur. induction s as [|x s IH]; intros c cur; cbn [split_ws_from].
  - discriminate.
  - destruct (py_isspace x); [discriminate | apply IH].
Qed.

Lemma string_append_nil (s : string) : (s ++ "")%string = s.
Proof. induction s as [|c s IH]; cbn [String.append]; [reflexivity | rewrite IH; reflexivity]. Qed.







End SummaryLength.
Section EvaluateApplicant.

Import LLMEvaluator.

Variable call_llm : json -> M (option evaluation).

Lemma needs_evaluation_run (id S : string) (w : world) (r : airtable_record) :
  fails w (calls w) = false ->
  find (has_id id) (applicants_rows w) = Some r ->
  _needs_evaluation id S w =
  (Ret (if negb (truthy (dict_get (rec_fields r) "LLM Summary" JNull)) then true
        else negb (py_eq (dict_get (rec_fields r) "Last JSON Hash" (JStr ""))
                     (JStr (_hash_json S)))),
   count_call w).
Proof.
  intros Hf F. unfold _needs_evaluation. apply try_ret.
  pose proof (get_cases Applicants id w) as G. rewrite Hf in G. cbn [rows] in G.
  rewrite F in G. rewrite (bind_run _ _ _ _ _ G).
  destruct (negb _); reflexivity.
Qed.

Lemma attempt_reads (id : string) (w : world) (r : airtable_record)
  (k : airtable_record -> M bool) (h : exn -> M bool) :
  fails w (calls w) = false ->
  find (has_id id) (applicants_rows w) = Some r ->
  try_except
    (bind (logger INFO ("Starting LLM evaluation for applicant " ++ id)) (fun _ =>
     bind (get Applicants id) k)) h w
  = try_except (k r) h
      (count_call (add_log (LogEntry INFO ("Starting LLM evaluation for applicant " ++ id)) w)).
Proof.
  intros Hf F. unfold try_except at 1, bind at 1, logger at 1.
  set (w0 := add_log _ w).
  pose proof (get_cases Applicants id w0) as G.
  change (fails w0 (calls w0)) with (fails w (calls w)) in G. rewrite Hf in G.
  change (rows Applicants w0) with (applicants_rows w) in G. rewrite F in G.
  rewrite (bind_run _ _ _ _ _ G). reflexivity.
Qed.

(** An attempt on an applicant whose evaluation is up to date: the record
    is read twice, nothing is written, and the language model is not
    asked. *)
Lemma attempt_up_to_date (id S : string) (w : world) (r : airtable_record) :
  fails w (calls w) = false ->
  fails w (1 + calls w) = false ->
  find (has_id id) (applicants_rows w) = Some r ->
  dict_get (rec_fields r) "Compressed JSON" JNull = JStr S ->
  truthy (dict_get (rec_fields r) "LLM Summary" JNull) = true ->
  dict_get (rec_fields r) "Last JSON Hash" (JStr "") = JStr (_hash_json S) ->
  evaluate_applicant_attempt call_llm id w =
  (Ret true,
   add_log (LogEntry INFO ("Applicant " ++ id ++ " already has up-to-date LLM evaluation"))
     (count_call (count_call
        (add_log (LogEntry INFO ("Starting LLM evaluation for applicant " ++ id)) w)))).
Proof.
  intros F0 F1 Fr Gs Ts Gh. unfold evaluate_applicant_attempt.
  rewrite (attempt_reads id w r _ _ F0 Fr).
  rewrite (dict_mem_of_get _ _ _ Gs) by discriminate. cbn [negb]. rewrite Gs.
  apply try_ret. unfold _needs_evaluation_of.
  erewrite bind_run; [|apply (needs_evaluation_run id S _ r); [exact F1 | exact Fr]].
  rewrite Ts, Gh. cbn [negb py_eq]. rewrite String.eqb_refl. reflexivity.
Qed.

(** X22.  Without a document there is nothing to evaluate: when the record
    of the applicant is read and has no 'Compressed JSON',
    [evaluate_applicant] answers [False] at its first attempt, whatever the
    language model would say, and the four tables are as before. *)
Theorem evaluate_without_document (id : string) (w : world) (r : airtable_record) :
  fails w (calls w) = false ->
  find (has_id id) (applicants_rows w) = Some r ->
  dict_mem "Compressed JSON" (rec_fields r) = false ->
  fst (evaluate_applicant call_llm id w) = Returned false /\
  same_tables w (snd (evaluate_applicant call_llm id w)) /\
  calls (snd (evaluate_applicant call_llm id w)) = 1 + calls w.
Proof.
  intros F0 Fr Dm. unfold evaluate_applicant, retry, evaluate_applicant_attempt.
  rewrite (attempt_reads id w r _ _ F0 Fr), Dm. cbn [negb].
  unfold try_except, bind, logger, ret. cbn [fst snd].
  split; [reflexivity|]. split; [intros []; reflexivity | reflexivity].
Qed.

End EvaluateApplicant.

Section EvaluateApplicantSkips.

Import LLMEvaluator.

(** X23.  An evaluation that is up to date is not redone.  When the record
    of the applicant carries a non-empty summary and the digest of the very
    document it carries, [evaluate_applicant] answers [True] at its first
    attempt after two reads of the record; it writes no table, and its
    outcome and the world it leaves are the same whatever the language
    model would answer. *)
Theorem evaluate_skips_up_to_date (call_llm : json -> M (option evaluation))
  (id S : string) (w : world) (r : airtable_record) :
  fails w (calls w) = false ->
  fails w (1 + calls w) = false ->
  find (has_id id) (applicants_rows w) = Some r ->
  dict_get (rec_fields r) "Compressed JSON" JNull = JStr S ->
  truthy (dict_get (rec_fields r) "LLM Summary" JNull) = true ->
  dict_get (rec_fields r) "Last JSON Hash" (JStr "") = JStr (_hash_json S) ->
  fst (evaluate_applicant call_llm id w) = Returned true /\
  same_tables w (snd (evaluate_applicant call_llm id w)) /\
  forall other_llm, evaluate_applicant other_llm id w = evaluate_applicant call_llm id w.
Proof.
  intros F0 F1 Fr Gs Ts Gh.
  assert (E : forall c, evaluate_applicant c id w =
                (Returned true,
                 add_log (LogEntry INFO ("Applicant " ++ id
                                           ++ " already has up-to-date LLM evaluation"))
                   (count_call (count_call
                      (add_log (LogEntry INFO ("Starting LLM evaluation for applicant "
                                                 ++ id)) w))))).
  { intros c. unfold evaluate_applicant, retry.
    rewrite (attempt_up_to_date c id S w r F0 F1 Fr Gs Ts Gh). reflexivity. }
  rewrite (E call_llm). split; [reflexivity|]. split; [intros []; reflexivity|].
  intros other. apply E.
Qed.

End EvaluateApplicantSkips.
Section EvaluateApplicantRuns.

Import LLMEvaluator.

Variable call_llm : json -> M (option evaluation).

(** An attempt up to the request to the language model, for a document
    that is due. *)
Lemma attempt_due (id S : string) (w : world) (r : airtable_record) :
  healthy w ->
  find (has_id id) (applicants_rows w) = Some r ->
  dict_get (rec_fields r) "Compressed JSON" JNull = JStr S ->
  evaluation_due r S = true ->
  evaluate_applicant_attempt call_llm id w =
  try_except
    (applicant_data <- lift (json_loads S) ;;
     evaluation_result <- call_llm applicant_data ;;
     match evaluation_result with
     | None => ret false
     | Some result =>
         _update_applicant_record id result S ;;
         logger INFO ("Successfully completed LLM evaluation for applicant " ++ id) ;;
         ret true
     end)
    (fun e =>
       logger ERROR ("Failed LLM evaluation for applicant " ++ id ++ ": " ++ str_exn e) ;;
       raise e)
    (count_call (count_call
       (add_log (LogEntry INFO ("Starting LLM evaluation for applicant " ++ id)) w))).
Proof.
  intros Hh Fr Gs Du. unfold evaluate_applicant_attempt.
  rewrite (attempt_reads id w r _ _ (Hh _) Fr).
  rewrite (dict_mem_of_get _ _ _ Gs) by discriminate. cbn [negb]. rewrite Gs.
  unfold _needs_evaluation_of. unfold try_except.
  erewrite bind_run; [|apply (needs_evaluation_run id S _ r); [apply Hh | exact Fr]].
  fold (evaluation_due r S). rewrite Du. cbn [negb py_json_loads]. reflexivity.
Qed.

Lemma attempt_unparseable (id S : string) (w : world) (r : airtable_record) (e : exn) :
  healthy w ->
  find (has_id id) (applicants_rows w) = Some r ->
  dict_get (rec_fields r) "Compressed JSON" JNull = JStr S ->
  evaluation_due r S = true ->
  json_loads S = Raise e ->
  evaluate_applicant_attempt call_llm id w = (Raise e, after_failed_attempt id (str_exn e) w).
Proof.
  intros Hh Fr Gs Du Ld.
  rewrite (attempt_due id S w r Hh Fr Gs Du).
  unfold try_except, bind at 1, lift at 1. rewrite Ld. reflexivity.
Qed.

(** X24.  A document that [json.loads] rejects costs three attempts.  While
    the transport works, for an applicant whose document is due and whose
    text ends the parser in a decode error, every attempt of
    [evaluate_applicant] reads the record twice, fails in [json.loads] and
    logs the failure with the text of the error, the same at each attempt;
    after the third the caller gets the [RetryError] around a decode
    error.  No table is written and the language model is never asked. *)
Theorem evaluate_unparseable_document (id S m : string) (w : world)
  (r : airtable_record) :
  healthy w ->
  find (has_id id) (applicants_rows w) = Some r ->
  dict_get (rec_fields r) "Compressed JSON" JNull = JStr S ->
  evaluation_due r S = true ->
  json_loads S = Raise (JSONDecodeError m) ->
  exists m' msg,
    evaluate_applicant call_llm id w =
      (RetryError (JSONDecodeError m'),
       after_failed_attempt id msg
         (after_failed_attempt id msg (after_failed_attempt id msg w))) /\
    same_tables w (snd (evaluate_applicant call_llm id w)) /\
    calls (snd (evaluate_applicant call_llm id w)) = 6 + calls w.
Proof.
  intros Hh Fr Gs Du Ld.
  set (e := JSONDecodeError m) in *.
  assert (A : forall w0, healthy w0 -> applicants_rows w0 = applicants_rows w ->
                evaluate_applicant_attempt call_llm id w0
                = (Raise e, after_failed_attempt id (str_exn e) w0)).
  { intros w0 H0 R0. apply (attempt_unparseable id S w0 r e H0); auto.
    rewrite R0. exact Fr. }
  assert (E : evaluate_applicant call_llm id w =
                (RetryError e,
                 after_failed_attempt id (str_exn e)
                   (after_failed_attempt id (str_exn e)
                      (after_failed_attempt id (str_exn e) w)))).
  { unfold evaluate_applicant, retry. rewrite (A w Hh eq_refl).
    cbn [Nat.sub retry_after].
    rewrite (A (after_failed_attempt id (str_exn e) w)) by (try exact Hh; reflexivity).
    rewrite (A (after_failed_attempt id (str_exn e)
                  (after_failed_attempt id (str_exn e) w)))
      by (try exact Hh; reflexivity).
    reflexivity. }
  exists m, (str_exn e).
  rewrite E. split; [reflexivity|]. split; [intros []; reflexivity | reflexivity].
Qed.

(** X25.  When the language model gives no evaluation nothing is written:
    while the transport works, for a document that is due and parses, and
    a request to the model that comes back with [None],
    [evaluate_applicant] answers [False] at its first attempt and the four
    tables are as before. *)
Theorem evaluate_without_answer (id S : string) (w : world)
  (r : airtable_record) (data : json) :
  healthy w ->
  find (has_id id) (applicants_rows w) = Some r ->
  dict_get (rec_fields r) "Compressed JSON" JNull = JStr S ->
  evaluation_due r S = true ->
  json_loads S = Ret data ->
  llm_answers call_llm data None ->
  fst (evaluate_applicant call_llm id w) = Returned false /\
  same_tables w (snd (evaluate_applicant call_llm id w)).
Proof.
  intros Hh Fr Gs Du Ld La.
  set (w0 := count_call (count_call
       (add_log (LogEntry INFO ("Starting LLM evaluation for applicant " ++ id)) w))).
  destruct (La w0) as (R & T & _).
  destruct (call_llm data w0) as [o wl] eqn:El. cbn [fst snd] in R, T. subst o.
  assert (E : evaluate_applicant call_llm id w = (Returned false, wl)).
  { unfold evaluate_applicant, retry.
    rewrite (attempt_due id S w r Hh Fr Gs Du). fold w0.
    unfold try_except, bind at 1, lift at 1. rewrite Ld.
    unfold bind at 1. rewrite El. reflexivity. }
  rewrite E. split; [reflexivity|]. intros t. cbn [snd]. rewrite (T t).
  destruct t; reflexivity.
Qed.

(** X26.  An evaluation is recorded once.  While the transport works, for
    a document that is due and parses, and a language model that answers
    with an evaluation whose summary is not empty: [evaluate_applicant]
    answers [True], the record of the applicant then carries the summary,
    the score and the digest of the document text, the other three tables
    are as before, and a second call answers [True] without a write (the
    evaluation being up to date), whatever the model would answer then. *)
Theorem evaluate_records_once (id S : string) (w : world)
  (r : airtable_record) (data : json) (ev : evaluation) :
  healthy w ->
  find (has_id id) (applicants_rows w) = Some r ->
  dict_get (rec_fields r) "Compressed JSON" JNull = JStr S ->
  evaluation_due r S = true ->
  json_loads S = Ret data ->
  llm_answers call_llm data (Some ev) ->
  summary ev <> EmptyString ->
  exists w1,
    evaluate_applicant call_llm id w = (Returned true, w1) /\
    stored id "LLM Summary" w1 = JStr (summary ev) /\
    stored id "LLM Score" w1 = JNum (score ev) /\
    stored id "Last JSON Hash" w1 = JStr (_hash_json S) /\
    (forall t, t <> Applicants -> rows t w1 = rows t w) /\
    forall other_llm,
      fst (evaluate_applicant other_llm id w1) = Returned true /\
      same_tables w1 (snd (evaluate_applicant other_llm id w1)).
Proof.
  intros Hh Fr Gs Du Ld La Ns.
  set (w0 := count_call (count_call
       (add_log (LogEntry INFO ("Starting LLM evaluation for applicant " ++ id)) w))).
  destruct (La w0) as (R & T & Ff).
  destruct (call_llm data w0) as [o wl] eqn:El. cbn [fst snd] in R, T, Ff. subst o.
  assert (Hl : healthy wl) by (intros n; rewrite Ff; apply Hh).
  assert (Fl : find (has_id id) (applicants_rows wl) = Some r).
  { change (applicants_rows wl) with (rows Applicants wl). rewrite (T Applicants). exact Fr. }
  pose proof (update_run Applicants id
                [("LLM Summary", JStr (summary ev)); ("LLM Score", JNum (score ev));
                 ("LLM Follow-Ups",
                  JStr (String.concat (chr LF)
                          (map (fun q => (bullet ++ " " ++ q)%string) (follow_ups ev))));
                 ("LLM Issues",
                  JStr (match issues ev with
                        | [] => "None"
                        | _ => String.concat ", " (issues ev)
                        end));
                 ("LLM Evaluation Date", JStr (clock wl (ticks wl)));
                 ("Last JSON Hash", JStr (_hash_json S))]
                (count_tick wl) r Hl Fl) as U.
  eexists. split; [|split; [|split; [|split; [|split]]]].
  - unfold evaluate_applicant, retry.
    rewrite (attempt_due id S w r Hh Fr Gs Du). fold w0.
    unfold try_except, bind at 1, lift at 1. rewrite Ld.
    unfold bind at 1. rewrite El.
    unfold bind at 1, _update_applicant_record, try_except.
    unfold bind at 1, now_isoformat at 1.
    rewrite (bind_run _ _ _ _ _ U). reflexivity.
  - unfold stored. wsimpl. rewrite find_update_rows, Fl. cbn [option_map].
    pose proof Fl as Fl'. apply find_some in Fl' as [_ ->]. cbn [rec_fields].
    rewrite dict_get_update. reflexivity.
  - unfold stored. wsimpl. rewrite find_update_rows, Fl. cbn [option_map].
    pose proof Fl as Fl'. apply find_some in Fl' as [_ ->]. cbn [rec_fields].
    rewrite dict_get_update. reflexivity.
  - unfold stored. wsimpl. rewrite find_update_rows, Fl. cbn [option_map].
    pose proof Fl as Fl'. apply find_some in Fl' as [_ ->]. cbn [rec_fields].
    rewrite dict_get_update. reflexivity.
  - intros t Nt. destruct t; try congruence; wsimpl.
    + apply (T PersonalDetails).
    + apply (T WorkExperience).
    + apply (T SalaryPreferences).
  - intros other.
    match goal with |- context [evaluate_applicant other id ?x] => set (w1 := x) end.
    assert (F1 : find (has_id id) (applicants_rows w1)
                 = Some (Rec (rec_id r) (dict_update (rec_fields r)
                      [("LLM Summary", JStr (summary ev)); ("LLM Score", JNum (score ev));
                       ("LLM Follow-Ups",
                        JStr (String.concat (chr LF)
                                (map (fun q => (bullet ++ " " ++ q)%string) (follow_ups ev))));
                       ("LLM Issues",
                        JStr (match issues ev with
                              | [] => "None"
                              | _ => String.concat ", " (issues ev)
                              end));
                       ("LLM Evaluation Date", JStr (clock wl (ticks wl)));
                       ("Last JSON Hash", JStr (_hash_json S))]))).
    { unfold w1. wsimpl. rewrite find_update_rows, Fl. cbn [option_map].
      pose proof Fl as Fl'. apply find_some in Fl' as [_ ->]. reflexivity. }
    assert (H1 : healthy w1) by (intros n; unfold w1; wsimpl; apply Hl).
    unfold evaluate_applicant, retry.
    rewrite (attempt_up_to_date other id S w1 _ (H1 _) (H1 _) F1).
    + split; [reflexivity | intros []; reflexivity].
    + cbn [rec_fields]. rewrite dict_get_update. exact Gs.
    + cbn [rec_fields]. rewrite dict_get_update.
      cbn [rev app dict_get String.eqb Ascii.eqb Bool.eqb truthy].
      apply negb_true_iff. apply String.eqb_neq. exact Ns.
    + cbn [rec_fields]. rewrite dict_get_update. reflexivity.
Qed.

End EvaluateApplicantRuns.
Section EvaluateWitnesses.

Import LLMEvaluator.

Lemma evaluate_without_document_witness :
  fst (evaluate_applicant silent_llm "recE" Example.steady) = Returned false /\
  same_tables Example.steady (snd (evaluate_applicant silent_llm "recE" Example.steady)) /\
  calls (snd (evaluate_applicant silent_llm "recE" Example.steady))
  = 1 + calls Example.steady.
Proof.
  apply (evaluate_without_document silent_llm "recE" Example.steady Example.applicant_E).
  - reflexivity.
  - reflexivity.
  - reflexivity.
Defined.

Lemma evaluate_skips_up_to_date_witness :
  fst (evaluate_applicant silent_llm "recA" Scenario.evaluated) = Returned true /\
  same_tables Scenario.evaluated
    (snd (evaluate_applicant silent_llm "recA" Scenario.evaluated)) /\
  forall other_llm,
    evaluate_applicant other_llm "recA" Scenario.evaluated
    = evaluate_applicant silent_llm "recA" Scenario.evaluated.
Proof.
  eapply (evaluate_skips_up_to_date silent_llm "recA" Example.text_A Scenario.evaluated).
  - reflexivity.
  - reflexivity.
  - vm_compute. reflexivity.
  - vm_compute. reflexivity.
  - vm_compute. reflexivity.
  - vm_compute. reflexivity.
Defined.

Lemma evaluate_unparseable_document_witness :
  exists m' msg,
    evaluate_applicant silent_llm "recU" Garbled.base =
      (RetryError (JSONDecodeError m'),
       after_failed_attempt "recU" msg
         (after_failed_attempt "recU" msg (after_failed_attempt "recU" msg Garbled.base))) /\
    same_tables Garbled.base (snd (evaluate_applicant silent_llm "recU" Garbled.base)) /\
    calls (snd (evaluate_applicant silent_llm "recU" Garbled.base)) = 6 + calls Garbled.base.
Proof.
  apply (evaluate_unparseable_document silent_llm "recU" "not a document"
           "Expecting value" Garbled.base Garbled.applicant).
  - intros n. reflexivity.
  - reflexivity.
  - reflexivity.
  - reflexivity.
  - vm_compute. reflexivity.
Defined.

Lemma silent_llm_answers (data : json) : llm_answers silent_llm data None.
Proof. intros w. repeat split. Defined.

Lemma constant_llm_answers (ev : evaluation) (data : json) :
  llm_answers (constant_llm ev) data (Some ev).
Proof. intros w. repeat split. Defined.

Lemma evaluate_without_answer_witness :
  fst (evaluate_applicant silent_llm "recA" Example.steady) = Returned false /\
  same_tables Example.steady (snd (evaluate_applicant silent_llm "recA" Example.steady)).
Proof.
  apply (evaluate_without_answer silent_llm "recA" Example.text_A Example.steady
           Example.applicant_A (Document.to_json Example.doc_A)).
  - exact steady_healthy.
  - reflexivity.
  - reflexivity.
  - reflexivity.
  - vm_compute. reflexivity.
  - apply silent_llm_answers.
Defined.

Lemma evaluate_records_once_witness :
  exists w1,
    evaluate_applicant (constant_llm Scenario.review) "recA" Example.steady
    = (Returned true, w1) /\
    stored "recA" "LLM Summary" w1 = JStr (summary Scenario.review) /\
    stored "recA" "LLM Score" w1 = JNum (score Scenario.review) /\
    stored "recA" "Last JSON Hash" w1 = JStr (_hash_json Example.text_A) /\
    (forall t, t <> Applicants -> rows t w1 = rows t Example.steady) /\
    forall other_llm,
      fst (evaluate_applicant other_llm "recA" w1) = Returned true /\
      same_tables w1 (snd (evaluate_applicant other_llm "recA" w1)).
Proof.
  apply (evaluate_records_once (constant_llm Scenario.review) "recA" Example.text_A
           Example.steady Example.applicant_A (Document.to_json Example.doc_A)).
  - exact steady_healthy.
  - reflexivity.
  - reflexivity.
  - reflexivity.
  - vm_compute. reflexivity.
  - apply constant_llm_answers.
  - discriminate.
Defined.

End EvaluateWitnesses.
Section JsonStrings.

Lemma utf8_decode_ascii (s : string) :
  ascii_text s = true ->
  utf8_decode s 0 0%N = map N_of_ascii (list_ascii_of_string s).
Proof.
  unfold ascii_text. induction s as [|c s IH]; cbn [list_ascii_of_string forallb map utf8_decode];
    intros H; [reflexivity|].
  apply andb_true_iff in H as [Hc H]. rewrite Hc, (IH H). reflexivity.
Qed.

(** One character of the text, as the printer escapes it, is read back as
    that character. *)
Lemma scanstring_escaped (c : ascii) (fuel : nat) (tail : string) :
  (N_of_ascii c <? 128)%N = true ->
  scanstring (S fuel) (escape_cp (N_of_ascii c) ++ tail) =
  obind (scanstring fuel tail) (fun r => Ret (String c (fst r), snd r)).
Proof.
  destruct c as [b0 b1 b2 b3 b4 b5 b6 b7].
  destruct b7; [destruct b0, b1, b2, b3, b4, b5, b6; discriminate|].
  intros _.
  destruct b0, b1, b2, b3, b4, b5, b6; reflexivity.
Qed.

Lemma escape_cp_not_empty (n : N) : 1 <= String.length (escape_cp n).
Proof.
  unfold escape_cp.
  repeat match goal with |- context [if ?b then _ else _] => destruct b end;
    cbn; lia.
Qed.

Lemma string_length_append (a b : string) :
  String.length (a ++ b) = String.length a + String.length b.
Proof. induction a as [|c a IH]; cbn [String.append String.length]; [reflexivity | rewrite IH; reflexivity]. Qed.

Lemma concat_empty_cons (x : string) (l : list string) :
  String.concat EmptyString (x :: l) = (x ++ String.concat EmptyString l)%string.
Proof.
  destruct l as [|y l]; cbn [String.concat].
  - induction x as [|c x IH]; cbn [String.append]; [reflexivity | rewrite <- IH; reflexivity].
  - reflexivity.
Qed.

Lemma escaped_cons (c : ascii) (s : string) :
  escaped (String c s) = (escape_cp (N_of_ascii c) ++ escaped s)%string.
Proof. unfold escaped. cbn [list_ascii_of_string map]. apply concat_empty_cons. Qed.

Lemma escaped_length (s : string) : String.length s <= String.length (escaped s).
Proof.
  induction s as [|c s IH]; [cbn; lia|].
  rewrite escaped_cons, string_length_append. cbn [String.length].
  pose proof (escape_cp_not_empty (N_of_ascii c)). lia.
Qed.

(** The text between the quotes is read back, up to the closing quote. *)
Lemma scanstring_encoded (s rest : string) (fuel : nat) :
  ascii_text s = true -> String.length s < fuel ->
  scanstring fuel (escaped s ++ String DQ rest) = Ret (s, rest).
Proof.
  unfold ascii_text. revert fuel.
  induction s as [|c s IH]; intros fuel H L.
  - destruct fuel as [|fuel]; [cbn in L; lia|]. reflexivity.
  - cbn [list_ascii_of_string forallb] in H. apply andb_true_iff in H as [Hc H].
    destruct fuel as [|fuel]; [cbn in L; lia|].
    rewrite escaped_cons, string_append_assoc, (scanstring_escaped c fuel _ Hc).
    rewrite (IH fuel H) by (cbn [String.length] in L; lia). reflexivity.
Qed.

Lemma encode_ascii (s : string) :
  ascii_text s = true ->
  encode_basestring_ascii s = String DQ (escaped s ++ String DQ EmptyString).
Proof.
  intros H. unfold encode_basestring_ascii. rewrite (utf8_decode_ascii s H). reflexivity.
Qed.

End JsonStrings.
Section JsonNumbers.

Import Decimal.

Lemma closes_value_number (rest : string) :
  closes_value rest -> starts_with_digit rest = false /\ float_tail rest = false.
Proof.
  intros [-> | (r & [-> | ->])]; split; reflexivity.
Qed.

Lemma scan_digits_stop (rest : string) (acc : Z) :
  starts_with_digit rest = false -> scan_digits rest acc = (acc, rest).
Proof.
  destruct rest as [|c r]; cbn [starts_with_digit scan_digits]; [reflexivity|].
  intros ->. reflexivity.
Qed.

Lemma scan_digits_uint (d : uint) (rest : string) (acc : positive) :
  starts_with_digit rest = false ->
  scan_digits (NilEmpty.string_of_uint d ++ rest) (Zpos acc)
  = (Zpos (Pos.of_uint_acc d acc), rest).
Proof.
  intros H. revert acc.
  induction d as [|d IH|d IH|d IH|d IH|d IH|d IH|d IH|d IH|d IH|d IH]; intros acc;
    cbn [NilEmpty.string_of_uint String.append Pos.of_uint_acc];
    [apply scan_digits_stop; exact H|..];
    (match goal with
     | |- scan_digits (String ?c ?s) ?a = _ =>
         let v := eval vm_compute in (Z.of_N (N_of_ascii c - 48)) in
         change (scan_digits (String c s) a) with (scan_digits s (a * 10 + v)%Z)
     end;
     match goal with
     | |- scan_digits _ ?a = (Zpos (Pos.of_uint_acc _ ?b), _) =>
         replace a with (Zpos b) by lia
     end;
     apply IH).
Qed.

Lemma nzhead_head (d : uint) :
  match nzhead d with D0 _ => False | _ => True end.
Proof. induction d; cbn [nzhead]; auto. Qed.

Lemma to_uint_head (p : positive) :
  match Pos.to_uint p with Nil | D0 _ => False | _ => True end.
Proof.
  pose proof (DecimalPos.Unsigned.to_of (Pos.to_uint p)) as E.
  rewrite DecimalPos.Unsigned.of_to in E. cbn [N.to_uint] in E.
  pose proof (DecimalPos.Unsigned.to_uint_nonzero p) as Z0.
  pose proof (DecimalPos.Unsigned.to_uint_nonnil p) as Z1.
  destruct (Pos.to_uint p) as [|u|u|u|u|u|u|u|u|u|u]; try exact I.
  - apply Z1. reflexivity.
  - unfold unorm in E. cbn [nzhead] in E. pose proof (nzhead_head u) as Hn.
    destruct (nzhead u); try discriminate; try destruct Hn.
    apply Z0. exact E.
Qed.

Lemma scan_unsigned (p : positive) (rest : string) :
  closes_value rest ->
  exists c t,
    (NilEmpty.string_of_uint (Pos.to_uint p) ++ rest)%string = String c t /\
    Ascii.eqb c "0" = false /\ Ascii.eqb c "-" = false /\ is_digit c = true /\
    scan_digits (String c t) 0 = (Zpos p, rest).
Proof.
  intros C. destruct (closes_value_number rest C) as [Hd _].
  pose proof (to_uint_head p) as Hh.
  pose proof (DecimalPos.Unsigned.of_to p) as E.
  destruct (Pos.to_uint p) as [|u|u|u|u|u|u|u|u|u|u]; try destruct Hh;
    cbn [Pos.of_uint] in E; injection E as E;
    cbn [NilEmpty.string_of_uint String.append];
    (eexists; eexists; split; [reflexivity|]);
    (split; [reflexivity|]); (split; [reflexivity|]); (split; [reflexivity|]);
    match goal with
    | |- scan_digits (String ?c ?s) ?a = _ =>
        let v := eval vm_compute in (a * 10 + Z.of_N (N_of_ascii c - 48))%Z in
        change (scan_digits (String c s) a) with (scan_digits s v)
    end;
    rewrite (scan_digits_uint u rest _ Hd), E; reflexivity.
Qed.

(** A printed integer is read back, when a comma, a line break or the end
    of the text follows. *)
Lemma scan_number_printed (z : Z) (rest : string) :
  closes_value rest -> scan_number (str_Z z ++ rest) = Ret (JNum z, rest).
Proof.
  intros C. destruct (closes_value_number rest C) as [Hd Hf].
  unfold str_Z. destruct z as [|p|p]; cbn [Z.to_int NilZero.string_of_int].
  - cbn. rewrite Hf. reflexivity.
  - destruct (scan_unsigned p rest C) as (c & t & E & N0 & Nm & D & Sd).
    assert (Q : NilZero.string_of_uint (Pos.to_uint p)
                = NilEmpty.string_of_uint (Pos.to_uint p)).
    { pose proof (to_uint_head p). destruct (Pos.to_uint p); try reflexivity. contradiction. }
    rewrite Q, E. unfold scan_number.
    destruct c as [b0 b1 b2 b3 b4 b5 b6 b7].
    destruct b0, b1, b2, b3, b4, b5, b6, b7; try discriminate;
      cbv beta iota; rewrite Sd, Hf; reflexivity.
  - destruct (scan_unsigned p rest C) as (c & t & E & N0 & Nm & D & Sd).
    assert (Q : NilZero.string_of_uint (Pos.to_uint p)
                = NilEmpty.string_of_uint (Pos.to_uint p)).
    { pose proof (to_uint_head p). destruct (Pos.to_uint p); try reflexivity. contradiction. }
    rewrite Q. cbn [String.append]. rewrite E. unfold scan_number.
    change (Ascii.Ascii true false true true false true false false) with "-"%char.
    cbv beta iota.
    assert (P : String.prefix "Infinity" (String c t) = false).
    { destruct c as [b0 b1 b2 b3 b4 b5 b6 b7].
      destruct b0, b1, b2, b3, b4, b5, b6, b7; try discriminate D; reflexivity. }
    rewrite P, N0, D, Sd, Hf. reflexivity.
Qed.

End JsonNumbers.
Section JsonStructure.

Lemma skip_ws_spaces (n : nat) (x : string) : skip_ws (spaces n ++ x) = skip_ws x.
Proof. induction n as [|n IH]; [reflexivity|]. cbn [spaces String.append skip_ws]. exact IH. Qed.

Lemma skip_ws_newline (lvl : nat) (x : string) :
  skip_ws (newline_indent lvl ++ x) = skip_ws x.
Proof.
  unfold newline_indent. cbn [String.append skip_ws].
  change (is_json_ws LF) with true. cbv iota. apply skip_ws_spaces.
Qed.

Lemma skip_ws_value (s : string) : starts_value s -> skip_ws s = s.
Proof.
  destruct s as [|c s]; [intros []|]. intros (H & _). cbn [skip_ws]. rewrite H. reflexivity.
Qed.

Lemma closes_newline (lvl : nat) (x : string) : closes_value (newline_indent lvl ++ x).
Proof. right. eexists. right. reflexivity. Qed.

Lemma closes_comma (x : string) : closes_value (String "," x).
Proof. right. eexists. left. reflexivity. Qed.

(** A printed number starts with a digit or a minus sign. *)
Lemma str_Z_head (z : Z) (rest : string) :
  exists c t, (str_Z z ++ rest)%string = String c t /\
              (is_digit c = true \/ c = "-"%char).
Proof.
  unfold str_Z. destruct z as [|p|p]; cbn [Z.to_int NilZero.string_of_int].
  - eexists; eexists. split; [reflexivity | left; reflexivity].
  - assert (Q : NilZero.string_of_uint (Pos.to_uint p)
                = NilEmpty.string_of_uint (Pos.to_uint p)).
    { pose proof (to_uint_head p). destruct (Pos.to_uint p); try reflexivity. contradiction. }
    rewrite Q. pose proof (to_uint_head p) as H.
    destruct (Pos.to_uint p); try destruct H; cbn [NilEmpty.string_of_uint String.append];
      (eexists; eexists; split; [reflexivity | left; reflexivity]).
  - eexists; eexists. split; [reflexivity | right; reflexivity].
Qed.

Lemma scan_value_number (fuel : nat) (c : ascii) (t : string) :
  is_digit c = true \/ c = "-"%char ->
  scan_value (S fuel) (String c t) = scan_number (String c t).
Proof.
  intros [H | ->]; [|reflexivity].
  destruct c as [b0 b1 b2 b3 b4 b5 b6 b7].
  destruct b0, b1, b2, b3, b4, b5, b6, b7; try discriminate; reflexivity.
Qed.

Lemma digit_starts_value (c : ascii) :
  is_digit c = true \/ c = "-"%char ->
  is_json_ws c = false /\ Ascii.eqb c "]" = false /\ Ascii.eqb c "}" = false.
Proof.
  intros [H | ->]; [|repeat split].
  destruct c as [b0 b1 b2 b3 b4 b5 b6 b7].
  destruct b0, b1, b2, b3, b4, b5, b6, b7; try discriminate; repeat split.
Qed.

(** The text of a value starts with a character of a value. *)
Lemma dumps_starts_value (lvl : nat) (v : json) (rest : string) :
  starts_value (dumps_at lvl v ++ rest).
Proof.
  destruct v as [|[]|z|s|[|x l]|[|kv d]]; try (cbn; repeat split; fail).
  - cbn [dumps_at]. destruct (str_Z_head z rest) as (c & t & -> & H).
    apply digit_starts_value. exact H.
Qed.

End JsonStructure.
Section JsonLists.

Lemma concat_cons_cons (sep a b : string) (l : list string) :
  String.concat sep (a :: b :: l) = (a ++ sep ++ String.concat sep (b :: l))%string.
Proof. reflexivity. Qed.

Lemma concat_head (sep a : string) (l : list string) :
  exists s1, String.concat sep (a :: l) = (a ++ s1)%string.
Proof.
  destruct l as [|b l].
  - exists EmptyString. cbn [String.concat].
    induction a as [|c a IH]; [reflexivity|]. cbn [String.append]. rewrite <- IH. reflexivity.
  - eexists. apply concat_cons_cons.
Qed.

Lemma elements_start (lvl : nat) (x : json) (l : list json) (sep tail : string) :
  starts_value (String.concat sep (map (dumps_at lvl) (x :: l)) ++ tail).
Proof.
  cbn [map]. destruct (concat_head sep (dumps_at lvl x) (map (dumps_at lvl) l)) as (s1 & ->).
  rewrite string_append_assoc. apply dumps_starts_value.
Qed.

Lemma scan_elements_printed (n : nat) (lvl lvl' : nat) (rest : string) :
  scans_back n ->
  forall (l : list json) (fuel : nat),
    l <> [] ->
    Forall (fun x => nodes x <= n) l -> forallb printable l = true ->
    weight l <= fuel ->
    scan_elements fuel
      (String.concat ("," ++ newline_indent lvl) (map (dumps_at lvl) l)
       ++ (newline_indent lvl' ++ String "]" rest))
    = Ret (l, rest).
Proof.
  intros IH. induction l as [|x l IHl]; intros fuel N F P W; [congruence|].
  apply Forall_cons_iff in F as [Fx F]. cbn [forallb] in P.
  apply andb_true_iff in P as [Px P].
  unfold weight in W. cbn [fold_right] in W. fold (weight l) in W.
  destruct fuel as [|fuel]; [lia|]. cbn [scan_elements].
  destruct l as [|y l].
  - cbn [map String.concat].
    rewrite (IH x lvl _ fuel Fx Px ltac:(lia) (closes_newline _ _)).
    cbn [obind]. rewrite skip_ws_newline. reflexivity.
  - cbn [map]. rewrite concat_cons_cons, !string_append_assoc.
    cbn [String.append].
    rewrite (IH x lvl _ fuel Fx Px ltac:(lia) (closes_comma _)).
    cbn [obind]. cbn [skip_ws]. change (is_json_ws ",") with false. cbv iota.
    rewrite skip_ws_newline, skip_ws_value by apply elements_start.
    pose proof (IHl fuel ltac:(discriminate) F P ltac:(lia)) as E.
    cbn [map String.append] in E |- *. rewrite E. reflexivity.
Qed.

End JsonLists.
Section JsonObjects.

Lemma member_text_ascii (lvl : nat) (k : string) (x : json) (tail : string) :
  ascii_text k = true ->
  (member_text lvl (k, x) ++ tail)%string
  = String DQ (escaped k ++ String DQ (String ":" (String " " (dumps_at lvl x ++ tail)))).
Proof.
  intros H. unfold member_text. rewrite (encode_ascii k H).
  cbn [String.append]. rewrite !string_append_assoc. cbn [String.append].
  rewrite ?string_append_assoc. reflexivity.
Qed.

Lemma members_start (lvl : nat) (kv : string * json) (d : dict) (sep tail : string) :
  ascii_text (fst kv) = true ->
  starts_value (String.concat sep (map (member_text lvl) (kv :: d)) ++ tail).
Proof.
  intros H. cbn [map]. destruct kv as [k x].
  destruct (concat_head sep (member_text lvl (k, x)) (map (member_text lvl) d)) as (s1 & ->).
  rewrite string_append_assoc, (member_text_ascii lvl k x _ H). repeat split.
Qed.

Lemma scan_members_printed (n : nat) (lvl lvl' : nat) (rest : string) :
  scans_back n ->
  forall (d : dict) (acc : dict) (fuel : nat),
    d <> [] ->
    Forall (fun kv => nodes (snd kv) <= n) d ->
    forallb (fun kv : string * json => let (k, x) := kv in
                                        ascii_text k && printable x) d = true ->
    members_weight d <= fuel ->
    scan_members fuel
      (String.concat ("," ++ newline_indent lvl) (map (member_text lvl) d)
       ++ (newline_indent lvl' ++ String "}" rest)) acc
    = Ret (dict_update acc d, rest).
Proof.
  intros IH. induction d as [|[k x] d IHd]; intros acc fuel N F P W; [congruence|].
  apply Forall_cons_iff in F as [Fx F]. cbn [snd] in Fx. cbn [forallb] in P.
  apply andb_true_iff in P as [Pk P]. apply andb_true_iff in Pk as [Pk Px].
  unfold members_weight in W. cbn [fold_right] in W. fold (members_weight d) in W.
  destruct fuel as [|fuel]; [lia|].
  assert (S1 : forall tail,
             closes_value tail ->
             scan_members (S fuel) (member_text lvl (k, x) ++ tail) acc
             = match skip_ws tail with
               | String "}" rest3 => Ret (dict_set acc k x, rest3)
               | String "," rest3 => scan_members fuel (skip_ws rest3) (dict_set acc k x)
               | _ => decode_error "Expecting ',' delimiter"
               end).
  { intros tail C. rewrite (member_text_ascii lvl k x tail Pk).
    cbn [scan_members]. change (Ascii.eqb DQ DQ) with true. cbn [negb].
    rewrite scanstring_encoded;
      [|exact Pk | rewrite string_length_append; pose proof (escaped_length k); lia].
    cbn [obind]. cbn [skip_ws]. change (is_json_ws ":") with false. cbv iota.
    cbn [skip_ws]. change (is_json_ws " ") with true. cbv iota.
    rewrite skip_ws_value by apply dumps_starts_value.
    rewrite (IH x lvl tail fuel Fx Px ltac:(lia) C). reflexivity. }
  destruct d as [|kv d].
  - cbn [map String.concat]. rewrite (S1 _ (closes_newline _ _)).
    rewrite skip_ws_newline. reflexivity.
  - cbn [map]. rewrite concat_cons_cons, !string_append_assoc. cbn [String.append].
    rewrite (S1 _ (closes_comma _)).
    cbn [skip_ws]. change (is_json_ws ",") with false. cbv iota.
    cbn [forallb] in P. pose proof P as P'. apply andb_true_iff in P' as [Pk' _].
    assert (Ak : ascii_text (fst kv) = true).
    { destruct kv as [k' x']. apply andb_true_iff in Pk' as [Pk' _]. exact Pk'. }
    pose proof (members_start lvl kv d ("," ++ newline_indent lvl)
                  (newline_indent lvl' ++ String "}" rest) Ak) as St.
    pose proof (IHd (dict_set acc k x) fuel ltac:(discriminate) F P ltac:(lia)) as E.
    cbn [map String.append] in E, St |- *.
    rewrite skip_ws_newline, skip_ws_value by exact St.
    rewrite E. reflexivity.
Qed.

End JsonObjects.
Section JsonRoundTrip.

Lemma scan_value_list (fuel : nat) (s : string) :
  starts_value (skip_ws s) ->
  scan_value (S fuel) (String "[" s)
  = obind (scan_elements fuel (skip_ws s)) (fun r => Ret (JList (fst r), snd r)).
Proof.
  cbn [scan_value]. destruct (skip_ws s) as [|c t]; [intros []|]. intros (_ & H & _).
  destruct c as [b0 b1 b2 b3 b4 b5 b6 b7].
  destruct b0, b1, b2, b3, b4, b5, b6, b7; try reflexivity; discriminate.
Qed.

Lemma scan_value_dict (fuel : nat) (s : string) :
  starts_value (skip_ws s) ->
  scan_value (S fuel) (String "{" s)
  = obind (scan_members fuel (skip_ws s) []) (fun r => Ret (JDict (fst r), snd r)).
Proof.
  cbn [scan_value]. destruct (skip_ws s) as [|c t]; [intros []|]. intros (_ & _ & H).
  destruct c as [b0 b1 b2 b3 b4 b5 b6 b7].
  destruct b0, b1, b2, b3, b4, b5, b6, b7; try reflexivity; discriminate.
Qed.

Lemma weight_bound (x : json) (l : list json) : In x l -> nodes x <= weight l.
Proof.
  unfold weight. induction l as [|y l IH]; cbn [In fold_right]; [intros []|].
  intros [-> | H]; [lia | specialize (IH H); lia].
Qed.

Lemma members_weight_bound (kv : string * json) (d : dict) :
  In kv d -> nodes (snd kv) <= members_weight d.
Proof.
  unfold members_weight. induction d as [|[k y] d IH]; cbn [In fold_right]; [intros []|].
  intros [E | H]; [subst kv; cbn [snd]; lia | specialize (IH H); lia].
Qed.

Lemma dict_set_fresh (acc : dict) (k : string) (v : json) :
  dict_mem k acc = false -> dict_set acc k v = acc ++ [(k, v)].
Proof.
  induction acc as [|[k' v'] acc IH]; cbn [dict_mem dict_set app]; [reflexivity|].
  intros H. apply orb_false_iff in H as [H1 H2]. rewrite H1, (IH H2). reflexivity.
Qed.

Lemma dict_mem_app (a b : dict) (k : string) :
  dict_mem k (a ++ b) = (dict_mem k a || dict_mem k b)%bool.
Proof.
  induction a as [|[k' v'] a IH]; cbn [app dict_mem]; [reflexivity|].
  rewrite IH. apply orb_assoc.
Qed.

(** An object without a key twice is built back member by member. *)
Lemma dict_update_distinct (d acc : dict) :
  distinct (map fst d) = true ->
  (forall k, In k (map fst d) -> dict_mem k acc = false) ->
  dict_update acc d = acc ++ d.
Proof.
  unfold dict_update. revert acc.
  induction d as [|[k v] d IH]; intros acc D H; cbn [fold_left fst snd].
  - rewrite app_nil_r. reflexivity.
  - cbn [map fst distinct] in D. apply andb_true_iff in D as [D0 D].
    apply negb_true_iff in D0.
    rewrite dict_set_fresh by (apply H; left; reflexivity).
    rewrite IH; [rewrite <- app_assoc; reflexivity | exact D |].
    intros k' Hk'. rewrite dict_mem_app, (H k') by (right; exact Hk').
    cbn [dict_mem]. rewrite orb_false_r.
    destruct (String.eqb k k') eqn:E; [|reflexivity].
    exfalso. assert (X : existsb (String.eqb k) (map fst d) = true).
    { apply existsb_exists. exists k'. split; [exact Hk' | exact E]. }
    congruence.
Qed.

Lemma list_text (lvl : nat) (x : json) (l : list json) (rest : string) :
  (dumps_at lvl (JList (x :: l)) ++ rest)%string
  = String "[" (newline_indent (S lvl) ++
      (String.concat ("," ++ newline_indent (S lvl)) (map (dumps_at (S lvl)) (x :: l))
       ++ (newline_indent lvl ++ String "]" rest))).
Proof.
  cbn [dumps_at]. rewrite !string_append_assoc. cbn [String.append].
  rewrite ?string_append_assoc. reflexivity.
Qed.

Lemma dict_text (lvl : nat) (kv : string * json) (d : dict) (rest : string) :
  (dumps_at lvl (JDict (kv :: d)) ++ rest)%string
  = String "{" (newline_indent (S lvl) ++
      (String.concat ("," ++ newline_indent (S lvl)) (map (member_text (S lvl)) (kv :: d))
       ++ (newline_indent lvl ++ String "}" rest))).
Proof.
  cbn [dumps_at]. rewrite !string_append_assoc. cbn [String.append].
  rewrite ?string_append_assoc. reflexivity.
Qed.

(** The scanner reads a printed value back and stops behind it. *)
Lemma scans_back_all (n : nat) : scans_back n.
Proof.
  induction n as [|n IH]; intros v lvl rest fuel Hn Pv Hf C.
  { destruct v; cbn [nodes] in Hn; lia. }
  destruct fuel as [|fuel]; [destruct v; cbn [nodes] in Hf; lia|].
  destruct v as [|b|z|s|l|d].
  - reflexivity.
  - destruct b; reflexivity.
  - cbn [dumps_at]. destruct (str_Z_head z rest) as (c & t & E & H).
    rewrite E, (scan_value_number fuel c t H), <- E.
    apply scan_number_printed. exact C.
  - cbn [printable] in Pv. cbn [dumps_at]. rewrite (encode_ascii s Pv).
    cbn [String.append]. rewrite string_append_assoc. cbn [String.append].
    change (scan_value (S fuel) (String DQ (escaped s ++ String DQ rest)))
      with (obind (scanstring (S (String.length (escaped s ++ String DQ rest)))
                     (escaped s ++ String DQ rest))
              (fun r => Ret (JStr (fst r), snd r))).
    rewrite scanstring_encoded;
      [reflexivity | exact Pv |
       rewrite string_length_append; pose proof (escaped_length s); lia].
  - destruct l as [|x l]; [reflexivity|].
    rewrite list_text.
    assert (Sk : forall X, starts_value X ->
                   skip_ws (newline_indent (S lvl) ++ X) = X).
    { intros X HX. rewrite skip_ws_newline. apply skip_ws_value. exact HX. }
    rewrite scan_value_list by (rewrite Sk by apply elements_start; apply elements_start).
    rewrite Sk by apply elements_start.
    cbn [nodes] in Hn, Hf. fold (weight (x :: l)) in Hn, Hf.
    rewrite (scan_elements_printed n (S lvl) lvl rest IH (x :: l) fuel);
      [reflexivity | discriminate | | exact Pv | lia].
    apply Forall_forall. intros y Hy. pose proof (weight_bound y _ Hy). lia.
  - destruct d as [|kv d]; [reflexivity|].
    rewrite dict_text.
    cbn [nodes] in Hn, Hf. fold (members_weight (kv :: d)) in Hn, Hf.
    cbn [printable] in Pv. apply andb_true_iff in Pv as [Dk Pv].
    assert (Ak : ascii_text (fst kv) = true).
    { cbn [forallb] in Pv. apply andb_true_iff in Pv as [Pk _].
      destruct kv as [k x]. apply andb_true_iff in Pk as [Pk _]. exact Pk. }
    assert (Sk : forall X, starts_value X ->
                   skip_ws (newline_indent (S lvl) ++ X) = X).
    { intros X HX. rewrite skip_ws_newline. apply skip_ws_value. exact HX. }
    rewrite scan_value_dict
      by (rewrite Sk by (apply members_start; exact Ak); apply members_start; exact Ak).
    rewrite Sk by (apply members_start; exact Ak).
    rewrite (scan_members_printed n (S lvl) lvl rest IH (kv :: d) [] fuel);
      [| discriminate | | exact Pv | lia].
    + cbn [obind fst snd]. rewrite dict_update_distinct; [reflexivity | exact Dk |].
      intros k _. reflexivity.
    + apply Forall_forall. intros y Hy. pose proof (members_weight_bound y _ Hy). lia.
Qed.

End JsonRoundTrip.
Section JsonFuel.

Lemma concat_length_bound {A} (size : A -> nat) (text : A -> string) (sep : string)
  (l : list A) :
  1 <= String.length sep ->
  (forall x, In x l -> size x <= String.length (text x)) ->
  fold_right (fun x n => S (size x + n)) 0 l
  <= String.length (String.concat sep (map text l)) + 1.
Proof.
  intros Hs. induction l as [|x l IH]; intros H; cbn [fold_right map]; [lia|].
  pose proof (H x (or_introl eq_refl)) as Hx.
  assert (Hl : forall y, In y l -> size y <= String.length (text y))
    by (intros y Hy; apply H; right; exact Hy).
  specialize (IH Hl). destruct l as [|y l].
  - cbn [map String.concat fold_right]. lia.
  - cbn [map] in *. rewrite concat_cons_cons, !string_length_append. lia.
Qed.

(** A printed value has at least as many characters as the value has
    nodes. *)
Lemma nodes_length (n : nat) :
  forall v lvl, nodes v <= n -> nodes v <= String.length (dumps_at lvl v).
Proof.
  induction n as [|n IH]; intros v lvl Hn.
  { destruct v; cbn [nodes] in Hn; lia. }
  destruct v as [|b|z|s|l|d].
  - cbn. lia.
  - destruct b; cbn; lia.
  - cbn [nodes dumps_at]. destruct (str_Z_head z EmptyString) as (c & t & E & _).
    rewrite string_append_nil in E. rewrite E. cbn [String.length]. lia.
  - cbn [nodes dumps_at]. unfold encode_basestring_ascii, chr. cbn [String.append String.length]. lia.
  - destruct l as [|x l]; [cbn; lia|].
    pose proof (list_text lvl x l EmptyString) as T. rewrite string_append_nil in T.
    rewrite T. cbn [nodes] in *.
    pose proof (concat_length_bound nodes (dumps_at (S lvl))
                  ("," ++ newline_indent (S lvl)) (x :: l)) as B.
    cbn [String.length]. rewrite !string_length_append.
    assert (Hw : forall y, In y (x :: l) -> nodes y <= String.length (dumps_at (S lvl) y)).
    { intros y Hy. apply IH. pose proof (weight_bound y _ Hy) as W. unfold weight in W. lia. }
    specialize (B ltac:(cbn; lia) Hw). cbn [String.length]. lia.
  - destruct d as [|kv d]; [cbn; lia|].
    pose proof (dict_text lvl kv d EmptyString) as T. rewrite string_append_nil in T.
    rewrite T. cbn [nodes] in *.
    pose proof (concat_length_bound (fun kv : string * json => nodes (snd kv))
                  (member_text (S lvl))
                  ("," ++ newline_indent (S lvl)) (kv :: d)) as B.
    cbn [String.length]. rewrite !string_length_append.
    assert (Hw : forall y, In y (kv :: d) ->
                   nodes (snd y) <= String.length (member_text (S lvl) y)).
    { intros [k y] Hy. cbn [snd]. unfold member_text. rewrite !string_length_append.
      pose proof (members_weight_bound (k, y) _ Hy) as W. unfold members_weight in W.
      cbn [snd] in W.
      assert (nodes y <= String.length (dumps_at (S lvl) y)) by (apply IH; lia). lia. }
    specialize (B ltac:(cbn; lia) Hw).
    assert (Q : fold_right (fun (kv0 : string * json) (n0 : nat) =>
                              let (_, x) := kv0 in S (nodes x + n0)) 0 (kv :: d)
                = fold_right (fun (x : string * json) (n0 : nat) =>
                                S (nodes (snd x) + n0)) 0 (kv :: d)).
    { clear. induction (kv :: d) as [|[k y] l IHl]; cbn [fold_right snd]; [reflexivity|].
      rewrite IHl. reflexivity. }
    rewrite Q in *. cbn [String.length]. lia.
Qed.

End JsonFuel.
Section JsonLoads.

(** The scan of [json.loads] on a printed value. *)
Lemma scan_printed (v : json) :
  printable v = true ->
  skip_ws (json_dumps v) = json_dumps v /\
  scan_value (2 * String.length (json_dumps v) + 2) (json_dumps v) = Ret (v, EmptyString).
Proof.
  intros P. unfold json_dumps.
  pose proof (dumps_starts_value 0 v EmptyString) as S. rewrite string_append_nil in S.
  split; [apply skip_ws_value; exact S|].
  pose proof (scans_back_all (nodes v) v 0 EmptyString
                (2 * String.length (dumps_at 0 v) + 2) (le_n _) P) as E.
  rewrite string_append_nil in E. apply E.
  - pose proof (nodes_length (nodes v) v 0 (le_n _)). lia.
  - left. reflexivity.
Qed.

(** X27.  The text [compress_applicant_data] stores is the text
    [decompress_applicant_data] reads: [json.loads] gives back every value
    that [json.dumps(..., indent=2)] printed, for values of the integer
    fragment whose texts are ASCII and whose objects have no key twice. *)
Theorem printed_document_is_read_back (v : json) :
  printable v = true -> json_loads (json_dumps v) = Ret v.
Proof.
  intros P. destruct (scan_printed v P) as [S E].
  unfold json_loads. rewrite S, E. reflexivity.
Qed.

Lemma printed_document_is_read_back_witness :
  json_loads (json_dumps (Document.to_json Example.doc_A))
  = Ret (Document.to_json Example.doc_A).
Proof.
  apply (printed_document_is_read_back (Document.to_json Example.doc_A)). reflexivity.
Defined.

Lemma printable_get (fields : dict) (k : string) (dflt : json) :
  printable_fields fields = true -> printable dflt = true ->
  printable (dict_get fields k dflt) = true.
Proof.
  unfold printable_fields. induction fields as [|[k' v] f IH]; cbn [forallb dict_get snd];
    intros H D; [exact D|].
  apply andb_true_iff in H as [Hv H]. destruct (String.eqb k' k); auto.
Qed.

Lemma printable_build_document (personal salary : dict) (exps : list dict) (ts : string) :
  printable_fields personal = true ->
  printable_fields salary = true ->
  forallb printable_fields exps = true ->
  ascii_text ts = true ->
  printable (AirtableCompressor.build_document personal exps salary ts) = true.
Proof.
  intros Pp Ps Px Pt.
  unfold AirtableCompressor.build_document, AirtableCompressor.personal_to_canonical,
    AirtableCompressor.salary_to_canonical.
  assert (E : forallb printable (map AirtableCompressor.experience_to_canonical exps) = true).
  { induction exps as [|e exps IH]; [reflexivity|]. cbn [forallb map] in *.
    apply andb_true_iff in Px as [Pe Px]. rewrite (IH Px), andb_true_r.
    unfold AirtableCompressor.experience_to_canonical.
    cbn [printable map fst distinct existsb forallb].
    rewrite !(printable_get e) by (try exact Pe; reflexivity). reflexivity. }
  cbn [printable map fst forallb]. rewrite E.
  rewrite !(printable_get personal), !(printable_get salary)
    by (try exact Pp; try exact Ps; reflexivity).
  cbn [printable]. rewrite Pt. reflexivity.
Qed.

End JsonLoads.
(* ================================================================== *)
(** * From the native records to the document and back *)

Section ThereAndBack.

Import AirtableCompressor AirtableDecompressor.

(** X17.  Compression followed by decompression gives the native records
    back.  While the transport works, for an applicant with both required
    sub-records, record ids being distinct, the field values of the
    applicant's native records being printable (integer fragment, ASCII
    texts, no key twice) and the clock reading an ASCII text:
    [compress_applicant_data] followed by [decompress_applicant_data]
    leaves the Personal and the Salary sub-record under their ids with
    every field they had at its value (the link apart, which becomes a link
    to the applicant alone), and replaces the applicant's Work Experience
    records by records that carry, in the same order, the six fields of the
    document (defaults where a field was absent, an empty end date for a
    current position) and the link; any other field of a Work Experience
    record is lost. *)
Theorem compress_then_decompress (id : string) (w : world) (rp rs ra : airtable_record) :
  healthy w ->
  sub_record PersonalDetails id w = Some rp ->
  sub_record SalaryPreferences id w = Some rs ->
  find (has_id id) (applicants_rows w) = Some ra ->
  NoDup (map rec_id (personal_rows w)) ->
  NoDup (map rec_id (salary_rows w)) ->
  NoDup (map rec_id (linked WorkExperience id w)) ->
  printable_fields (rec_fields rp) = true ->
  printable_fields (rec_fields rs) = true ->
  forallb printable_fields (map rec_fields (linked WorkExperience id w)) = true ->
  ascii_text (clock w (ticks w)) = true ->
  exists doc w1 w2 rp' rs',
    compress_applicant_data id w = (Ret (Some doc), w1) /\
    decompress_applicant_data id w1 = (Ret true, w2) /\
    sub_record PersonalDetails id w2 = Some rp' /\ keeps_fields_of id rp rp' /\
    sub_record SalaryPreferences id w2 = Some rs' /\ keeps_fields_of id rs rs' /\
    map rec_fields (linked WorkExperience id w2)
    = map (restored id) (map rec_fields (linked WorkExperience id w)).
Proof.
  intros Hh Sp Ss Fa Np Ns Nx Pp Ps Px Pt.
  apply (compress_decompress_run id w rp rs ra Hh Sp Ss Fa Np Ns Nx).
  destruct (scan_printed _ (printable_build_document _ _ _ _ Pp Ps Px Pt)) as [S E].
  unfold json_loads. rewrite S, E. reflexivity.
Qed.

Lemma compress_then_decompress_witness :
  exists doc w1 w2 rp' rs',
    compress_applicant_data "recD" Example.steady = (Ret (Some doc), w1) /\
    decompress_applicant_data "recD" w1 = (Ret true, w2) /\
    sub_record PersonalDetails "recD" w2 = Some rp' /\
    keeps_fields_of "recD" (Example.personal_of "recP4" "Dan" "recD") rp' /\
    sub_record SalaryPreferences "recD" w2 = Some rs' /\
    keeps_fields_of "recD" (Example.salary_of "recS4" "recD") rs' /\
    map rec_fields (linked WorkExperience "recD" w2)
    = map (restored "recD") (map rec_fields (linked WorkExperience "recD" Example.steady)).
Proof.
  apply (compress_then_decompress "recD" Example.steady
           (Example.personal_of "recP4" "Dan" "recD")
           (Example.salary_of "recS4" "recD") Example.applicant_D).
  - exact steady_healthy.
  - reflexivity.
  - reflexivity.
  - reflexivity.
  - repeat (constructor; [cbn; intuition discriminate|]). constructor.
  - repeat (constructor; [cbn; intuition discriminate|]). constructor.
  - repeat (constructor; [cbn; intuition discriminate|]). constructor.
  - reflexivity.
  - reflexivity.
  - reflexivity.
  - reflexivity.
Defined.

End ThereAndBack.
Section CompressThenValidate.

Import AirtableCompressor AirtableDecompressor.

Lemma read_equals_compressed (fields : dict) (k : string) (dflt : json) :
  dict_mem k fields && is_scalar (dict_get fields k JNull) = true ->
  py_eq (dict_get fields k JNull) (dict_get fields k dflt) = true.
Proof.
  intros H. apply andb_true_iff in H as [M S].
  rewrite (dict_get_mem fields k dflt JNull M). apply py_eq_scalar. exact S.
Qed.

Lemma validate_personal_compressed (id : string) (r : airtable_record) (w : world) :
  fails w (calls w) = false ->
  sub_record PersonalDetails id w = Some r ->
  complete personal_fields (rec_fields r) = true ->
  _validate_personal_data id (personal_to_canonical (rec_fields r)) w
  = (Ret true, count_call w).
Proof.
  intros Hf Sr C. unfold _validate_personal_data. apply try_ret.
  unfold bind at 1, search. rewrite remote_ok by exact Hf.
  unfold sub_record, linked in Sr. cbn [fst snd].
  change (rows PersonalDetails (count_call w)) with (rows PersonalDetails w).
  destruct (filter _ _) as [|x l]; [discriminate|]. injection Sr as ->.
  unfold lift, py_get, py_and, personal_to_canonical. cbn [obind].
  cbn [complete personal_fields forallb] in C.
  repeat (apply andb_true_iff in C as [?C C]).
  cbn [dict_get String.eqb Ascii.eqb Bool.eqb].
  rewrite !read_equals_compressed by assumption. reflexivity.
Qed.

Lemma validate_salary_compressed (id : string) (r : airtable_record) (w : world) :
  fails w (calls w) = false ->
  sub_record SalaryPreferences id w = Some r ->
  complete salary_fields (rec_fields r) = true ->
  _validate_salary_data id (salary_to_canonical (rec_fields r)) w
  = (Ret true, count_call w).
Proof.
  intros Hf Sr C. unfold _validate_salary_data. apply try_ret.
  unfold bind at 1, search. rewrite remote_ok by exact Hf.
  unfold sub_record, linked in Sr. cbn [fst snd].
  change (rows SalaryPreferences (count_call w)) with (rows SalaryPreferences w).
  destruct (filter _ _) as [|x l]; [discriminate|]. injection Sr as ->.
  unfold lift, py_get, py_and, salary_to_canonical. cbn [obind].
  cbn [complete salary_fields forallb] in C.
  repeat (apply andb_true_iff in C as [?C C]).
  cbn [dict_get String.eqb Ascii.eqb Bool.eqb].
  rewrite !read_equals_compressed by assumption. reflexivity.
Qed.

Lemma views_compressed (exps : list dict) :
  forallb record_complete exps = true ->
  exists ev,
    map native_view exps = map Some ev /\
    map canonical_view (map (fun f => section_dict (experience_to_canonical f)) exps)
    = map Some ev /\
    forall v, In v ev -> py_eq (snd v) (snd v) = true.
Proof.
  induction exps as [|f exps IH]; cbn [forallb map]; intros H.
  - exists []. repeat split. intros v [].
  - apply andb_true_iff in H as [Hf H]. destruct (IH H) as (ev & Na & Ca & Pa).
    unfold record_complete in Hf.
    destruct (dict_get f "Company" JNull) as [| | | c | |] eqn:Ec; try discriminate.
    apply andb_true_iff in Hf as [M S].
    exists ((c, dict_get f "Title" JNull) :: ev). cbn [map]. rewrite Na, Ca.
    split; [|split].
    + unfold native_view. rewrite Ec. reflexivity.
    + unfold canonical_view, experience_to_canonical, section_dict.
      cbn [dict_get String.eqb Ascii.eqb Bool.eqb].
      rewrite (dict_get_present f "Company" JNull (JStr "") (JStr c) Ec) by discriminate.
      rewrite (dict_get_mem f "Title" (JStr "") JNull M). reflexivity.
    + intros v [<- | Hv]; [apply py_eq_scalar; exact S | apply Pa; exact Hv].
Qed.

(** X28.  A freshly compressed document validates, when the native
    records are complete.  While the transport works, for an applicant
    whose Personal and Salary sub-records have every compared field with a
    scalar value and whose Work Experience records have a text company and
    a scalar title (field values printable, the clock reading an ASCII
    text): [validate_data_integrity] right after
    [compress_applicant_data] answers [True] for the three sections. *)
Theorem compressed_document_validates (id : string) (w : world)
  (rp rs ra : airtable_record) :
  healthy w ->
  sub_record PersonalDetails id w = Some rp ->
  sub_record SalaryPreferences id w = Some rs ->
  find (has_id id) (applicants_rows w) = Some ra ->
  printable_fields (rec_fields rp) = true ->
  printable_fields (rec_fields rs) = true ->
  forallb printable_fields (map rec_fields (linked WorkExperience id w)) = true ->
  ascii_text (clock w (ticks w)) = true ->
  complete personal_fields (rec_fields rp) = true ->
  complete salary_fields (rec_fields rs) = true ->
  forallb record_complete (map rec_fields (linked WorkExperience id w)) = true ->
  exists doc w1 w2,
    compress_applicant_data id w = (Ret (Some doc), w1) /\
    validate_data_integrity id w1 = (Ret all_valid, w2).
Proof.
  intros Hh Sp Ss Fa Pp Ps Px Pt Cp Cs Cx.
  destruct (compress_healthy id w rp rs ra Hh Sp Ss Fa) as (w1 & E & A & K & H1).
  set (exps := map rec_fields (linked WorkExperience id w)) in *.
  set (doc := build_document (rec_fields rp) exps (rec_fields rs) (clock w (ticks w))) in *.
  set (ts := clock w (S (ticks w))) in *.
  pose proof (K PersonalDetails ltac:(discriminate)) as Kp.
  pose proof (K WorkExperience ltac:(discriminate)) as Kx.
  pose proof (K SalaryPreferences ltac:(discriminate)) as Ks.
  assert (Fa1 : find (has_id id) (rows Applicants w1)
                = Some (Rec (rec_id ra) (dict_update (rec_fields ra) (compress_payload doc ts)))).
  { cbn [rows]. rewrite A, find_update_rows, Fa. cbn [option_map].
    apply find_some in Fa as [_ ->]. reflexivity. }
  assert (Gs1 : dict_get (dict_update (rec_fields ra) (compress_payload doc ts))
                  "Compressed JSON" JNull = JStr (json_dumps doc)).
  { rewrite dict_get_update. reflexivity. }
  assert (Ld : json_loads (json_dumps doc) = Ret doc).
  { destruct (scan_printed _ (printable_build_document _ _ _ _ Pp Ps Px Pt)) as [S0 E0].
    unfold json_loads. fold doc in S0, E0. rewrite S0, E0. reflexivity. }
  destruct (views_compressed exps Cx) as (ev & Na & Ca & Pa).
  set (es := map (fun f => section_dict (experience_to_canonical f)) exps) in *.
  assert (Ge : map experience_to_canonical exps = map JDict es).
  { unfold es. rewrite map_map. reflexivity. }
  assert (Sp1 : sub_record PersonalDetails id (count_call w1) = Some rp).
  { unfold sub_record, linked.
    change (rows PersonalDetails (count_call w1)) with (rows PersonalDetails w1).
    rewrite Kp. exact Sp. }
  assert (Ss1 : sub_record SalaryPreferences id
                  (count_call (count_call (count_call w1))) = Some rs).
  { unfold sub_record, linked.
    change (rows SalaryPreferences (count_call (count_call (count_call w1))))
      with (rows SalaryPreferences w1).
    rewrite Ks. exact Ss. }
  assert (Nx : map native_view
                 (map rec_fields (linked WorkExperience id (count_call (count_call w1))))
               = map Some ev).
  { unfold linked.
    change (rows WorkExperience (count_call (count_call w1)))
      with (rows WorkExperience w1).
    rewrite Kx. exact Na. }
  exists doc, w1. eexists. split; [exact E|].
  unfold validate_data_integrity. apply try_ret.
  rewrite (bind_run _ _ _ _ _ (get_run Applicants id w1 _ H1 Fa1)).
  cbn [rec_fields].
  rewrite (dict_mem_of_get _ _ _ Gs1) by discriminate. cbn [negb].
  rewrite Gs1. unfold bind at 1, lift at 1, py_json_loads. rewrite Ld.
  unfold bind at 1, lift at 1. unfold doc at 1, build_document at 1.
  cbn [py_get dict_get String.eqb Ascii.eqb Bool.eqb].
  rewrite (bind_run _ _ _ _ _
             (validate_personal_compressed id rp (count_call w1) (H1 _) Sp1 Cp)).
  unfold bind at 1, lift at 1. unfold doc at 1, build_document at 1.
  cbn [py_get dict_get String.eqb Ascii.eqb Bool.eqb]. rewrite Ge.
  rewrite (bind_run _ _ _ _ _
             (validate_experience_run id (count_call (count_call w1)) es ev ev
                (H1 _) Nx Ca)).
  unfold bind at 1, lift at 1. unfold doc at 1, build_document at 1.
  cbn [py_get dict_get String.eqb Ascii.eqb Bool.eqb].
  rewrite (bind_run _ _ _ _ _
             (validate_salary_compressed id rs (count_call (count_call (count_call w1)))
                (H1 _) Ss1 Cs)).
  rewrite (experience_agrees_same ev Pa). reflexivity.
Qed.

Lemma compressed_document_validates_witness :
  exists doc w1 w2,
    compress_applicant_data "recD" Example.steady = (Ret (Some doc), w1) /\
    validate_data_integrity "recD" w1 = (Ret all_valid, w2).
Proof.
  apply (compressed_document_validates "recD" Example.steady
           (Example.personal_of "recP4" "Dan" "recD")
           (Example.salary_of "recS4" "recD") Example.applicant_D).
  - exact steady_healthy.
  - reflexivity.
  - reflexivity.
  - reflexivity.
  - reflexivity.
  - reflexivity.
  - reflexivity.
  - reflexivity.
  - reflexivity.
  - reflexivity.
  - reflexivity.
Defined.

End CompressThenValidate.
